(** * Custodial wallet: ledger, deposit and withdrawal pipelines, key manager

    A shallow embedding of the Go services of the custodial wallet backend
    (packages [wallet], [riskcontrol], [deposit], [withdrawal] and
    [keymanager]) together with the properties of their specification.

    Modelling conventions.

    - A database table is the list of its rows in primary-key order.  A GORM
      [Where(..).First(&row)] is the first row satisfying the predicate
      ([nil, nil] when there is none), [Where(..).Update(col, expr)] rewrites
      every row satisfying the predicate and reports no error when no row
      matches (GORM only sets [RowsAffected]), [Create] appends a row with a
      fresh primary key unless a unique index is violated.
    - The database connection itself does not fail and rows are stored as
      given (column types and lengths reject nothing): the only database
      errors are violations of the unique indexes declared in the models.
    - A Go function returning [error] returns [option error] ([None] is
      [nil]); one returning [(T, error)] returns [result T].
    - Columns of SQL type [decimal(36,18)] hold exact decimals; they are
      integers counting units of 10^-18.  A Go [string] that carries a
      decimal is a [DecStr]: the empty string, a string that is not a decimal
      literal, or the literal of a decimal.  Where a string already parsed
      is handed on to SQL, the number it denotes is handed on.
    - Timestamps that no modelled decision reads ([updated_at], [signed_at],
      ...) are left out of the rows. *)

From Stdlib Require Import ZArith List String Ascii Bool Lia DecimalString.
Import ListNotations.
Local Open Scope string_scope.
Local Open Scope Z_scope.

(** ** Errors and results *)

Inductive error : Type :=
| ErrInvalidAmount          (* errors.New("invalid amount") *)
| ErrInsufficientBalance
| ErrExceedDailyLimit
| ErrExceedSingleLimit
| ErrBelowMinAmount
| ErrWithdrawalNotFound
| ErrDepositNotFound
| ErrUnsupportedChain       (* errors.New("unsupported chain") *)
| ErrKeyNotFound
| ErrKeyNotOwned            (* errors.New("key does not belong to user") *)
| ErrMasterKeyExists        (* errors.New("master key already exists") *)
| ErrEncryptionFailed
| ErrDecryptionFailed
| ErrSignatureFailed
| ErrDuplicateKey           (* unique index violation reported by the database *)
| ErrExternal (msg : string) (* error value of a library or of a chain adapter *).

Inductive result (A : Type) : Type :=
| Ok (a : A)
| Err (e : error).
Arguments Ok {A} a.
Arguments Err {A} e.

(** ** Decimals *)

Definition Decimal := Z.

Inductive DecStr : Type :=
| SEmpty
| SBad
| SNum (d : Decimal).

(** [decimal.NewFromString] *)
Definition NewFromString (s : DecStr) : result Decimal :=
  match s with
  | SNum d => Ok d
  | SEmpty | SBad => Err (ErrExternal "can't convert to decimal")
  end.

(** [d, _ := decimal.NewFromString(s)]: the zero decimal on a parse error. *)
Definition NewFromString_ (s : DecStr) : Decimal :=
  match NewFromString s with
  | Ok d => d
  | Err _ => 0
  end.

Definition isEmptyStr (s : DecStr) : bool :=
  match s with SEmpty => true | _ => false end.

(** ** Primary keys

    The key a table's sequence hands to [Create]: above every key in use. *)

Definition next_id (ids : list Z) : Z := 1 + fold_right Z.max 0 ids.

(** ** Package wallet: the balance ledger *)

Module WalletModel.

Record Balance : Type := mkBalance {
  ID : Z;
  WalletID : Z;
  UserID : Z;
  Chain : string;
  Currency : string;
  Available : Decimal;
  Frozen : Decimal;
  Pending : Decimal
}.

Definition set_Available (v : Decimal) (b : Balance) : Balance :=
  mkBalance (ID b) (WalletID b) (UserID b) (Chain b) (Currency b)
            v (Frozen b) (Pending b).

Definition set_Frozen (v : Decimal) (b : Balance) : Balance :=
  mkBalance (ID b) (WalletID b) (UserID b) (Chain b) (Currency b)
            (Available b) v (Pending b).

Record Wallet : Type := mkWallet {
  wID : Z;
  wUserID : Z
}.

End WalletModel.

Module WalletRepo.
Import WalletModel.

Definition table := list Balance.

(** [Where("user_id = ? AND chain = ? AND currency = ?", ...)] *)
Definition is_row (userID : Z) (chain currency : string) (b : Balance) : bool :=
  (UserID b =? userID) && String.eqb (Chain b) chain
    && String.eqb (Currency b) currency.

(** [Model(&Balance{}).Where(p).Update(col, expr)] *)
Definition update_where (p : Balance -> bool) (f : Balance -> Balance)
           (t : table) : table :=
  map (fun b => if p b then f b else b) t.

Definition ListWalletsByUserID (userID : Z) (ws : list Wallet)
  : result (list Wallet) :=
  Ok (filter (fun w => wUserID w =? userID) ws).

Definition GetBalance (userID : Z) (chain currency : string) (t : table)
  : result (option Balance) :=
  Ok (find (is_row userID chain currency) t).

Definition IncrementBalance (userID : Z) (chain currency : string)
           (amount : Decimal) (t : table) : option error * table :=
  (None,
   update_where (is_row userID chain currency)
                (fun b => set_Available (Available b + amount) b) t).

Definition DecrementBalance (userID : Z) (chain currency : string)
           (amount : Decimal) (t : table) : option error * table :=
  (None,
   update_where (fun b => is_row userID chain currency b
                          && (amount <=? Available b))
                (fun b => set_Available (Available b - amount) b) t).

(** The transaction runs two statements; neither reports an error, so the
    transaction commits both. *)
Definition FreezeBalance (userID : Z) (chain currency : string)
           (amount : Decimal) (t : table) : option error * table :=
  let t1 := update_where (fun b => is_row userID chain currency b
                                   && (amount <=? Available b))
                         (fun b => set_Available (Available b - amount) b) t in
  let t2 := update_where (is_row userID chain currency)
                         (fun b => set_Frozen (Frozen b + amount) b) t1 in
  (None, t2).

Definition UnfreezeBalance (userID : Z) (chain currency : string)
           (amount : Decimal) (t : table) : option error * table :=
  let t1 := update_where (fun b => is_row userID chain currency b
                                   && (amount <=? Frozen b))
                         (fun b => set_Frozen (Frozen b - amount) b) t in
  let t2 := update_where (is_row userID chain currency)
                         (fun b => set_Available (Available b + amount) b) t1 in
  (None, t2).

End WalletRepo.

Module WalletService.
Import WalletModel.

(** [service.GetBalance].  The table is threaded through so that the
    absence of writes is visible in the result. *)
Definition GetBalance (userID : Z) (chain currency : string)
           (t : WalletRepo.table) : result Balance * WalletRepo.table :=
  match WalletRepo.GetBalance userID chain currency t with
  | Err e => (Err e, t)
  | Ok None => (Ok (mkBalance 0 0 userID chain currency 0 0 0), t)
  | Ok (Some balance) => (Ok balance, t)
  end.

(** The triple a balance read exposes. *)
Definition snapshot (b : Balance) : Decimal * Decimal * Decimal :=
  (Available b, Frozen b, Pending b).

End WalletService.

(** ** Package riskcontrol *)

Module RiskModel.

Inductive RuleType : Type :=
| RuleTypeAmountLimit
| RuleTypeFrequencyLimit
| RuleTypeKYCRequired
| RuleTypeOther (name : string).

(** The JSON document of a rule's [Condition] column, as
    [json.Unmarshal] into [map[string]interface{}] sees it: malformed, or
    an object whose ["max_amount"] member is a JSON string or not. *)
Inductive Condition : Type :=
| CondMalformed
| CondObject (max_amount : option DecStr).

Record RiskRule : Type := mkRiskRule {
  rID : Z;
  rName : string;
  rType : RuleType;
  rChain : string;
  rCurrency : string;
  rCondition : Condition;
  rAction : string;
  rRiskLevel : Z;
  rPriority : Z;
  rStatus : Z
}.

Record Blacklist : Type := mkBlacklist {
  blType : string;
  blValue : string;
  blChain : string;
  blExpiresAt : option Z;
  blStatus : Z
}.

Record RiskLog : Type := mkRiskLog {
  lUserID : Z;
  lAction : string;
  lRiskLevel : Z;
  lResult : string
}.

Record RiskCheckResult : Type := mkRiskCheckResult {
  Passed : bool;
  RiskLevel : Z;
  NeedManualReview : bool;
  Blocked : bool;
  Reason : string;
  MatchedRules : list Z
}.

Record WithdrawalRiskRequest : Type := mkWithdrawalRiskRequest {
  qUserID : Z;
  qChain : string;
  qToAddress : string;
  qCurrency : string;
  qAmount : DecStr
}.

End RiskModel.

Module RiskRepo.
Import RiskModel.

Record tables : Type := mkTables {
  blacklist : list Blacklist;
  rules : list RiskRule;
  logs : list RiskLog
}.

Definition set_logs (l : list RiskLog) (t : tables) : tables :=
  mkTables (blacklist t) (rules t) l.

(** [CheckBlacklist]: a count over the rows that are active, not expired
    at [now], and on the given chain or on no chain. *)
Definition CheckBlacklist (typ value chain : string) (now : Z) (t : tables)
  : result bool :=
  let hit (b : Blacklist) :=
    String.eqb (blType b) typ && String.eqb (blValue b) value
    && (blStatus b =? 1)
    && (if String.eqb chain "" then true
        else String.eqb (blChain b) chain || String.eqb (blChain b) "")
    && (match blExpiresAt b with None => true | Some e => now <? e end) in
  Ok (0 <? Z.of_nat (List.length (filter hit (blacklist t)))).

Fixpoint insert_by_priority (r : RiskRule) (l : list RiskRule) : list RiskRule :=
  match l with
  | [] => [r]
  | x :: l' => if rPriority x <=? rPriority r then r :: x :: l'
               else x :: insert_by_priority r l'
  end.

(** [Where("status = ?", 1).Order("priority DESC")] *)
Definition ListActiveRules (t : tables) : result (list RiskRule) :=
  Ok (fold_right insert_by_priority []
                 (filter (fun r => rStatus r =? 1) (rules t))).

Definition CreateRiskLog (l : RiskLog) (t : tables) : option error * tables :=
  (None, set_logs (logs t ++ [l])%list t).

End RiskRepo.

Module RiskService.
Import RiskModel.

(** [string(rune(n))] for an unsigned [n]: the conversion to [rune] keeps
    32 bits as a signed number, the conversion to [string] is the UTF-8
    encoding of the code point, U+FFFD for an invalid one. *)
Definition rune_of_uint (n : Z) : Z :=
  let m := n mod 2 ^ 32 in
  if m <? 2 ^ 31 then m else m - 2 ^ 32.

Definition byte_string (bs : list Z) : string :=
  fold_right (fun b s => String (ascii_of_N (Z.to_N b)) s) EmptyString bs.

Definition utf8_bytes (r : Z) : list Z :=
  if r <? 128 then [r]
  else if r <? 2048 then
    [Z.lor 192 (Z.shiftr r 6); Z.lor 128 (Z.land r 63)]
  else if r <? 65536 then
    [Z.lor 224 (Z.shiftr r 12); Z.lor 128 (Z.land (Z.shiftr r 6) 63);
     Z.lor 128 (Z.land r 63)]
  else
    [Z.lor 240 (Z.shiftr r 18); Z.lor 128 (Z.land (Z.shiftr r 12) 63);
     Z.lor 128 (Z.land (Z.shiftr r 6) 63); Z.lor 128 (Z.land r 63)].

Definition string_of_rune (r : Z) : string :=
  if (r <? 0) || (1114111 <? r) || ((55296 <=? r) && (r <=? 57343))
  then byte_string (utf8_bytes 65533)
  else byte_string (utf8_bytes r).

Definition evaluateRule (rule : RiskRule) (amount : Decimal) (userID : Z)
  : bool * string :=
  match rCondition rule with
  | CondMalformed => (false, "")
  | CondObject max_amount =>
      match rType rule with
      | RuleTypeAmountLimit =>
          match max_amount with
          | Some maxStr =>
              let maxAmount := NewFromString_ maxStr in
              if maxAmount <? amount then (true, rAction rule) else (false, "")
          | None => (false, "")
          end
      | RuleTypeFrequencyLimit => (false, "")
      | RuleTypeKYCRequired => (false, "")
      | RuleTypeOther _ => (false, "")
      end
  end.

Definition logRiskCheck (userID : Z) (action : string) (riskLevel : Z)
           (res : string) (t : RiskRepo.tables) : RiskRepo.tables :=
  snd (RiskRepo.CreateRiskLog (mkRiskLog userID action riskLevel res) t).

(** One iteration of the loop over the active rules. *)
Definition apply_rule (req : WithdrawalRiskRequest) (amount : Decimal)
           (result : RiskCheckResult) (rule : RiskRule) : RiskCheckResult :=
  if negb (String.eqb (rChain rule) "")
     && negb (String.eqb (rChain rule) (qChain req)) then result
  else if negb (String.eqb (rCurrency rule) "")
          && negb (String.eqb (rCurrency rule) (qCurrency req)) then result
  else
    let '(matched, action) := evaluateRule rule amount (qUserID req) in
    if matched then
      let matchedRules := (MatchedRules result ++ [rID rule])%list in
      let level := if RiskLevel result <? rRiskLevel rule
                   then rRiskLevel rule else RiskLevel result in
      if String.eqb action "block" then
        mkRiskCheckResult false level (NeedManualReview result) true
                          (rName rule) matchedRules
      else if String.eqb action "review" then
        mkRiskCheckResult (Passed result) level true (Blocked result)
                          (Reason result) matchedRules
      else
        mkRiskCheckResult (Passed result) level (NeedManualReview result)
                          (Blocked result) (Reason result) matchedRules
    else result.

Definition CheckWithdrawalRisk (req : WithdrawalRiskRequest) (now : Z)
           (t : RiskRepo.tables) : result RiskCheckResult * RiskRepo.tables :=
  let result := mkRiskCheckResult true 0 false false "" [] in
  match RiskRepo.CheckBlacklist "address" (qToAddress req) (qChain req) now t with
  | Err e => (Err e, t)
  | Ok isBlacklisted =>
    if isBlacklisted then
      let t1 := logRiskCheck (qUserID req) "withdrawal" 0 "block" t in
      (Ok (mkRiskCheckResult false 0 false true "address is blacklisted" []), t1)
    else
      let isUserBlacklisted :=
        match RiskRepo.CheckBlacklist
                "user" (string_of_rune (rune_of_uint (qUserID req))) "" now t with
        | Ok b => b
        | Err _ => false
        end in
      if isUserBlacklisted then
        (Ok (mkRiskCheckResult false 0 false true "user is blacklisted" []), t)
      else
        match RiskRepo.ListActiveRules t with
        | Err e => (Err e, t)
        | Ok rules =>
          let amount := NewFromString_ (qAmount req) in
          let result := fold_left (apply_rule req amount) rules result in
          let logResult :=
            if Blocked result then "block"
            else if NeedManualReview result then "review" else "pass" in
          let t1 := logRiskCheck (qUserID req) "withdrawal"
                                 (RiskLevel result) logResult t in
          (Ok result, t1)
        end
  end.

End RiskService.

(** ** Package blockchain: the chain adapter interface *)

Module Blockchain.

Record TransactionInfo : Type := mkTransactionInfo {
  TxHash : string;
  From : string;
  To : string;
  Amount : DecStr;
  BlockNumber : Z;
  BlockHash : string;
  Confirmations : Z;
  Status : Z              (* 0=pending, 1=success, 2=failed *)
}.

Record Block : Type := mkBlock {
  Number : Z;
  Transactions : list string
}.

(** [types.Log] of go-ethereum, with the fields the scanner reads; topics
    and addresses are kept in the hexadecimal form [Hex()] prints. *)
Record Log : Type := mkLog {
  Address : string;
  Topics : list string;
  Data : Z;               (* new(big.Int).SetBytes(Data) *)
  LogTxHash : string
}.

(** The interface [Chain], and the two optional capabilities the deposit
    scanner looks for by type assertion.  An RPC answers the same way
    during one call of a service function. *)
Record Chain : Type := mkChain {
  GetTransaction : string -> result (option TransactionInfo);
  GetBlockNumber : result Z;
  BuildTransaction : string -> string -> Decimal -> string -> result string;
  BroadcastTransaction : string -> result string;
  EstimateFee : string -> string -> Decimal -> DecStr * option error;
  GetRequiredConfirmations : Z;
  GetBlock : option (Z -> result Block);
  GetLogs : option (Z -> Z -> result (list Log))
}.

Definition registry := string -> option Chain.

End Blockchain.

(** ** Package keymanager *)

Module KeyModel.

Definition bytes := string.

Record EncryptedKey : Type := mkEncryptedKey {
  kID : Z;
  kUserID : Z;
  kChain : string;
  kPublicKey : string;
  kEncryptedPriv : string;
  kKeyType : string;        (* master, derived *)
  kDerivationPath : string;
  kAddress : string;
  kStatus : Z
}.

Definition set_kID (i : Z) (k : EncryptedKey) : EncryptedKey :=
  mkEncryptedKey i (kUserID k) (kChain k) (kPublicKey k) (kEncryptedPriv k)
                 (kKeyType k) (kDerivationPath k) (kAddress k) (kStatus k).

Inductive SignStatus : Type :=
| SignStatusPending
| SignStatusSigned
| SignStatusFailed
| SignStatusRejected.

Record SignatureRequest : Type := mkSignatureRequest {
  sID : Z;
  sRequestID : string;
  sUserID : Z;
  sKeyID : Z;
  sChain : string;
  sRawTx : string;
  sSignedTx : string;
  sStatus : SignStatus;
  sErrorMsg : string
}.

Definition set_sID (i : Z) (r : SignatureRequest) : SignatureRequest :=
  mkSignatureRequest i (sRequestID r) (sUserID r) (sKeyID r) (sChain r)
                     (sRawTx r) (sSignedTx r) (sStatus r) (sErrorMsg r).

(** One call of [ethcrypto.Sign]: what was signed, and the
    [signature_requests] table as it stood at that moment. *)
Record SignEvent : Type := mkSignEvent {
  eChain : string;
  eAddress : string;
  eData : bytes;
  eRequests : list SignatureRequest
}.

(** [bip32.Key] *)
Record ExtKey : Type := mkExtKey {
  Key : bytes;
  ChainCode : bytes
}.

(** The cryptographic libraries behind the key manager (bip39, bip32,
    go-ethereum crypto, pkg/crypto). *)
Record Libs : Type := mkLibs {
  NewSeed : string -> bytes;
  NewMasterKey : bytes -> result ExtKey;
  NewChildKey : ExtKey -> Z -> ExtKey;
  PublicKey : ExtKey -> ExtKey;
  EncryptToBase64 : bytes -> bytes -> result string;
  DecryptFromBase64 : string -> bytes -> result bytes;
  ToECDSA : bytes -> result bytes;
  ecdsaSign : bytes -> bytes -> result bytes;
  deriveEthereumAddress : bytes -> result string;
  deriveTronAddress : bytes -> result string;
  deriveBitcoinAddress : bytes -> result string
}.

Definition hex_digit (n : N) : ascii :=
  match n with
  | 0 => "0" | 1 => "1" | 2 => "2" | 3 => "3" | 4 => "4" | 5 => "5"
  | 6 => "6" | 7 => "7" | 8 => "8" | 9 => "9" | 10 => "a" | 11 => "b"
  | 12 => "c" | 13 => "d" | 14 => "e" | _ => "f"
  end%N%char.

(** [hex.EncodeToString] *)
Fixpoint hexEncode (b : bytes) : string :=
  match b with
  | EmptyString => EmptyString
  | String c rest =>
      let n := N_of_ascii c in
      String (hex_digit (n / 16)) (String (hex_digit (n mod 16)) (hexEncode rest))
  end.

(** [fmt.Sprintf("%d", n)] *)
Definition itoa (n : Z) : string := NilZero.string_of_int (Z.to_int n).

End KeyModel.

Module KeyRepo.
Import KeyModel.

Record tables : Type := mkTables {
  keys : list EncryptedKey;
  requests : list SignatureRequest;
  signed : list SignEvent     (* trace of the calls of ethcrypto.Sign *)
}.

Definition CreateKey (key : EncryptedKey) (t : tables)
  : option error * EncryptedKey * tables :=
  let key' := set_kID (next_id (map kID (keys t))) key in
  (None, key', mkTables (keys t ++ [key'])%list (requests t) (signed t)).

Definition GetKeyByAddress (chain address : string) (t : tables)
  : result (option EncryptedKey) :=
  Ok (find (fun k => String.eqb (kChain k) chain
                     && String.eqb (kAddress k) address) (keys t)).

Definition GetMasterKey (userID : Z) (chain : string) (t : tables)
  : result (option EncryptedKey) :=
  Ok (find (fun k => (kUserID k =? userID) && String.eqb (kChain k) chain
                     && String.eqb (kKeyType k) "master") (keys t)).

Definition GetNextDerivationIndex (userID : Z) (chain : string) (t : tables)
  : result Z :=
  Ok (Z.of_nat (List.length
        (filter (fun k => (kUserID k =? userID) && String.eqb (kChain k) chain
                          && String.eqb (kKeyType k) "derived") (keys t)))).

(** [request_id] carries a unique index. *)
Definition CreateSignatureRequest (req : SignatureRequest) (t : tables)
  : option error * SignatureRequest * tables :=
  if existsb (fun r => String.eqb (sRequestID r) (sRequestID req)) (requests t)
  then (Some ErrDuplicateKey, req, t)
  else
    let req' := set_sID (next_id (map sID (requests t))) req in
    (None, req', mkTables (keys t) (requests t ++ [req'])%list (signed t)).

(** [db.Save(req)] on a row that has its primary key. *)
Definition UpdateSignatureRequest (req : SignatureRequest) (t : tables)
  : option error * tables :=
  (None,
   mkTables (keys t)
            (map (fun r => if sID r =? sID req then req else r) (requests t))
            (signed t)).

Definition record_sign (e : SignEvent) (t : tables) : tables :=
  mkTables (keys t) (requests t) (signed t ++ [e])%list.

End KeyRepo.

Module KeyManager.
Import KeyModel.

Record service : Type := mkService {
  lib : Libs;
  encryptionKey : bytes
}.

Definition FirstHardenedChild : Z := 2147483648.

Definition uint32 (n : Z) : Z := n mod 2 ^ 32.

Definition getCoinType (chain : string) : Z :=
  if String.eqb chain "bitcoin" then 0
  else if String.eqb chain "ethereum" || String.eqb chain "bsc"
          || String.eqb chain "polygon" then 60
  else if String.eqb chain "tron" then 195
  else 60.

Definition deriveAddress (s : service) (chain : string) (privateKey : bytes)
  : result string :=
  if String.eqb chain "ethereum" || String.eqb chain "bsc"
     || String.eqb chain "polygon" then deriveEthereumAddress (lib s) privateKey
  else if String.eqb chain "tron" then deriveTronAddress (lib s) privateKey
  else if String.eqb chain "bitcoin" then deriveBitcoinAddress (lib s) privateKey
  else deriveEthereumAddress (lib s) privateKey.

(** [fmt.Sprintf("m/44'/%d'/0'/0/%d", coinType, index)] *)
Definition derivation_path (coinType index : Z) : string :=
  "m/44'/" ++ itoa coinType ++ "'/0'/0/" ++ itoa index.

(** [entropy] is what [bip39.NewEntropy] and [bip39.NewMnemonic] yield in
    this call: a mnemonic, or the error of either. *)
Definition GenerateMasterKey (s : service) (userID : Z) (chain : string)
           (entropy : result string) (t : KeyRepo.tables)
  : result (EncryptedKey * string) * KeyRepo.tables :=
  match KeyRepo.GetMasterKey userID chain t with
  | Err e => (Err e, t)
  | Ok (Some _) => (Err ErrMasterKeyExists, t)
  | Ok None =>
    match entropy with
    | Err e => (Err e, t)
    | Ok mnemonic =>
      let seed := NewSeed (lib s) mnemonic in
      match NewMasterKey (lib s) seed with
      | Err e => (Err e, t)
      | Ok masterKey =>
        match EncryptToBase64 (lib s) (Key masterKey) (encryptionKey s) with
        | Err _ => (Err ErrEncryptionFailed, t)
        | Ok encryptedPriv =>
          let key := mkEncryptedKey
                       0 userID chain
                       (hexEncode (Key (PublicKey (lib s) masterKey)))
                       encryptedPriv "master" "" "" 1 in
          match KeyRepo.CreateKey key t with
          | (Some e, _, t') => (Err e, t')
          | (None, key', t') => (Ok (key', mnemonic), t')
          end
        end
      end
    end
  end.

(** The part of [GenerateAddress] after the master key is at hand. *)
Definition derive_and_store (s : service) (userID : Z) (chain : string)
           (masterKey : EncryptedKey) (t : KeyRepo.tables)
  : result (string * string) * KeyRepo.tables :=
  match DecryptFromBase64 (lib s) (kEncryptedPriv masterKey) (encryptionKey s) with
  | Err _ => (Err ErrDecryptionFailed, t)
  | Ok masterPrivBytes =>
    match KeyRepo.GetNextDerivationIndex userID chain t with
    | Err e => (Err e, t)
    | Ok index =>
      let coinType := getCoinType chain in
      let derivationPath := derivation_path coinType index in
      match NewMasterKey (lib s) masterPrivBytes with
      | Err e => (Err e, t)
      | Ok master =>
        let purpose := NewChildKey (lib s) master (FirstHardenedChild + 44) in
        let coinTypeKey :=
          NewChildKey (lib s) purpose (FirstHardenedChild + uint32 coinType) in
        let account := NewChildKey (lib s) coinTypeKey (FirstHardenedChild + 0) in
        let change := NewChildKey (lib s) account 0 in
        let addressKey := NewChildKey (lib s) change (uint32 index) in
        match deriveAddress s chain (Key addressKey) with
        | Err e => (Err e, t)
        | Ok address =>
          match EncryptToBase64 (lib s) (Key addressKey) (encryptionKey s) with
          | Err _ => (Err ErrEncryptionFailed, t)
          | Ok encryptedPriv =>
            let derivedKey :=
              mkEncryptedKey 0 userID chain
                             (hexEncode (Key (PublicKey (lib s) addressKey)))
                             encryptedPriv "derived" derivationPath address 1 in
            match KeyRepo.CreateKey derivedKey t with
            | (Some e, _, t') => (Err e, t')
            | (None, _, t') => (Ok (address, derivationPath), t')
            end
          end
        end
      end
    end
  end.

(** [GenerateAddress] returns [(address, derivationPath, err)]; the
    mnemonic of a master key it creates is dropped
    ([masterKey, _, err = s.GenerateMasterKey(..)]). *)
Definition GenerateAddress (s : service) (userID : Z) (chain : string)
           (entropy : result string) (t : KeyRepo.tables)
  : result (string * string) * KeyRepo.tables :=
  match KeyRepo.GetMasterKey userID chain t with
  | Err e => (Err e, t)
  | Ok (Some masterKey) => derive_and_store s userID chain masterKey t
  | Ok None =>
    match GenerateMasterKey s userID chain entropy t with
    | (Err e, t') => (Err e, t')
    | (Ok (masterKey, _), t') => derive_and_store s userID chain masterKey t'
    end
  end.

Definition Sign (s : service) (userID : Z) (chain address : string)
           (txData : bytes) (t : KeyRepo.tables)
  : result bytes * KeyRepo.tables :=
  match KeyRepo.GetKeyByAddress chain address t with
  | Err e => (Err e, t)
  | Ok None => (Err ErrKeyNotFound, t)
  | Ok (Some key) =>
    if negb (kUserID key =? userID) then (Err ErrKeyNotOwned, t)
    else
      match DecryptFromBase64 (lib s) (kEncryptedPriv key) (encryptionKey s) with
      | Err _ => (Err ErrDecryptionFailed, t)
      | Ok privateKey =>
        match ToECDSA (lib s) privateKey with
        | Err e => (Err e, t)
        | Ok privKey =>
          let t1 := KeyRepo.record_sign
                      (mkSignEvent chain address txData (KeyRepo.requests t)) t in
          match ecdsaSign (lib s) txData privKey with
          | Err _ => (Err ErrSignatureFailed, t1)
          | Ok signature => (Ok signature, t1)
          end
        end
      end
  end.

Definition error_text (e : error) : string :=
  match e with
  | ErrKeyNotFound => "key not found"
  | ErrKeyNotOwned => "key does not belong to user"
  | ErrDecryptionFailed => "decryption failed"
  | ErrSignatureFailed => "signature failed"
  | ErrExternal msg => msg
  | _ => "error"
  end.

(** [SignWithRequestID] returns a request pointer and an error; both are
    set when the signature fails after the request row was created. *)
Definition SignWithRequestID (s : service) (requestID : string) (userID : Z)
           (chain address : string) (txData : bytes) (t : KeyRepo.tables)
  : option SignatureRequest * option error * KeyRepo.tables :=
  match KeyRepo.GetKeyByAddress chain address t with
  | Err e => (None, Some e, t)
  | Ok None => (None, Some ErrKeyNotFound, t)
  | Ok (Some key) =>
    let req := mkSignatureRequest 0 requestID userID (kID key) chain
                                  (hexEncode txData) "" SignStatusPending "" in
    match KeyRepo.CreateSignatureRequest req t with
    | (Some e, _, t1) => (None, Some e, t1)
    | (None, req, t1) =>
      match Sign s userID chain address txData t1 with
      | (Err e, t2) =>
          let req := mkSignatureRequest (sID req) (sRequestID req) (sUserID req)
                       (sKeyID req) (sChain req) (sRawTx req) (sSignedTx req)
                       SignStatusFailed (error_text e) in
          let t3 := snd (KeyRepo.UpdateSignatureRequest req t2) in
          (Some req, Some e, t3)
      | (Ok signature, t2) =>
          let req := mkSignatureRequest (sID req) (sRequestID req) (sUserID req)
                       (sKeyID req) (sChain req) (sRawTx req) (hexEncode signature)
                       SignStatusSigned (sErrorMsg req) in
          let t3 := snd (KeyRepo.UpdateSignatureRequest req t2) in
          (Some req, None, t3)
      end
    end
  end.

End KeyManager.

(** ** Package withdrawal *)

Module WithdrawalModel.

Inductive WithdrawalStatus : Type :=
| WithdrawalStatusPending
| WithdrawalStatusRiskReview
| WithdrawalStatusManualReview
| WithdrawalStatusApproved
| WithdrawalStatusProcessing
| WithdrawalStatusBroadcast
| WithdrawalStatusConfirming
| WithdrawalStatusCompleted
| WithdrawalStatusFailed
| WithdrawalStatusRejected
| WithdrawalStatusCancelled.

Definition status_code (s : WithdrawalStatus) : Z :=
  match s with
  | WithdrawalStatusPending => 0
  | WithdrawalStatusRiskReview => 1
  | WithdrawalStatusManualReview => 2
  | WithdrawalStatusApproved => 3
  | WithdrawalStatusProcessing => 4
  | WithdrawalStatusBroadcast => 5
  | WithdrawalStatusConfirming => 6
  | WithdrawalStatusCompleted => 7
  | WithdrawalStatusFailed => 8
  | WithdrawalStatusRejected => 9
  | WithdrawalStatusCancelled => 10
  end.

Definition status_eqb (a b : WithdrawalStatus) : bool :=
  status_code a =? status_code b.

Record Withdrawal : Type := mkWithdrawal {
  ID : Z;
  UUID : string;
  UserID : Z;
  WalletID : Z;
  Chain : string;
  TxHash : string;
  FromAddress : string;
  ToAddress : string;
  Currency : string;
  ContractAddress : string;
  Amount : Decimal;
  Fee : DecStr;
  Status : WithdrawalStatus;
  RiskLevel : Z;
  RiskReview : bool;
  ManualReview : bool;
  Confirmations : Z;
  BlockNumber : Z;
  Memo : string;
  ErrorMsg : string;
  CreatedAt : Z;
  CompletedAt : option Z
}.

Definition set_created (id created : Z) (w : Withdrawal) : Withdrawal :=
  mkWithdrawal id (UUID w) (UserID w) (WalletID w) (Chain w) (TxHash w)
    (FromAddress w) (ToAddress w) (Currency w) (ContractAddress w) (Amount w)
    (Fee w) (Status w) (RiskLevel w) (RiskReview w) (ManualReview w)
    (Confirmations w) (BlockNumber w) (Memo w) (ErrorMsg w) created
    (CompletedAt w).

Definition set_review (s : WithdrawalStatus) (risk manual : bool)
           (w : Withdrawal) : Withdrawal :=
  mkWithdrawal (ID w) (UUID w) (UserID w) (WalletID w) (Chain w) (TxHash w)
    (FromAddress w) (ToAddress w) (Currency w) (ContractAddress w) (Amount w)
    (Fee w) s (RiskLevel w) risk manual
    (Confirmations w) (BlockNumber w) (Memo w) (ErrorMsg w) (CreatedAt w)
    (CompletedAt w).

Definition set_Status (s : WithdrawalStatus) (w : Withdrawal) : Withdrawal :=
  set_review s (RiskReview w) (ManualReview w) w.

Definition set_ErrorMsg (m : string) (w : Withdrawal) : Withdrawal :=
  mkWithdrawal (ID w) (UUID w) (UserID w) (WalletID w) (Chain w) (TxHash w)
    (FromAddress w) (ToAddress w) (Currency w) (ContractAddress w) (Amount w)
    (Fee w) (Status w) (RiskLevel w) (RiskReview w) (ManualReview w)
    (Confirmations w) (BlockNumber w) (Memo w) m (CreatedAt w)
    (CompletedAt w).

Definition set_broadcast (txHash from : string) (w : Withdrawal) : Withdrawal :=
  mkWithdrawal (ID w) (UUID w) (UserID w) (WalletID w) (Chain w) txHash
    from (ToAddress w) (Currency w) (ContractAddress w) (Amount w)
    (Fee w) (Status w) (RiskLevel w) (RiskReview w) (ManualReview w)
    (Confirmations w) (BlockNumber w) (Memo w) (ErrorMsg w) (CreatedAt w)
    (CompletedAt w).

Definition set_chain_info (confirmations blockNumber : Z) (w : Withdrawal)
  : Withdrawal :=
  mkWithdrawal (ID w) (UUID w) (UserID w) (WalletID w) (Chain w) (TxHash w)
    (FromAddress w) (ToAddress w) (Currency w) (ContractAddress w) (Amount w)
    (Fee w) (Status w) (RiskLevel w) (RiskReview w) (ManualReview w)
    confirmations blockNumber (Memo w) (ErrorMsg w) (CreatedAt w)
    (CompletedAt w).

Definition set_CompletedAt (c : option Z) (w : Withdrawal) : Withdrawal :=
  mkWithdrawal (ID w) (UUID w) (UserID w) (WalletID w) (Chain w) (TxHash w)
    (FromAddress w) (ToAddress w) (Currency w) (ContractAddress w) (Amount w)
    (Fee w) (Status w) (RiskLevel w) (RiskReview w) (ManualReview w)
    (Confirmations w) (BlockNumber w) (Memo w) (ErrorMsg w) (CreatedAt w) c.

Record WithdrawalLimit : Type := mkWithdrawalLimit {
  limUserID : Z;            (* 0 = global *)
  limChain : string;
  limCurrency : string;
  MinAmount : DecStr;
  MaxAmount : DecStr;
  DailyLimit : DecStr
}.

Record CreateWithdrawalRequest : Type := mkCreateWithdrawalRequest {
  reqUserID : Z;
  reqWalletID : Z;
  reqChain : string;
  reqToAddress : string;
  reqCurrency : string;
  reqAmount : DecStr;
  reqContractAddress : string;
  reqMemo : string
}.

End WithdrawalModel.

Module WithdrawalRepo.
Import WithdrawalModel.

Definition table := list Withdrawal.

(** The calendar day of a timestamp in seconds: [DATE(created_at)] and
    [time.Now().Format("2006-01-02")]. *)
Definition date_of (t : Z) : Z := t / 86400.

(** [uuid] carries a unique index; [CreatedAt] is filled in by GORM. *)
Definition Create (w : Withdrawal) (now : Z) (t : table)
  : option error * Withdrawal * table :=
  if existsb (fun x => String.eqb (UUID x) (UUID w)) t
  then (Some ErrDuplicateKey, w, t)
  else
    let w' := set_created (next_id (map ID t)) now w in
    (None, w', (t ++ [w'])%list).

(** [db.Save(w)] on a row that has its primary key. *)
Definition Update (w : Withdrawal) (t : table) : option error * table :=
  (None, map (fun x => if ID x =? ID w then w else x) t).

Fixpoint insert_by_created (w : Withdrawal) (l : list Withdrawal)
  : list Withdrawal :=
  match l with
  | [] => [w]
  | x :: l' => if CreatedAt w <=? CreatedAt x then w :: x :: l'
               else x :: insert_by_created w l'
  end.

(** [Order("created_at ASC").Limit(limit)] *)
Definition oldest_first (limit : nat) (l : list Withdrawal) : list Withdrawal :=
  firstn limit (fold_right insert_by_created [] l).

Definition ListByStatus (status : WithdrawalStatus) (limit : nat) (t : table)
  : result (list Withdrawal) :=
  Ok (oldest_first limit (filter (fun w => status_eqb (Status w) status) t)).

Definition ListPendingConfirmation (chain : string) (limit : nat) (t : table)
  : result (list Withdrawal) :=
  Ok (oldest_first limit
        (filter (fun w =>
                   (status_eqb (Status w) WithdrawalStatusBroadcast
                    || status_eqb (Status w) WithdrawalStatusConfirming)
                   && (if String.eqb chain "" then true
                       else String.eqb (Chain w) chain)) t)).

(** [COALESCE(SUM(amount), 0)] over today's rows of the user that are not
    Rejected, Cancelled or Failed, scanned into a string. *)
Definition counts_today (userID : Z) (chain currency : string) (now : Z)
           (w : Withdrawal) : bool :=
  (UserID w =? userID) && String.eqb (Chain w) chain
  && String.eqb (Currency w) currency
  && (date_of (CreatedAt w) =? date_of now)
  && negb (status_eqb (Status w) WithdrawalStatusRejected
           || status_eqb (Status w) WithdrawalStatusCancelled
           || status_eqb (Status w) WithdrawalStatusFailed).

Definition GetUserDailyWithdrawal (userID : Z) (chain currency : string)
           (now : Z) (t : table) : result DecStr :=
  Ok (SNum (fold_right Z.add 0
              (map Amount (filter (counts_today userID chain currency now) t)))).

Definition GetLimit (userID : Z) (chain currency : string)
           (l : list WithdrawalLimit) : result (option WithdrawalLimit) :=
  Ok (find (fun x => (limUserID x =? userID) && String.eqb (limChain x) chain
                     && String.eqb (limCurrency x) currency) l).

Definition GetGlobalLimit (chain currency : string)
           (l : list WithdrawalLimit) : result (option WithdrawalLimit) :=
  Ok (find (fun x => (limUserID x =? 0) && String.eqb (limChain x) chain
                     && String.eqb (limCurrency x) currency) l).

End WithdrawalRepo.

Module WithdrawalService.
Import WithdrawalModel.

Record service : Type := mkService {
  keyManager : KeyManager.service;
  blockchains : Blockchain.registry
}.

Record state : Type := mkState {
  balances : WalletRepo.table;
  withdrawals : WithdrawalRepo.table;
  limits : list WithdrawalLimit;
  risk : RiskRepo.tables;
  keystore : KeyRepo.tables
}.

Definition set_balances (b : WalletRepo.table) (st : state) : state :=
  mkState b (withdrawals st) (limits st) (risk st) (keystore st).
Definition set_withdrawals (w : WithdrawalRepo.table) (st : state) : state :=
  mkState (balances st) w (limits st) (risk st) (keystore st).
Definition set_risk (r : RiskRepo.tables) (st : state) : state :=
  mkState (balances st) (withdrawals st) (limits st) r (keystore st).
Definition set_keystore (k : KeyRepo.tables) (st : state) : state :=
  mkState (balances st) (withdrawals st) (limits st) (risk st) k.

(** The checks of [checkLimits] once the limit row is chosen. *)
Definition check_against (limit : WithdrawalLimit) (userID : Z)
           (chain currency : string) (amount : Decimal) (now : Z)
           (st : state) : option error :=
  if negb (isEmptyStr (MinAmount limit))
     && (amount <? NewFromString_ (MinAmount limit))
  then Some ErrBelowMinAmount
  else if negb (isEmptyStr (MaxAmount limit))
          && (NewFromString_ (MaxAmount limit) <? amount)
  then Some ErrExceedSingleLimit
  else if negb (isEmptyStr (DailyLimit limit)) then
    let dailyWithdrawal :=
      match WithdrawalRepo.GetUserDailyWithdrawal
              userID chain currency now (withdrawals st) with
      | Ok s => s
      | Err _ => SEmpty
      end in
    let dailyTotal := NewFromString_ dailyWithdrawal in
    let dailyLimit := NewFromString_ (DailyLimit limit) in
    if dailyLimit <? dailyTotal + amount then Some ErrExceedDailyLimit
    else None
  else None.

Definition checkLimits (userID : Z) (chain currency : string)
           (amount : Decimal) (now : Z) (st : state) : option error :=
  match WithdrawalRepo.GetLimit userID chain currency (limits st) with
  | Err e => Some e
  | Ok (Some limit) => check_against limit userID chain currency amount now st
  | Ok None =>
    match WithdrawalRepo.GetGlobalLimit chain currency (limits st) with
    | Err e => Some e
    | Ok (Some limit) => check_against limit userID chain currency amount now st
    | Ok None => None
    end
  end.

(** [uuid] is the value of [uuid.New()], [now] the clock of this call. *)
Definition CreateWithdrawal (s : service) (req : CreateWithdrawalRequest)
           (uuid : string) (now : Z) (st : state) : result Withdrawal * state :=
  match NewFromString (reqAmount req) with
  | Err _ => (Err ErrInvalidAmount, st)
  | Ok amount =>
    match WalletRepo.GetBalance (reqUserID req) (reqChain req) (reqCurrency req)
                                (balances st) with
    | Err e => (Err e, st)
    | Ok None => (Err ErrInsufficientBalance, st)
    | Ok (Some balance) =>
      let availableBalance := WalletModel.Available balance in
      if availableBalance <? amount then (Err ErrInsufficientBalance, st)
      else
        match checkLimits (reqUserID req) (reqChain req) (reqCurrency req)
                          amount now st with
        | Some e => (Err e, st)
        | None =>
          match RiskService.CheckWithdrawalRisk
                  (RiskModel.mkWithdrawalRiskRequest
                     (reqUserID req) (reqChain req) (reqToAddress req)
                     (reqCurrency req) (reqAmount req))
                  now (risk st) with
          | (Err e, r1) => (Err e, set_risk r1 st)
          | (Ok riskResult, r1) =>
            let st := set_risk r1 st in
            match WalletRepo.FreezeBalance
                    (reqUserID req) (reqChain req) (reqCurrency req) amount
                    (balances st) with
            | (Some e, b1) => (Err e, set_balances b1 st)
            | (None, b1) =>
              let st := set_balances b1 st in
              let fee :=
                match blockchains s (reqChain req) with
                | Some chain =>
                    fst (Blockchain.EstimateFee chain "" (reqToAddress req) amount)
                | None => SEmpty
                end in
              let withdrawal :=
                mkWithdrawal 0 uuid (reqUserID req) (reqWalletID req)
                  (reqChain req) "" "" (reqToAddress req) (reqCurrency req)
                  (reqContractAddress req) amount fee WithdrawalStatusPending
                  (RiskModel.RiskLevel riskResult) false false 0 0
                  (reqMemo req) "" 0 None in
              let withdrawal :=
                if RiskModel.NeedManualReview riskResult then
                  set_review WithdrawalStatusManualReview
                             (RiskReview withdrawal) true withdrawal
                else if 0 <? RiskModel.RiskLevel riskResult then
                  set_review WithdrawalStatusRiskReview
                             true (ManualReview withdrawal) withdrawal
                else set_Status WithdrawalStatusApproved withdrawal in
              match WithdrawalRepo.Create withdrawal now (withdrawals st) with
              | (Some e, _, _) =>
                  let b2 := snd (WalletRepo.UnfreezeBalance
                                   (reqUserID req) (reqChain req)
                                   (reqCurrency req) amount (balances st)) in
                  (Err e, set_balances b2 st)
              | (None, withdrawal, ws) =>
                  (Ok withdrawal, set_withdrawals ws st)
              end
            end
          end
        end
    end
  end.

Definition save (w : Withdrawal) (st : state) : option error * state :=
  let '(e, ws) := WithdrawalRepo.Update w (withdrawals st) in
  (e, set_withdrawals ws st).

(** Status [Failed] with the cause, saved; the error of the save is
    dropped and the cause returned. *)
Definition fail_with (e : error) (w : Withdrawal) (st : state)
  : option error * state :=
  let w := set_ErrorMsg (KeyManager.error_text e)
                        (set_Status WithdrawalStatusFailed w) in
  (Some e, snd (save w st)).

Definition processWithdrawal (s : service) (w : Withdrawal) (st : state)
  : option error * state :=
  match blockchains s (Chain w) with
  | None => (Some ErrUnsupportedChain, st)
  | Some chain =>
    let w := set_Status WithdrawalStatusProcessing w in
    match save w st with
    | (Some e, st) => (Some e, st)
    | (None, st) =>
      let hotWalletAddress := "" in
      match Blockchain.BuildTransaction chain hotWalletAddress (ToAddress w)
                                        (Amount w) (ContractAddress w) with
      | Err e => fail_with e w st
      | Ok rawTx =>
        match KeyManager.Sign (keyManager s) 0 (Chain w) hotWalletAddress rawTx
                              (keystore st) with
        | (Err e, k1) => fail_with e w (set_keystore k1 st)
        | (Ok signature, k1) =>
          let st := set_keystore k1 st in
          match Blockchain.BroadcastTransaction chain signature with
          | Err e => fail_with e w st
          | Ok txHash =>
            let w := set_Status WithdrawalStatusBroadcast
                                (set_broadcast txHash hotWalletAddress w) in
            save w st
          end
        end
      end
    end
  end.

Definition ProcessApprovedWithdrawals (s : service) (st : state)
  : option error * state :=
  match WithdrawalRepo.ListByStatus WithdrawalStatusApproved 50 (withdrawals st) with
  | Err e => (Some e, st)
  | Ok ws =>
      (None, fold_left (fun st w => snd (processWithdrawal s w st)) ws st)
  end.

(** The body of the loop of [CheckConfirmations] for one withdrawal. *)
Definition check_one (chain : Blockchain.Chain) (requiredConfirmations now : Z)
           (st : state) (w : Withdrawal) : state :=
  if String.eqb (TxHash w) "" then st
  else
    match Blockchain.GetTransaction chain (TxHash w) with
    | Err _ => st
    | Ok None => st
    | Ok (Some txInfo) =>
      let w := set_chain_info (Blockchain.Confirmations txInfo)
                              (Blockchain.BlockNumber txInfo) w in
      if Blockchain.Status txInfo =? 2 then
        let w := set_ErrorMsg "transaction failed on chain"
                              (set_Status WithdrawalStatusFailed w) in
        let b := snd (WalletRepo.UnfreezeBalance (UserID w) (Chain w) (Currency w)
                                                 (Amount w) (balances st)) in
        snd (save w (set_balances b st))
      else if requiredConfirmations <=? Blockchain.Confirmations txInfo then
        let w := set_CompletedAt (Some now)
                                 (set_Status WithdrawalStatusCompleted w) in
        let b := snd (WalletRepo.DecrementBalance (UserID w) (Chain w) (Currency w)
                                                  (Amount w) (balances st)) in
        snd (save w (set_balances b st))
      else
        let w := set_Status WithdrawalStatusConfirming w in
        snd (save w st)
    end.

Definition CheckConfirmations (s : service) (chainName : string) (now : Z)
           (st : state) : option error * state :=
  match blockchains s chainName with
  | None => (Some ErrUnsupportedChain, st)
  | Some chain =>
    match WithdrawalRepo.ListPendingConfirmation chainName 100 (withdrawals st) with
    | Err e => (Some e, st)
    | Ok ws =>
      let requiredConfirmations := Blockchain.GetRequiredConfirmations chain in
      (None, fold_left (check_one chain requiredConfirmations now) ws st)
    end
  end.

End WithdrawalService.

(** ** Package deposit *)

Module DepositModel.

Inductive DepositStatus : Type :=
| DepositStatusPending
| DepositStatusConfirming
| DepositStatusConfirmed
| DepositStatusCredited
| DepositStatusFailed.

Definition status_eqb (a b : DepositStatus) : bool :=
  match a, b with
  | DepositStatusPending, DepositStatusPending
  | DepositStatusConfirming, DepositStatusConfirming
  | DepositStatusConfirmed, DepositStatusConfirmed
  | DepositStatusCredited, DepositStatusCredited
  | DepositStatusFailed, DepositStatusFailed => true
  | _, _ => false
  end.

Record Deposit : Type := mkDeposit {
  ID : Z;
  UUID : string;
  UserID : Z;
  WalletID : Z;
  Chain : string;
  TxHash : string;
  FromAddress : string;
  ToAddress : string;
  Currency : string;
  Amount : DecStr;
  Status : DepositStatus;
  BlockNumber : Z;
  Credited : bool;
  CreditedAt : option Z;
  CreatedAt : Z
}.

Definition set_created (id created : Z) (d : Deposit) : Deposit :=
  mkDeposit id (UUID d) (UserID d) (WalletID d) (Chain d) (TxHash d)
    (FromAddress d) (ToAddress d) (Currency d) (Amount d) (Status d)
    (BlockNumber d) (Credited d) (CreditedAt d) created.

Definition set_Status (s : DepositStatus) (d : Deposit) : Deposit :=
  mkDeposit (ID d) (UUID d) (UserID d) (WalletID d) (Chain d) (TxHash d)
    (FromAddress d) (ToAddress d) (Currency d) (Amount d) s
    (BlockNumber d) (Credited d) (CreditedAt d) (CreatedAt d).

Definition set_credited (now : Z) (d : Deposit) : Deposit :=
  mkDeposit (ID d) (UUID d) (UserID d) (WalletID d) (Chain d) (TxHash d)
    (FromAddress d) (ToAddress d) (Currency d) (Amount d) DepositStatusCredited
    (BlockNumber d) true (Some now) (CreatedAt d).

Record DepositAddress : Type := mkDepositAddress {
  aUserID : Z;
  aChain : string;
  aAddress : string
}.

Record ScanProgress : Type := mkScanProgress {
  pChain : string;
  LastScanned : Z
}.

End DepositModel.

Module DepositRepo.
Import DepositModel.

Record tables : Type := mkTables {
  deposits : list Deposit;
  addresses : list DepositAddress;
  progress : list ScanProgress
}.

Definition set_deposits (d : list Deposit) (t : tables) : tables :=
  mkTables d (addresses t) (progress t).
Definition set_progress (p : list ScanProgress) (t : tables) : tables :=
  mkTables (deposits t) (addresses t) p.

(** [uuid] and [tx_hash] each carry a unique index. *)
Definition CreateDeposit (d : Deposit) (now : Z) (t : tables)
  : option error * tables :=
  if existsb (fun x => String.eqb (UUID x) (UUID d)
                       || String.eqb (TxHash x) (TxHash d)) (deposits t)
  then (Some ErrDuplicateKey, t)
  else
    let d' := set_created (next_id (map ID (deposits t))) now d in
    (None, set_deposits (deposits t ++ [d'])%list t).

Definition GetDepositByID (id : Z) (t : tables) : result (option Deposit) :=
  Ok (find (fun d => ID d =? id) (deposits t)).

(** [Where("tx_hash = ?", txHash)]: the chain is not part of the lookup. *)
Definition GetDepositByTxHash (txHash : string) (t : tables)
  : result (option Deposit) :=
  Ok (find (fun d => String.eqb (TxHash d) txHash) (deposits t)).

Fixpoint insert_by_created (d : Deposit) (l : list Deposit) : list Deposit :=
  match l with
  | [] => [d]
  | x :: l' => if CreatedAt d <=? CreatedAt x then d :: x :: l'
               else x :: insert_by_created d l'
  end.

Definition ListUnconfirmedDeposits (chain : string) (limit : nat) (t : tables)
  : result (list Deposit) :=
  Ok (firstn limit
        (fold_right insert_by_created []
           (filter (fun d => status_eqb (Status d) DepositStatusConfirmed
                             && negb (Credited d)
                             && (if String.eqb chain "" then true
                                 else String.eqb (Chain d) chain))
                   (deposits t)))).

(** [db.Save(deposit)] *)
Definition UpdateDeposit (d : Deposit) (t : tables) : option error * tables :=
  (None, set_deposits (map (fun x => if ID x =? ID d then d else x) (deposits t)) t).

(** [Where("id = ?", id).Updates({credited, credited_at, status})] *)
Definition CreditDeposit (id now : Z) (t : tables) : option error * tables :=
  (None,
   set_deposits (map (fun x => if ID x =? id then set_credited now x else x)
                     (deposits t)) t).

Definition GetDepositAddress (chain address : string) (t : tables)
  : result (option DepositAddress) :=
  Ok (find (fun a => String.eqb (aChain a) chain
                     && String.eqb (aAddress a) address) (addresses t)).

Definition ListAllDepositAddresses (chain : string) (t : tables)
  : result (list DepositAddress) :=
  Ok (filter (fun a => String.eqb (aChain a) chain) (addresses t)).

Definition GetLastScannedBlock (chain : string) (t : tables) : result Z :=
  match find (fun p => String.eqb (pChain p) chain) (progress t) with
  | None => Ok 0
  | Some s => Ok (LastScanned s)
  end.

(** The row of the chain is created on the first call and updated through
    its primary key afterwards: the first row of the chain is rewritten. *)
Fixpoint set_first (chain : string) (block : Z) (l : list ScanProgress)
  : list ScanProgress :=
  match l with
  | [] => [mkScanProgress chain block]
  | p :: l' => if String.eqb (pChain p) chain
               then mkScanProgress (pChain p) block :: l'
               else p :: set_first chain block l'
  end.

Definition SetLastScannedBlock (chain : string) (block : Z) (t : tables)
  : option error * tables :=
  (None, set_progress (set_first chain block (progress t)) t).

End DepositRepo.

Module DepositService.
Import DepositModel.

Record service : Type := mkService {
  blockchains : Blockchain.registry;
  (** [common.HexToAddress(topic.Hex()).Hex()] of go-ethereum *)
  topicAddress : string -> string
}.

Record state : Type := mkState {
  db : DepositRepo.tables;
  balances : WalletRepo.table;
  wallets : list WalletModel.Wallet
}.

Definition set_db (d : DepositRepo.tables) (st : state) : state :=
  mkState d (balances st) (wallets st).
Definition set_balances (b : WalletRepo.table) (st : state) : state :=
  mkState (db st) b (wallets st).

(** [uuid] is the value of [uuid.New()], [now] the clock of this call. *)
Definition ProcessDeposit (chain txHash fromAddress toAddress currency : string)
           (amount : DecStr) (blockNumber : Z) (uuid : string) (now : Z)
           (st : state) : option error * state :=
  let existing :=
    match DepositRepo.GetDepositByTxHash txHash (db st) with
    | Ok d => d
    | Err _ => None
    end in
  match existing with
  | Some _ => (None, st)
  | None =>
    match DepositRepo.GetDepositAddress chain toAddress (db st) with
    | Err e => (Some e, st)
    | Ok None => (None, st)
    | Ok (Some depositAddr) =>
      match WalletRepo.ListWalletsByUserID (aUserID depositAddr) (wallets st) with
      | Err e => (Some e, st)
      | Ok ws =>
        let walletID :=
          match ws with
          | w :: _ => WalletModel.wID w
          | [] => 0
          end in
        let deposit :=
          mkDeposit 0 uuid (aUserID depositAddr) walletID chain txHash
                    fromAddress toAddress currency amount DepositStatusPending
                    blockNumber false None 0 in
        match DepositRepo.CreateDeposit deposit now (db st) with
        | (Some e, _) => (Some e, st)
        | (None, db') => (None, set_db db' st)
        end
      end
    end
  end.

Definition ConfirmDeposit (depositID : Z) (st : state) : option error * state :=
  match DepositRepo.GetDepositByID depositID (db st) with
  | Err e => (Some e, st)
  | Ok None => (Some ErrDepositNotFound, st)
  | Ok (Some deposit) =>
    let '(e, db') := DepositRepo.UpdateDeposit
                       (set_Status DepositStatusConfirmed deposit) (db st) in
    (e, set_db db' st)
  end.

Definition CreditDeposit (depositID : Z) (now : Z) (st : state)
  : option error * state :=
  match DepositRepo.GetDepositByID depositID (db st) with
  | Err e => (Some e, st)
  | Ok None => (Some ErrDepositNotFound, st)
  | Ok (Some deposit) =>
    if Credited deposit then (None, st)
    else
      let amount := NewFromString_ (Amount deposit) in
      match WalletRepo.IncrementBalance (UserID deposit) (Chain deposit)
                                        (Currency deposit) amount (balances st) with
      | (Some e, b) => (Some e, set_balances b st)
      | (None, b) =>
        let st := set_balances b st in
        match DepositRepo.CreditDeposit depositID now (db st) with
        | (Some e, db') => (Some e, set_db db' st)
        | (None, db') => (None, set_db db' st)
        end
      end
  end.

Definition ProcessCredits (now : Z) (st : state) : option error * state :=
  match DepositRepo.ListUnconfirmedDeposits "" 100 (db st) with
  | Err e => (Some e, st)
  | Ok ds => (None, fold_left (fun st d => snd (CreditDeposit (ID d) now st)) ds st)
  end.

(** [n] applications of [CreditDeposit] to the same deposit. *)
Fixpoint credit_times (n : nat) (depositID : Z) (now : Z) (st : state) : state :=
  match n with
  | O => st
  | S n' => credit_times n' depositID now (snd (CreditDeposit depositID now st))
  end.

(** [strings.ToLower] on the ASCII letters addresses are written in. *)
Definition lower_ascii (c : ascii) : ascii :=
  let n := N_of_ascii c in
  if ((65 <=? n) && (n <=? 90))%N then ascii_of_N (n + 32) else c.

Fixpoint ToLower (s : string) : string :=
  match s with
  | EmptyString => EmptyString
  | String c rest => String (lower_ascii c) (ToLower rest)
  end.

Definition uint64 (n : Z) : Z := n mod 2 ^ 64.

Definition maxBlocks : Z := 200.

Definition transferTopic : string :=
  "0xddf252ad1be2c89b69c2b068fc378daa952ba7f163c4a11628f55a4df523b3ef".

(** The upper end of the scan: the latest block, or [lastScanned + 200]
    in 64-bit arithmetic when the latest block lies beyond it. *)
Definition clamp (lastScanned latestBlock : Z) : Z :=
  if uint64 (lastScanned + maxBlocks) <? latestBlock
  then uint64 (lastScanned + maxBlocks) else latestBlock.

(** The heights [for blk := lastScanned + 1; blk <= latestBlock; blk++]
    visits, for a [latestBlock] below 2^64 - 1. *)
Definition window (lastScanned latestBlock : Z) : list Z :=
  let first := uint64 (lastScanned + 1) in
  map (fun i => first + Z.of_nat i)
      (seq 0 (Z.to_nat (latestBlock + 1 - first))).

(** The scanner's accumulator: the state, and how many values were drawn
    from [uuid.New()] so far; [uuids k] is the k-th one. *)
Definition acc := (state * nat)%type.

(** The lookup set of the deposit addresses of a chain, in lower case. *)
Definition lower_set (addrs : list DepositAddress) : list string :=
  map (fun a => ToLower (aAddress a)) addrs.

Definition in_set (addrMap : list string) (a : string) : bool :=
  existsb (String.eqb a) addrMap.

Definition scan_tx (chain : Blockchain.Chain) (chainName : string)
           (addrMap : list string) (uuids : nat -> string) (now : Z)
           (a : acc) (txHash : string) : acc :=
  if String.eqb txHash "" then a
  else
    match Blockchain.GetTransaction chain txHash with
    | Err _ => a
    | Ok None => a
    | Ok (Some txInfo) =>
      if String.eqb (Blockchain.To txInfo) ""
         || isEmptyStr (Blockchain.Amount txInfo) then a
      else if in_set addrMap (ToLower (Blockchain.To txInfo)) then
        let '(st, k) := a in
        (snd (ProcessDeposit chainName (Blockchain.TxHash txInfo)
                             (Blockchain.From txInfo) (Blockchain.To txInfo) "ETH"
                             (Blockchain.Amount txInfo)
                             (Blockchain.BlockNumber txInfo) (uuids k) now st),
         S k)
      else a
    end.

Definition scan_log (s : service) (chainName : string)
           (addrMap : list string) (uuids : nat -> string) (now : Z) (blk : Z)
           (a : acc) (lgEntry : Blockchain.Log) : acc :=
  match Blockchain.Topics lgEntry with
  | t0 :: t1 :: t2 :: _ =>
    if negb (String.eqb t0 transferTopic) then a
    else
      let from := topicAddress s t1 in
      let to := topicAddress s t2 in
      if negb (in_set addrMap (ToLower to)) then a
      else
        let amount := SNum (Blockchain.Data lgEntry) in
        let contract := Blockchain.Address lgEntry in
        let '(st, k) := a in
        (snd (ProcessDeposit chainName (Blockchain.LogTxHash lgEntry) from to
                             contract amount blk (uuids k) now st),
         S k)
  | _ => a
  end.

(** One iteration of the loop over the heights. *)
Definition scan_block (s : service) (chain : Blockchain.Chain)
           (chainName : string) (addrMap : list string)
           (uuids : nat -> string) (now : Z) (a : acc) (blk : Z) : acc :=
  let native :=
    match Blockchain.GetBlock chain with
    | Some getBlock =>
      match getBlock blk with
      | Err _ => None                                   (* continue *)
      | Ok block =>
          Some (fold_left (scan_tx chain chainName addrMap uuids now)
                          (Blockchain.Transactions block) a)
      end
    | None => Some a
    end in
  match native with
  | None => a
  | Some a1 =>
    let a2 :=
      match Blockchain.GetLogs chain with
      | Some getLogs =>
        match getLogs blk blk with
        | Err _ => a1
        | Ok logs =>
            fold_left (scan_log s chainName addrMap uuids now blk) logs a1
        end
      | None => a1
      end in
    let '(st, k) := a2 in
    (set_db (snd (DepositRepo.SetLastScannedBlock chainName blk (db st))) st, k)
  end.

Definition ScanDeposits (s : service) (chainName : string)
           (uuids : nat -> string) (now : Z) (st : state)
  : option error * state :=
  match blockchains s chainName with
  | None => (Some ErrUnsupportedChain, st)
  | Some chain =>
    match DepositRepo.GetLastScannedBlock chainName (db st) with
    | Err e => (Some e, st)
    | Ok lastScanned =>
      match Blockchain.GetBlockNumber chain with
      | Err e => (Some e, st)
      | Ok latestBlock =>
        let latestBlock := clamp lastScanned latestBlock in
        match DepositRepo.ListAllDepositAddresses chainName (db st) with
        | Err e => (Some e, st)
        | Ok addrs =>
          let addrMap := lower_set addrs in
          (None,
           fst (fold_left (scan_block s chain chainName addrMap uuids now)
                          (window lastScanned latestBlock) (st, O)))
        end
      end
    end
  end.

End DepositService.

(** * Notions of the specification *)

Module Spec.
Import WithdrawalModel.

(** The user-specific limit if present, else the global limit (the row of
    user 0) for (chain, currency). *)
Definition limit_of (userID : Z) (chain currency : string)
           (l : WithdrawalLimit) : bool :=
  (limUserID l =? userID) && String.eqb (limChain l) chain
  && String.eqb (limCurrency l) currency.

Definition applicable_limit (userID : Z) (chain currency : string)
           (limits : list WithdrawalLimit) : option WithdrawalLimit :=
  match find (limit_of userID chain currency) limits with
  | Some l => Some l
  | None => find (limit_of 0 chain currency) limits
  end.

Definition excluded (s : WithdrawalStatus) : bool :=
  match s with
  | WithdrawalStatusRejected | WithdrawalStatusCancelled
  | WithdrawalStatusFailed => true
  | _ => false
  end.

(** The sum of the user's withdrawals of the day of [now] for
    (chain, currency), leaving out the Rejected, Cancelled and Failed. *)
Fixpoint daily_total (userID : Z) (chain currency : string) (now : Z)
         (ws : list Withdrawal) : Decimal :=
  match ws with
  | [] => 0
  | w :: rest =>
    if (UserID w =? userID) && String.eqb (Chain w) chain
       && String.eqb (Currency w) currency
       && (CreatedAt w / 86400 =? now / 86400)
       && negb (excluded (Status w))
    then Amount w + daily_total userID chain currency now rest
    else daily_total userID chain currency now rest
  end.

(** The number of derived keys on record for (user, chain). *)
Fixpoint derived_count (userID : Z) (chain : string)
         (keys : list KeyModel.EncryptedKey) : Z :=
  match keys with
  | [] => 0
  | k :: rest =>
    if (KeyModel.kUserID k =? userID) && String.eqb (KeyModel.kChain k) chain
       && String.eqb (KeyModel.kKeyType k) "derived"
    then 1 + derived_count userID chain rest
    else derived_count userID chain rest
  end.

(** The key at m/44'/coin'/0'/0/index below a master key; an apostrophe
    marks a hardened child, numbered from 2^31. *)
Definition bip44_leaf (L : KeyModel.Libs) (master : KeyModel.ExtKey)
           (coin index : Z) : KeyModel.ExtKey :=
  let child := KeyModel.NewChildKey L in
  child (child (child (child (child master (2 ^ 31 + 44)) (2 ^ 31 + coin))
                      (2 ^ 31 + 0)) 0) index.

(** The text m/44'/coin'/0'/0/index. *)
Definition bip44_path (coin index : Z) : string :=
  "m/44'/" ++ KeyModel.itoa coin ++ "'/0'/0/" ++ KeyModel.itoa index.

(** Whether the scanner obtains block [blk]: always when the adapter has no
    GetBlock (only logs are read), else when GetBlock answers. *)
Definition fetched (chain : Blockchain.Chain) (blk : Z) : bool :=
  match Blockchain.GetBlock chain with
  | Some getBlock =>
    match getBlock blk with
    | Ok _ => true
    | Err _ => false
    end
  | None => true
  end.


End Spec.

(** * Concrete states used by the examples *)

Module Fixtures.

(** A toy instance of the cryptographic libraries: derivation appends the
    child index, encryption prefixes the plaintext with a marker. *)
Definition toyLibs : KeyModel.Libs :=
  KeyModel.mkLibs
    (fun mnemonic => mnemonic)
    (fun seed => Ok (KeyModel.mkExtKey seed ""))
    (fun k i => KeyModel.mkExtKey (KeyModel.Key k ++ "/" ++ KeyModel.itoa i)
                                  (KeyModel.ChainCode k))
    (fun k => KeyModel.mkExtKey ("P" ++ KeyModel.Key k) (KeyModel.ChainCode k))
    (fun plain _ => Ok (String "E" plain))
    (fun cipher _ =>
       match cipher with
       | String "E" plain => Ok plain
       | _ => Err (ErrExternal "cipher: message authentication failed")
       end)
    (fun priv => Ok priv)
    (fun data priv => Ok ("sig(" ++ data ++ ")"))
    (fun priv => Ok ("0x" ++ priv))
    (fun priv => Ok ("41" ++ priv))
    (fun priv => Ok ("bc" ++ priv)).

Definition toyKeyManager : KeyManager.service :=
  KeyManager.mkService toyLibs "kek".

(** An EVM adapter in which transaction [0xT] sits in block 101 with 12
    confirmations, and 12 are required. *)
Definition ethAdapter : Blockchain.Chain :=
  Blockchain.mkChain
    (fun h => if String.eqb h "0xT"
              then Ok (Some (Blockchain.mkTransactionInfo
                               "0xT" "0xF" "0xB" (SNum 1000) 101 "0xBH" 12 1))
              else Ok None)
    (Ok 112)
    (fun _ _ _ _ => Ok "raw")
    (fun _ => Ok "0xT")
    (fun _ _ _ => (SNum 21000, None))
    12
    None
    None.

Definition registry : Blockchain.registry :=
  fun name => if String.eqb name "ethereum" then Some ethAdapter else None.

Definition withdrawalService : WithdrawalService.service :=
  WithdrawalService.mkService toyKeyManager registry.

Definition noRisk : RiskRepo.tables := RiskRepo.mkTables [] [] [].
Definition noKeys : KeyRepo.tables := KeyRepo.mkTables [] [] [].

(** User 7 holds [available] and [frozen] ETH on ethereum. *)
Definition ethBalance (available frozen : Decimal) : WalletModel.Balance :=
  WalletModel.mkBalance 1 1 7 "ethereum" "ETH" available frozen 0.

(** Address [0xC] is on the blacklist of ethereum; user 7 holds 1000 and
    asks to withdraw 100 to it. *)
Definition blacklistC : RiskRepo.tables :=
  RiskRepo.mkTables [RiskModel.mkBlacklist "address" "0xC" "ethereum" None 1] [] [].

Definition blockedState : WithdrawalService.state :=
  WithdrawalService.mkState [ethBalance 1000 0] [] [] blacklistC noKeys.

Definition requestToC : WithdrawalModel.CreateWithdrawalRequest :=
  WithdrawalModel.mkCreateWithdrawalRequest
    7 1 "ethereum" "0xC" "ETH" (SNum 100) "" "".

(** A withdrawal of 1000 by user 7, with the given status and hash. *)
Definition withdrawal1000 (status : WithdrawalModel.WithdrawalStatus)
           (txHash : string) : WithdrawalModel.Withdrawal :=
  WithdrawalModel.mkWithdrawal
    1 "uuid-1" 7 1 "ethereum" txHash "" "0xB" "ETH" "" 1000 (SNum 21000)
    status 0 false false 0 0 "" "" 1000 None.

Definition broadcastState (available frozen : Decimal) : WithdrawalService.state :=
  WithdrawalService.mkState
    [ethBalance available frozen]
    [withdrawal1000 WithdrawalModel.WithdrawalStatusBroadcast "0xT"]
    [] noRisk noKeys.

(** A global limit for ETH on ethereum: min 10, max 100, daily 150.  User
    7 holds 1000, has withdrawn 50 today and 70 in a rejected request, and
    asks for 100. *)
Definition globalLimit : WithdrawalModel.WithdrawalLimit :=
  WithdrawalModel.mkWithdrawalLimit 0 "ethereum" "ETH" (SNum 10) (SNum 100) (SNum 150).

Definition earlier (id : Z) (uuid : string) (amount : Decimal)
           (status : WithdrawalModel.WithdrawalStatus) : WithdrawalModel.Withdrawal :=
  WithdrawalModel.mkWithdrawal
    id uuid 7 1 "ethereum" "" "" "0xB" "ETH" "" amount (SNum 21000)
    status 0 false false 0 0 "" "" 900 None.

Definition limitState : WithdrawalService.state :=
  WithdrawalService.mkState
    [ethBalance 1000 120]
    [earlier 1 "uuid-1" 50 WithdrawalModel.WithdrawalStatusApproved;
     earlier 2 "uuid-2" 70 WithdrawalModel.WithdrawalStatusRejected]
    [globalLimit] noRisk noKeys.

Definition requestAtMax : WithdrawalModel.CreateWithdrawalRequest :=
  WithdrawalModel.mkCreateWithdrawalRequest
    7 1 "ethereum" "0xB" "ETH" (SNum 100) "" "".

(** User 7 generated an address on bsc, which opened the balance row of
    the chain's own currency BNB; the scanner recorded a native transfer to
    that address under the currency name it uses for every chain, ETH. *)
Definition bscDepositState : DepositService.state :=
  DepositService.mkState
    (DepositRepo.mkTables
       [DepositModel.mkDeposit 1 "d-1" 7 1 "bsc" "0xD" "0xF" "0xA" "ETH"
                               (SNum 300) DepositModel.DepositStatusConfirmed
                               50 false None 900]
       [DepositModel.mkDepositAddress 7 "bsc" "0xA"]
       [])
    [WalletModel.mkBalance 1 1 7 "bsc" "BNB" 0 0 0]
    [WalletModel.mkWallet 1 7].

(** A deposit with hash [0xabc] is on record for ethereum; user 8 has a
    deposit address on bsc. *)
Definition twoChainState : DepositService.state :=
  DepositService.mkState
    (DepositRepo.mkTables
       [DepositModel.mkDeposit 1 "d-1" 7 1 "ethereum" "0xabc" "0xF" "0xA7" "ETH"
                               (SNum 300) DepositModel.DepositStatusPending
                               50 false None 900]
       [DepositModel.mkDepositAddress 7 "ethereum" "0xA7";
        DepositModel.mkDepositAddress 8 "bsc" "0xA8"]
       [])
    []
    [WalletModel.mkWallet 1 7].

(** The platform hot wallet key lives under user 0 with an empty address,
    the address the processor asks for; one withdrawal is Approved. *)
Definition platformKey : KeyModel.EncryptedKey :=
  KeyModel.mkEncryptedKey 1 0 "ethereum" "pub" "Ekey" "master" "" "" 1.

Definition approvedState : WithdrawalService.state :=
  WithdrawalService.mkState
    [ethBalance 0 1000]
    [withdrawal1000 WithdrawalModel.WithdrawalStatusApproved ""]
    [] noRisk (KeyRepo.mkTables [platformKey] [] []).

(** A Master key of user 7 on ethereum, as the toy libraries store it. *)
Definition userMaster : KeyModel.EncryptedKey :=
  KeyModel.mkEncryptedKey 1 7 "ethereum" "5073656564" "Eseed" "master" "" "" 1.

(** Scanner states: progress of ethereum stands at 100 and user 7 has the
    deposit address [0xb].  In the first adapter block 101 holds one
    transaction, whose details cannot be fetched; in the second block 101
    cannot be fetched and block 102 is empty. *)
Definition scanState : DepositService.state :=
  DepositService.mkState
    (DepositRepo.mkTables [] [DepositModel.mkDepositAddress 7 "ethereum" "0xb"]
                          [DepositModel.mkScanProgress "ethereum" 100])
    [] [].

Definition txFailAdapter : Blockchain.Chain :=
  Blockchain.mkChain
    (fun _ => Err (ErrExternal "timeout"))
    (Ok 101)
    (fun _ _ _ _ => Ok "raw")
    (fun _ => Ok "0xT")
    (fun _ _ _ => (SNum 21000, None))
    12
    (Some (fun h => Ok (Blockchain.mkBlock h ["0xT"])))
    None.

Definition gapAdapter : Blockchain.Chain :=
  Blockchain.mkChain
    (fun _ => Ok None)
    (Ok 102)
    (fun _ _ _ _ => Ok "raw")
    (fun _ => Ok "0xT")
    (fun _ _ _ => (SNum 21000, None))
    12
    (Some (fun h => if h =? 101 then Err (ErrExternal "timeout")
                    else Ok (Blockchain.mkBlock h [])))
    None.

Definition scanner (adapter : Blockchain.Chain) : DepositService.service :=
  DepositService.mkService
    (fun name => if String.eqb name "ethereum" then Some adapter else None)
    (fun topic => topic).

Definition uuids (k : nat) : string := "d-" ++ KeyModel.itoa (Z.of_nat k).

End Fixtures.

(** * Further operations of the packages *)

(** ** Package wallet: addresses of a wallet *)

Module WalletAddresses.

(** [Addr] is the column [address]. *)
Record Address : Type := mkAddress {
  ID : Z;
  UUID : string;
  WalletID : Z;
  UserID : Z;
  Chain : string;
  Addr : string;
  Label : string;
  DerivationPath : string;
  Type_ : Z;
  Status : Z
}.

Definition set_ID (i : Z) (a : Address) : Address :=
  mkAddress i (UUID a) (WalletID a) (UserID a) (Chain a) (Addr a) (Label a)
            (DerivationPath a) (Type_ a) (Status a).

Definition AddressTypeDeposit : Z := 1.
Definition AddressStatusActive : Z := 1.

Definition ErrWalletNotFound : error := ErrExternal "wallet not found".
Definition ErrAddressNotFound : error := ErrExternal "address not found".

Record state : Type := mkState {
  wallets : list WalletModel.Wallet;
  addresses : list Address;
  balances : WalletRepo.table;
  keystore : KeyRepo.tables
}.

Definition GetWalletByID (id : Z) (ws : list WalletModel.Wallet)
  : result (option WalletModel.Wallet) :=
  Ok (find (fun w => WalletModel.wID w =? id) ws).

(** [uuid] carries a unique index. *)
Definition CreateAddress (a : Address) (t : list Address)
  : option error * Address * list Address :=
  if existsb (fun x => String.eqb (UUID x) (UUID a)) t
  then (Some ErrDuplicateKey, a, t)
  else
    let a' := set_ID (next_id (map ID t)) a in
    (None, a', (t ++ [a'])%list).

(** The balances table has no unique index. *)
Definition CreateBalance (b : WalletModel.Balance) (t : WalletRepo.table)
  : option error * WalletRepo.table :=
  (None,
   (t ++ [WalletModel.mkBalance
            (next_id (map WalletModel.ID t)) (WalletModel.WalletID b)
            (WalletModel.UserID b) (WalletModel.Chain b) (WalletModel.Currency b)
            (WalletModel.Available b) (WalletModel.Frozen b)
            (WalletModel.Pending b)])%list).

Definition ListAddressesByUserID (userID : Z) (chain : string) (t : list Address)
  : result (list Address) :=
  Ok (filter (fun a => (UserID a =? userID)
                       && (if String.eqb chain "" then true
                           else String.eqb (Chain a) chain)) t).

Definition GetAvailableDepositAddress (userID : Z) (chain : string)
           (t : list Address) : result (option Address) :=
  Ok (find (fun a => (UserID a =? userID) && String.eqb (Chain a) chain
                     && (Type_ a =? AddressTypeDeposit)
                     && (Status a =? AddressStatusActive)) t).

Definition getDefaultCurrency (chain : string) : string :=
  if String.eqb chain "bitcoin" then "BTC"
  else if String.eqb chain "ethereum" then "ETH"
  else if String.eqb chain "tron" then "TRX"
  else if String.eqb chain "bsc" then "BNB"
  else if String.eqb chain "polygon" then "MATIC"
  else "UNKNOWN".

(** [service.GenerateAddress] of the wallet package; [entropy] and [uuid]
    are what the random sources yield in this call. *)
Definition GenerateAddress (km : KeyManager.service) (walletID : Z)
           (chain label : string) (entropy : result string) (uuid : string)
           (st : state) : result Address * state :=
  match GetWalletByID walletID (wallets st) with
  | Err e => (Err e, st)
  | Ok None => (Err ErrWalletNotFound, st)
  | Ok (Some wallet) =>
    let userID := WalletModel.wUserID wallet in
    match KeyManager.GenerateAddress km userID chain entropy (keystore st) with
    | (Err e, k) => (Err e, mkState (wallets st) (addresses st) (balances st) k)
    | (Ok (addr, derivationPath), k) =>
      let address := mkAddress 0 uuid walletID userID chain addr label
                               derivationPath AddressTypeDeposit
                               AddressStatusActive in
      match CreateAddress address (addresses st) with
      | (Some e, _, _) => (Err e, mkState (wallets st) (addresses st) (balances st) k)
      | (None, address, addrs) =>
        let currency := getDefaultCurrency chain in
        let balance :=
          match WalletRepo.GetBalance userID chain currency (balances st) with
          | Ok b => b
          | Err _ => None
          end in
        let bals :=
          match balance with
          | Some _ => balances st
          | None =>
              snd (CreateBalance
                     (WalletModel.mkBalance 0 walletID userID chain currency 0 0 0)
                     (balances st))
          end in
        (Ok address, mkState (wallets st) addrs bals k)
      end
    end
  end.

Definition GetDepositAddress (userID : Z) (chain : string) (st : state)
  : result Address :=
  match GetAvailableDepositAddress userID chain (addresses st) with
  | Err e => Err e
  | Ok None => Err ErrAddressNotFound
  | Ok (Some address) => Ok address
  end.

End WalletAddresses.

(** ** Package withdrawal: review transitions and limits

    The review metadata (reviewer, time and note) is written to columns no
    decision reads; the rows here do not carry it. *)

Module WithdrawalReview.
Import WithdrawalModel.

Definition ErrNotPendingReview : error :=
  ErrExternal "withdrawal is not pending review".
Definition ErrNotOwner : error :=
  ErrExternal "withdrawal does not belong to user".
Definition ErrCannotCancel : error :=
  ErrExternal "withdrawal cannot be cancelled".

Definition GetByID (id : Z) (t : WithdrawalRepo.table)
  : result (option Withdrawal) :=
  Ok (find (fun w => ID w =? id) t).

Definition GetWithdrawal (withdrawalID : Z) (st : WithdrawalService.state)
  : result Withdrawal :=
  match GetByID withdrawalID (WithdrawalService.withdrawals st) with
  | Err e => Err e
  | Ok None => Err ErrWithdrawalNotFound
  | Ok (Some w) => Ok w
  end.

Definition ApproveWithdrawal (withdrawalID reviewerID : Z) (note : string)
           (st : WithdrawalService.state) : option error * WithdrawalService.state :=
  match GetByID withdrawalID (WithdrawalService.withdrawals st) with
  | Err e => (Some e, st)
  | Ok None => (Some ErrWithdrawalNotFound, st)
  | Ok (Some w) =>
    if negb (status_eqb (Status w) WithdrawalStatusRiskReview)
       && negb (status_eqb (Status w) WithdrawalStatusManualReview)
    then (Some ErrNotPendingReview, st)
    else WithdrawalService.save (set_Status WithdrawalStatusApproved w) st
  end.

Definition RejectWithdrawal (withdrawalID reviewerID : Z) (note : string)
           (st : WithdrawalService.state) : option error * WithdrawalService.state :=
  match GetByID withdrawalID (WithdrawalService.withdrawals st) with
  | Err e => (Some e, st)
  | Ok None => (Some ErrWithdrawalNotFound, st)
  | Ok (Some w) =>
    let w := set_Status WithdrawalStatusRejected w in
    match WithdrawalService.save w st with
    | (Some e, st) => (Some e, st)
    | (None, st) =>
      (None,
       WithdrawalService.set_balances
         (snd (WalletRepo.UnfreezeBalance (UserID w) (Chain w) (Currency w)
                                          (Amount w) (WithdrawalService.balances st)))
         st)
    end
  end.

Definition CancelWithdrawal (withdrawalID userID : Z)
           (st : WithdrawalService.state) : option error * WithdrawalService.state :=
  match GetByID withdrawalID (WithdrawalService.withdrawals st) with
  | Err e => (Some e, st)
  | Ok None => (Some ErrWithdrawalNotFound, st)
  | Ok (Some w) =>
    if negb (UserID w =? userID) then (Some ErrNotOwner, st)
    else if negb (status_eqb (Status w) WithdrawalStatusPending)
            && negb (status_eqb (Status w) WithdrawalStatusRiskReview)
            && negb (status_eqb (Status w) WithdrawalStatusManualReview)
    then (Some ErrCannotCancel, st)
    else
      let w := set_Status WithdrawalStatusCancelled w in
      match WithdrawalService.save w st with
      | (Some e, st) => (Some e, st)
      | (None, st) =>
        (None,
         WithdrawalService.set_balances
           (snd (WalletRepo.UnfreezeBalance (UserID w) (Chain w) (Currency w)
                                            (Amount w) (WithdrawalService.balances st)))
           st)
      end
  end.

Definition set_limits (l : list WithdrawalLimit) (st : WithdrawalService.state)
  : WithdrawalService.state :=
  WithdrawalService.mkState (WithdrawalService.balances st)
                            (WithdrawalService.withdrawals st) l
                            (WithdrawalService.risk st)
                            (WithdrawalService.keystore st).

(** [db.Save] of the row [GetLimit] returned: the first row of the user,
    chain and currency is the one rewritten. *)
Fixpoint UpdateLimit (userID : Z) (chain currency : string)
         (new : WithdrawalLimit) (l : list WithdrawalLimit) : list WithdrawalLimit :=
  match l with
  | [] => []
  | x :: rest =>
    if (limUserID x =? userID) && String.eqb (limChain x) chain
       && String.eqb (limCurrency x) currency
    then new :: rest
    else x :: UpdateLimit userID chain currency new rest
  end.

Definition SetLimit (userID : Z) (chain currency : string)
           (limit : WithdrawalLimit) (st : WithdrawalService.state)
  : option error * WithdrawalService.state :=
  match WithdrawalRepo.GetLimit userID chain currency (WithdrawalService.limits st) with
  | Err e => (Some e, st)
  | Ok (Some existing) =>
    let existing :=
      mkWithdrawalLimit (limUserID existing) (limChain existing)
                        (limCurrency existing) (MinAmount limit)
                        (MaxAmount limit) (DailyLimit limit) in
    (None,
     set_limits (UpdateLimit userID chain currency existing
                             (WithdrawalService.limits st)) st)
  | Ok None =>
    let limit := mkWithdrawalLimit userID chain currency (MinAmount limit)
                                   (MaxAmount limit) (DailyLimit limit) in
    (None, set_limits (WithdrawalService.limits st ++ [limit])%list st)
  end.

Definition GetLimit (userID : Z) (chain currency : string)
           (st : WithdrawalService.state) : result (option WithdrawalLimit) :=
  match WithdrawalRepo.GetLimit userID chain currency (WithdrawalService.limits st) with
  | Err e => Err e
  | Ok None => WithdrawalRepo.GetGlobalLimit chain currency (WithdrawalService.limits st)
  | Ok (Some limit) => Ok (Some limit)
  end.

End WithdrawalReview.

(** ** Package deposit: addresses and confirmations

    The confirmation count decides the status and is otherwise only stored;
    the rows here do not carry it. *)

Module DepositConfirmations.
Import DepositModel.

Definition ErrNoAddress : error :=
  ErrExternal "no address available, please generate one first".

Definition GetUserDepositAddress (userID : Z) (chain : string)
           (t : DepositRepo.tables) : result (option DepositAddress) :=
  Ok (find (fun a => (aUserID a =? userID) && String.eqb (aChain a) chain)
           (DepositRepo.addresses t)).

(** [address] carries a unique index. *)
Definition CreateDepositAddress (addr : DepositAddress) (t : DepositRepo.tables)
  : option error * DepositRepo.tables :=
  if existsb (fun a => String.eqb (aAddress a) (aAddress addr))
             (DepositRepo.addresses t)
  then (Some ErrDuplicateKey, t)
  else (None,
        DepositRepo.mkTables (DepositRepo.deposits t)
                             (DepositRepo.addresses t ++ [addr])%list
                             (DepositRepo.progress t)).

(** [walletAddrs] is the addresses table of the wallet package, which the
    call only reads. *)
Definition AllocateDepositAddress (userID : Z) (chain : string)
           (walletAddrs : list WalletAddresses.Address)
           (st : DepositService.state)
  : result DepositAddress * DepositService.state :=
  match GetUserDepositAddress userID chain (DepositService.db st) with
  | Err e => (Err e, st)
  | Ok (Some existing) => (Ok existing, st)
  | Ok None =>
    match WalletAddresses.ListAddressesByUserID userID chain walletAddrs with
    | Err e => (Err e, st)
    | Ok [] => (Err ErrNoAddress, st)
    | Ok (first :: _) =>
      let addr := mkDepositAddress userID chain (WalletAddresses.Addr first) in
      match CreateDepositAddress addr (DepositService.db st) with
      | (Some e, _) => (Err e, st)
      | (None, db') => (Ok addr, DepositService.set_db db' st)
      end
    end
  end.

Definition ListPendingDeposits (chain : string) (limit : nat)
           (t : DepositRepo.tables) : result (list Deposit) :=
  Ok (firstn limit
        (fold_right DepositRepo.insert_by_created []
           (filter (fun d => (status_eqb (Status d) DepositStatusPending
                              || status_eqb (Status d) DepositStatusConfirming)
                             && (if String.eqb chain "" then true
                                 else String.eqb (Chain d) chain))
                   (DepositRepo.deposits t)))).

Definition set_BlockNumber (n : Z) (d : Deposit) : Deposit :=
  mkDeposit (ID d) (UUID d) (UserID d) (WalletID d) (Chain d) (TxHash d)
    (FromAddress d) (ToAddress d) (Currency d) (Amount d) (Status d)
    n (Credited d) (CreditedAt d) (CreatedAt d).

(** [int(x)] of an unsigned 64-bit [x]. *)
Definition to_int (x : Z) : Z :=
  let m := x mod 2 ^ 64 in
  if m <? 2 ^ 63 then m else m - 2 ^ 64.

(** [int(currentBlock - blockNumber + 1)], the subtraction and the sum in
    unsigned 64-bit arithmetic. *)
Definition confirmations (currentBlock blockNumber : Z) : Z :=
  to_int (DepositService.uint64 (DepositService.uint64 (currentBlock - blockNumber) + 1)).

(** The deposit as the loop body leaves it, or [None] when the body ends
    without saving it. *)
Definition confirmed_row (chain : Blockchain.Chain) (requiredConfirmations : Z)
           (currentBlock : Z) (deposit : Deposit) : option Deposit :=
  let resolved :=
    if BlockNumber deposit =? 0 then
      match Blockchain.GetTransaction chain (TxHash deposit) with
      | Err _ => None                                       (* continue *)
      | Ok None => Some deposit
      | Ok (Some txInfo) =>
          if 0 <? Blockchain.BlockNumber txInfo
          then Some (set_BlockNumber (Blockchain.BlockNumber txInfo) deposit)
          else Some deposit
      end
    else Some deposit in
  match resolved with
  | None => None
  | Some deposit =>
    if 0 <? BlockNumber deposit then
      if requiredConfirmations <=? confirmations currentBlock (BlockNumber deposit)
      then Some (set_Status DepositStatusConfirmed deposit)
      else Some (set_Status DepositStatusConfirming deposit)
    else None
  end.

Definition confirm_one (chain : Blockchain.Chain) (requiredConfirmations : Z)
           (currentBlock : Z) (st : DepositService.state) (deposit : Deposit)
  : DepositService.state :=
  match confirmed_row chain requiredConfirmations currentBlock deposit with
  | None => st
  | Some deposit =>
      DepositService.set_db
        (snd (DepositRepo.UpdateDeposit deposit (DepositService.db st))) st
  end.

(** [confirmationsRequired] is filled from the adapters when the service is
    built: the entry of a registered chain is what its adapter requires. *)
Definition CheckConfirmations (s : DepositService.service) (chainName : string)
           (st : DepositService.state) : option error * DepositService.state :=
  match DepositService.blockchains s chainName with
  | None => (Some ErrUnsupportedChain, st)
  | Some chain =>
    let requiredConfirmations := Blockchain.GetRequiredConfirmations chain in
    match ListPendingDeposits chainName 100 (DepositService.db st) with
    | Err e => (Some e, st)
    | Ok deposits =>
      match Blockchain.GetBlockNumber chain with
      | Err e => (Some e, st)
      | Ok currentBlock =>
        (None,
         fold_left (confirm_one chain requiredConfirmations currentBlock)
                   deposits st)
      end
    end
  end.

End DepositConfirmations.

(** ** Package riskcontrol: deposit and login checks, blacklist, risk score *)

Module RiskChecks.
Import RiskModel.

Record DepositRiskRequest : Type := mkDepositRiskRequest {
  dUserID : Z;
  dChain : string;
  dFromAddress : string;
  dCurrency : string;
  dAmount : DecStr
}.

Record LoginRiskRequest : Type := mkLoginRiskRequest {
  gUserID : Z;
  gIP : string;
  gUserAgent : string;
  gDevice : string
}.

Definition CheckDepositRisk (req : DepositRiskRequest) (now : Z)
           (t : RiskRepo.tables) : result RiskCheckResult :=
  match RiskRepo.CheckBlacklist "address" (dFromAddress req) (dChain req) now t with
  | Err e => Err e
  | Ok isBlacklisted =>
    if isBlacklisted
    then Ok (mkRiskCheckResult true 2 true false "source address is blacklisted" [])
    else Ok (mkRiskCheckResult true 0 false false "" [])
  end.

Definition loose (r : result bool) : bool :=
  match r with
  | Ok b => b
  | Err _ => false
  end.

Definition CheckLoginRisk (req : LoginRiskRequest) (now : Z)
           (t : RiskRepo.tables) : result RiskCheckResult :=
  if loose (RiskRepo.CheckBlacklist "ip" (gIP req) "" now t)
  then Ok (mkRiskCheckResult false 0 false true "IP is blacklisted" [])
  else if negb (String.eqb (gDevice req) "")
          && loose (RiskRepo.CheckBlacklist "device" (gDevice req) "" now t)
  then Ok (mkRiskCheckResult false 0 false true "device is blacklisted" [])
  else Ok (mkRiskCheckResult true 0 false false "" []).

(** [AddToBlacklist]: the row is active and never expires. *)
Definition AddToBlacklist (typ value chain reason : string) (createdBy : Z)
           (t : RiskRepo.tables) : option error * RiskRepo.tables :=
  (None,
   RiskRepo.mkTables
     (RiskRepo.blacklist t ++ [mkBlacklist typ value chain None 1])%list
     (RiskRepo.rules t) (RiskRepo.logs t)).

Definition IsBlacklisted (typ value chain : string) (now : Z)
           (t : RiskRepo.tables) : result bool :=
  RiskRepo.CheckBlacklist typ value chain now t.

Record UserRiskProfile : Type := mkUserRiskProfile {
  pID : Z;
  pUserID : Z;
  RiskScore : Z;
  LastRiskCheckAt : option Z
}.

Definition profiles := list UserRiskProfile.

Definition repoGetUserRiskProfile (userID : Z) (t : profiles)
  : result (option UserRiskProfile) :=
  Ok (find (fun p => pUserID p =? userID) t).

(** [user_id] carries a unique index. *)
Definition CreateUserRiskProfile (p : UserRiskProfile) (t : profiles)
  : option error * UserRiskProfile * profiles :=
  if existsb (fun x => pUserID x =? pUserID p) t
  then (Some ErrDuplicateKey, p, t)
  else
    let p' := mkUserRiskProfile (next_id (map pID t)) (pUserID p) (RiskScore p)
                                (LastRiskCheckAt p) in
    (None, p', (t ++ [p'])%list).

(** [db.Save(profile)] *)
Definition UpdateUserRiskProfile (p : UserRiskProfile) (t : profiles)
  : option error * profiles :=
  (None, map (fun x => if pID x =? pID p then p else x) t).

(** The profile of the user; a default one is created when there is none. *)
Definition GetUserRiskProfile (userID : Z) (t : profiles)
  : result UserRiskProfile * profiles :=
  match repoGetUserRiskProfile userID t with
  | Err e => (Err e, t)
  | Ok (Some profile) => (Ok profile, t)
  | Ok None =>
    match CreateUserRiskProfile (mkUserRiskProfile 0 userID 0 None) t with
    | (Some e, _, t') => (Err e, t')
    | (None, profile, t') => (Ok profile, t')
    end
  end.

Definition GetUserRiskScore (userID : Z) (t : profiles) : result Z * profiles :=
  match GetUserRiskProfile userID t with
  | (Err e, t') => (Err e, t')
  | (Ok profile, t') => (Ok (RiskScore profile), t')
  end.

(** [profile.RiskScore += delta] on Go's 64-bit [int], then the clamp. *)
Definition UpdateUserRiskScore (userID delta now : Z) (t : profiles)
  : option error * profiles :=
  match GetUserRiskProfile userID t with
  | (Err e, t') => (Some e, t')
  | (Ok profile, t') =>
    let score := DepositConfirmations.to_int (RiskScore profile + delta) in
    let score := if score <? 0 then 0 else score in
    let score := if 100 <? score then 100 else score in
    UpdateUserRiskProfile
      (mkUserRiskProfile (pID profile) (pUserID profile) score (Some now)) t'
  end.

End RiskChecks.

(** * Notions used by the further properties *)

Module Views.

(** The rows of a withdrawals table before and after a save of the row
    [id]: the same identifiers in the same order, and every other row as it
    was. *)
Definition saved_as (id : Z) (old new : WithdrawalRepo.table) : Prop :=
  Forall2 (fun x y => WithdrawalModel.ID y = WithdrawalModel.ID x
                      /\ (WithdrawalModel.ID x <> id -> y = x)) old new.

(** The same after saves of the rows [ids]. *)
Definition touched_only (ids : list Z) (old new : WithdrawalRepo.table) : Prop :=
  Forall2 (fun x y => WithdrawalModel.ID y = WithdrawalModel.ID x
                      /\ (~ In (WithdrawalModel.ID x) ids -> y = x)) old new.

Definition in_review (s : WithdrawalModel.WithdrawalStatus) : bool :=
  WithdrawalModel.status_eqb s WithdrawalModel.WithdrawalStatusRiskReview
  || WithdrawalModel.status_eqb s WithdrawalModel.WithdrawalStatusManualReview.

Definition cancellable (s : WithdrawalModel.WithdrawalStatus) : bool :=
  WithdrawalModel.status_eqb s WithdrawalModel.WithdrawalStatusPending
  || in_review s.

(** What one credit does to a row of the deposits table: the row of the
    identifier is marked credited unless it is already. *)
Definition credit_row (id now : Z) (x : DepositModel.Deposit)
  : DepositModel.Deposit :=
  if (DepositModel.ID x =? id) && negb (DepositModel.Credited x)
  then DepositModel.set_credited now x else x.

(** The deposits ProcessCredits picks up: Confirmed and not credited. *)
Definition awaits_credit (x : DepositModel.Deposit) : bool :=
  DepositModel.status_eqb (DepositModel.Status x) DepositModel.DepositStatusConfirmed
  && negb (DepositModel.Credited x).

(** A deposit as the scanner records it for a chain: Pending, not credited,
    on the chain, to an address registered for the chain, for the user the
    address belongs to. *)
Definition recorded_by_scan (chainName : string)
           (addrs : list DepositModel.DepositAddress)
           (d : DepositModel.Deposit) : Prop :=
  DepositModel.Status d = DepositModel.DepositStatusPending
  /\ DepositModel.Credited d = false
  /\ DepositModel.Chain d = chainName
  /\ exists a, In a addrs
               /\ DepositModel.aChain a = chainName
               /\ DepositModel.aAddress a = DepositModel.ToAddress d
               /\ DepositModel.aUserID a = DepositModel.UserID d.

(** The state after a piece of a scan of a chain: the ledger, the wallets
    and the deposit addresses as before, the scan progress of the other
    chains as before, the deposits as before followed by new ones as the
    scanner records them, with distinct transaction hashes if they were
    distinct before. *)
Definition scanned_from (chainName : string) (st st' : DepositService.state)
  : Prop :=
  DepositService.balances st' = DepositService.balances st
  /\ DepositService.wallets st' = DepositService.wallets st
  /\ DepositRepo.addresses (DepositService.db st')
     = DepositRepo.addresses (DepositService.db st)
  /\ (forall c, c <> chainName ->
                DepositRepo.GetLastScannedBlock c (DepositService.db st')
                = DepositRepo.GetLastScannedBlock c (DepositService.db st))
  /\ (NoDup (map DepositModel.TxHash (DepositRepo.deposits (DepositService.db st))) ->
      NoDup (map DepositModel.TxHash (DepositRepo.deposits (DepositService.db st'))))
  /\ exists new,
      DepositRepo.deposits (DepositService.db st')
      = (DepositRepo.deposits (DepositService.db st) ++ new)%list
      /\ Forall (recorded_by_scan chainName
                                  (DepositRepo.addresses (DepositService.db st)))
                new.



End Views.

(** * Further concrete states *)

Module Examples.

(** A rule that sends every withdrawal above 50 to manual review, at risk
    level 2; user 7 holds 1000 ETH. *)
Definition reviewRule : RiskModel.RiskRule :=
  RiskModel.mkRiskRule 1 "large" RiskModel.RuleTypeAmountLimit "" ""
                       (RiskModel.CondObject (Some (SNum 50))) "review" 2 10 1.

Definition reviewState : WithdrawalService.state :=
  WithdrawalService.mkState
    [Fixtures.ethBalance 1000 0] [] []
    (RiskRepo.mkTables [] [reviewRule] []) Fixtures.noKeys.

End Examples.

(** * Properties *)

(** ** Shared lemmas *)

Lemma next_id_above (ids : list Z) (x : Z) : In x ids -> x < next_id ids.
Proof.
  unfold next_id. induction ids as [|y ids IH]; cbn [fold_right In]; [tauto|].
  intros [->|H]; [lia|]. specialize (IH H). lia.
Qed.

Lemma find_some_of_In {A} (p : A -> bool) (l : list A) (x : A) :
  In x l -> p x = true -> exists y, find p l = Some y.
Proof.
  induction l as [|a l IH]; simpl; [tauto|].
  intros [->|H] Hp.
  - rewrite Hp. eauto.
  - destruct (p a); eauto.
Qed.

Lemma find_none_of_all {A} (p : A -> bool) (l : list A) :
  (forall x, In x l -> p x = false) -> find p l = None.
Proof.
  induction l as [|a l IH]; simpl; [reflexivity|].
  intros H. rewrite (H a (or_introl eq_refl)). apply IH. intros; apply H; now right.
Qed.

Lemma existsb_false_of_all {A} (p : A -> bool) (l : list A) :
  (forall x, In x l -> p x = false) -> existsb p l = false.
Proof.
  induction l as [|a l IH]; simpl; [reflexivity|].
  intros H. rewrite (H a (or_introl eq_refl)). apply IH. intros; apply H; now right.
Qed.

Lemma find_after_update {A} (p : A -> bool) (f : A -> A) (l : list A) (d : A) :
  (forall x, p x = true -> p (f x) = true) ->
  find p l = Some d ->
  find p (map (fun x => if p x then f x else x) l) = Some (f d).
Proof.
  intros Hp. induction l as [|x l IH]; simpl; [discriminate|].
  destruct (p x) eqn:E.
  - intros [= ->]. simpl. now rewrite (Hp _ E).
  - simpl. rewrite E. exact IH.
Qed.

Lemma find_app_fresh {A} (p : A -> bool) (l : list A) (x : A) :
  (forall y, In y l -> p y = false) -> p x = true ->
  find p (l ++ [x]) = Some x.
Proof.
  intros Hl Hx. induction l as [|y l IH]; cbn.
  - now rewrite Hx.
  - rewrite (Hl y (or_introl eq_refl)). apply IH. intros; apply Hl; now right.
Qed.

Lemma next_id_positive (ids : list Z) : 0 < next_id ids.
Proof.
  unfold next_id. induction ids as [|y ids IH]; cbn [fold_right]; lia.
Qed.

(** ** The balance ledger *)

Lemma update_where_no_match p f (t : WalletRepo.table) :
  (forall b, In b t -> p b = false) -> WalletRepo.update_where p f t = t.
Proof.
  unfold WalletRepo.update_where. induction t as [|b t IH]; cbn [map]; intros H;
    [reflexivity|].
  rewrite (H b (or_introl eq_refl)). f_equal. apply IH. intros; apply H; now right.
Qed.

(** Without a row for the triple, an increment changes nothing and reports
    nothing. *)
Lemma IncrementBalance_no_row userID chain currency amount t :
  WalletRepo.GetBalance userID chain currency t = Ok None ->
  WalletRepo.IncrementBalance userID chain currency amount t = (None, t).
Proof.
  unfold WalletRepo.GetBalance, WalletRepo.IncrementBalance. intros [= H].
  f_equal. apply update_where_no_match. intros b Hb.
  exact (find_none _ _ H b Hb).
Qed.

(** DecrementBalance never touches the frozen component of any row. *)
Lemma DecrementBalance_keeps_frozen userID chain currency amount t :
  map WalletModel.Frozen
      (snd (WalletRepo.DecrementBalance userID chain currency amount t))
  = map WalletModel.Frozen t.
Proof.
  unfold WalletRepo.DecrementBalance, WalletRepo.update_where. cbn [snd].
  rewrite map_map. apply map_ext. intros b. now destruct (_ && _).
Qed.

(** Freeze on a table that holds just the row of the triple: with the guard
    satisfied the amount moves from available to frozen; with the guard
    violated no error is reported either, and frozen alone grows. *)
Lemma FreezeBalance_single_row (b : WalletModel.Balance) (amount : Decimal) :
  WalletRepo.FreezeBalance (WalletModel.UserID b) (WalletModel.Chain b)
                           (WalletModel.Currency b) amount [b]
  = (None,
     [if amount <=? WalletModel.Available b
      then WalletModel.set_Frozen
             (WalletModel.Frozen b + amount)
             (WalletModel.set_Available (WalletModel.Available b - amount) b)
      else WalletModel.set_Frozen (WalletModel.Frozen b + amount) b]).
Proof.
  unfold WalletRepo.FreezeBalance, WalletRepo.update_where, WalletRepo.is_row.
  cbn [map]. rewrite Z.eqb_refl, !String.eqb_refl. cbn [andb].
  destruct (amount <=? WalletModel.Available b); cbn;
    rewrite Z.eqb_refl, !String.eqb_refl; reflexivity.
Qed.

(** A read of a triple that has a row returns that row and writes nothing. *)
Lemma GetBalance_present userID chain currency t row :
  WalletRepo.GetBalance userID chain currency t = Ok (Some row) ->
  WalletService.GetBalance userID chain currency t = (Ok row, t).
Proof. unfold WalletService.GetBalance. now intros ->. Qed.

(** The row CreateBalance stores reads back under its triple, with a
    positive identifier. *)
Lemma GetBalance_after_CreateBalance walletID userID chain currency a f p t :
  (forall b, In b t -> WalletRepo.is_row userID chain currency b = false) ->
  WalletRepo.GetBalance
    userID chain currency
    (snd (WalletAddresses.CreateBalance
            (WalletModel.mkBalance 0 walletID userID chain currency a f p) t))
  = Ok (Some (WalletModel.mkBalance (next_id (map WalletModel.ID t)) walletID
                                    userID chain currency a f p)).
Proof.
  intros H. unfold WalletRepo.GetBalance, WalletAddresses.CreateBalance.
  cbn [snd WalletModel.WalletID WalletModel.UserID WalletModel.Chain
       WalletModel.Currency WalletModel.Available WalletModel.Frozen
       WalletModel.Pending].
  f_equal. apply find_app_fresh; [exact H|].
  unfold WalletRepo.is_row.
  cbn [WalletModel.UserID WalletModel.Chain WalletModel.Currency].
  now rewrite Z.eqb_refl, !String.eqb_refl.
Qed.

(** C10 (amended). For a triple (user, chain, currency) with no stored
    Balance row, GetBalance does not fail: it returns a balance whose
    available, frozen and pending are all zero, for the triple asked for,
    with identifier 0 and wallet 0, and leaves the table as it was (no row is
    created).  The read of a stored row returns the row as stored, identifier
    and wallet included, so it differs from the read of an absent row
    whenever the stored identifier is not 0.  In particular, once the
    all-zero row of the triple is stored through CreateBalance, the read
    shows the same three amounts but the row's positive identifier and its
    wallet: the caller can tell the two apart. *)
Theorem GetBalance_absent_row_reads_zero :
  forall userID chain currency t,
    (forall b, In b t -> WalletRepo.is_row userID chain currency b = false) ->
    exists b,
      WalletService.GetBalance userID chain currency t = (Ok b, t)
      /\ WalletModel.Available b = 0 /\ WalletModel.Frozen b = 0
      /\ WalletModel.Pending b = 0
      /\ WalletModel.UserID b = userID /\ WalletModel.Chain b = chain
      /\ WalletModel.Currency b = currency
      /\ WalletModel.ID b = 0 /\ WalletModel.WalletID b = 0
      /\ (forall t' row,
            WalletRepo.GetBalance userID chain currency t' = Ok (Some row) ->
            WalletService.GetBalance userID chain currency t' = (Ok row, t')
            /\ (WalletModel.ID row <> 0 -> row <> b))
      /\ forall walletID,
          let t' := snd (WalletAddresses.CreateBalance
                           (WalletModel.mkBalance 0 walletID userID chain
                                                  currency 0 0 0) t) in
          exists b',
            WalletService.GetBalance userID chain currency t' = (Ok b', t')
            /\ WalletService.snapshot b' = WalletService.snapshot b
            /\ 0 < WalletModel.ID b'
            /\ WalletModel.WalletID b' = walletID
            /\ b' <> b.
Proof.
  intros userID chain currency t H.
  exists (WalletModel.mkBalance 0 0 userID chain currency 0 0 0).
  split.
  { unfold WalletService.GetBalance, WalletRepo.GetBalance.
    now rewrite (find_none_of_all _ _ H). }
  do 8 (split; [reflexivity|]).
  split.
  - intros t' row Hrow. split; [now apply GetBalance_present|].
    intros Hid E. apply Hid. now rewrite E.
  - intros walletID t'.
    exists (WalletModel.mkBalance (next_id (map WalletModel.ID t)) walletID
                                  userID chain currency 0 0 0).
    assert (Hpos := next_id_positive (map WalletModel.ID t)).
    split.
    { apply GetBalance_present. subst t'.
      now apply GetBalance_after_CreateBalance. }
    split; [reflexivity|]. split; [exact Hpos|]. split; [reflexivity|].
    intros E. apply (f_equal WalletModel.ID) in E.
    cbn [WalletModel.ID] in E. lia.
Qed.

Lemma GetBalance_absent_row_reads_zero_witness :
  exists b,
    WalletService.GetBalance 7 "ethereum" "ETH"
                             [WalletModel.mkBalance 1 1 7 "bsc" "BNB" 40 0 0]
    = (Ok b, [WalletModel.mkBalance 1 1 7 "bsc" "BNB" 40 0 0])
    /\ WalletService.snapshot b = (0, 0, 0)
    /\ WalletModel.ID b = 0
    /\ exists b',
        WalletService.GetBalance
          7 "ethereum" "ETH"
          [WalletModel.mkBalance 1 1 7 "bsc" "BNB" 40 0 0;
           WalletModel.mkBalance 2 1 7 "ethereum" "ETH" 0 0 0]
        = (Ok b', [WalletModel.mkBalance 1 1 7 "bsc" "BNB" 40 0 0;
                   WalletModel.mkBalance 2 1 7 "ethereum" "ETH" 0 0 0])
        /\ WalletService.snapshot b' = (0, 0, 0)
        /\ 0 < WalletModel.ID b'.
Proof.
  destruct (GetBalance_absent_row_reads_zero
              7 "ethereum" "ETH" [WalletModel.mkBalance 1 1 7 "bsc" "BNB" 40 0 0])
    as (b & H0 & Ha & Hf & Hp & _ & _ & _ & Hid & _ & _ & Hstored).
  - intros b [<-|[]]. reflexivity.
  - exists b. split; [exact H0|].
    split; [unfold WalletService.snapshot; now rewrite Ha, Hf, Hp|].
    split; [exact Hid|].
    destruct (Hstored 1) as (b' & H1 & Hs & Hpos & _).
    exists b'. split; [exact H1|].
    split; [|exact Hpos].
    rewrite Hs. unfold WalletService.snapshot. now rewrite Ha, Hf, Hp.
Defined.

(** C10, the claim as first worded does not hold: user 7 has no ETH row in
    one table and a stored all-zero ETH row in the other.  Both reads show
    the amounts (0, 0, 0), but the first returns identifier 0 and the second
    the stored identifier 1, and the handlers pass the whole balance on: the
    caller can tell an absent row from a stored all-zero balance. *)
Lemma GetBalance_tells_absent_row_from_zero_row :
  exists b0 b1,
    WalletService.GetBalance 7 "ethereum" "ETH" [] = (Ok b0, [])
    /\ WalletService.GetBalance 7 "ethereum" "ETH" [Fixtures.ethBalance 0 0]
       = (Ok b1, [Fixtures.ethBalance 0 0])
    /\ WalletService.snapshot b0 = (0, 0, 0)
    /\ WalletService.snapshot b1 = (0, 0, 0)
    /\ WalletModel.ID b0 = 0 /\ WalletModel.ID b1 = 1
    /\ b0 <> b1.
Proof.
  do 2 eexists. do 6 (split; [reflexivity|]). discriminate.
Qed.

(** C2. Code at the failing input: a row with available 5 and frozen 0,
    Freeze(10).  The guarded statement matches no row and reports nothing,
    the second statement still runs: the call returns no error, available
    stays 5 and frozen becomes 10.  Likewise Decrement(10) returns no error
    (the row is unchanged), and Unfreeze(10) on frozen 0 returns no error and
    raises available to 15. *)
Theorem FreezeBalance_guard_fails_still_adds_frozen :
  WalletRepo.FreezeBalance 7 "ethereum" "ETH" 10 [Fixtures.ethBalance 5 0]
    = (None, [Fixtures.ethBalance 5 10])
  /\ WalletRepo.DecrementBalance 7 "ethereum" "ETH" 10 [Fixtures.ethBalance 5 0]
    = (None, [Fixtures.ethBalance 5 0])
  /\ WalletRepo.UnfreezeBalance 7 "ethereum" "ETH" 10 [Fixtures.ethBalance 5 0]
    = (None, [Fixtures.ethBalance 15 0]).
Proof. repeat split. Qed.

(** ** Withdrawal limits *)

Lemma daily_total_sum userID chain currency now ws :
  WithdrawalRepo.GetUserDailyWithdrawal userID chain currency now ws
  = Ok (SNum (Spec.daily_total userID chain currency now ws)).
Proof.
  unfold WithdrawalRepo.GetUserDailyWithdrawal. do 2 f_equal.
  induction ws as [|w ws IH]; [reflexivity|].
  cbn [filter Spec.daily_total].
  assert (E : WithdrawalRepo.counts_today userID chain currency now w
              = ((WithdrawalModel.UserID w =? userID)
                 && String.eqb (WithdrawalModel.Chain w) chain
                 && String.eqb (WithdrawalModel.Currency w) currency
                 && (WithdrawalModel.CreatedAt w / 86400 =? now / 86400)
                 && negb (Spec.excluded (WithdrawalModel.Status w)))).
  { unfold WithdrawalRepo.counts_today, WithdrawalRepo.date_of.
    destruct (WithdrawalModel.Status w); reflexivity. }
  rewrite E.
  destruct (_ && _); cbn [map fold_right]; rewrite IH; reflexivity.
Qed.

Lemma checkLimits_applicable userID chain currency amount now st l :
  Spec.applicable_limit userID chain currency (WithdrawalService.limits st) = Some l ->
  WithdrawalService.checkLimits userID chain currency amount now st
  = WithdrawalService.check_against l userID chain currency amount now st.
Proof.
  unfold Spec.applicable_limit, WithdrawalService.checkLimits,
    WithdrawalRepo.GetLimit, WithdrawalRepo.GetGlobalLimit, Spec.limit_of.
  destruct (find _ _) as [l'|].
  - now intros [= ->].
  - now intros ->.
Qed.

Lemma CheckWithdrawalRisk_answers req now t :
  exists r t', RiskService.CheckWithdrawalRisk req now t = (Ok r, t').
Proof.
  unfold RiskService.CheckWithdrawalRisk, RiskRepo.CheckBlacklist, RiskRepo.ListActiveRules.
  destruct (0 <? _); [eauto|].
  destruct (0 <? _); eauto.
Qed.

Section Limits.
Import WithdrawalModel.

Lemma check_against_numbers l userID chain currency amount now st mn mx dl :
  MinAmount l = SNum mn -> MaxAmount l = SNum mx -> DailyLimit l = SNum dl ->
  WithdrawalService.check_against l userID chain currency amount now st
  = if amount <? mn then Some ErrBelowMinAmount
    else if mx <? amount then Some ErrExceedSingleLimit
    else if dl <? Spec.daily_total userID chain currency now
                    (WithdrawalService.withdrawals st) + amount
         then Some ErrExceedDailyLimit
    else None.
Proof.
  intros Hmn Hmx Hdl. unfold WithdrawalService.check_against.
  rewrite Hmn, Hmx, Hdl, daily_total_sum. reflexivity.
Qed.

(** Once the balance and limit checks are passed, CreateWithdrawal goes
    through whatever the risk engine found, a block included: the amount is
    frozen and the row inserted. *)
Lemma CreateWithdrawal_past_limits s req uuid now st amount balance :
  reqAmount req = SNum amount ->
  WalletRepo.GetBalance (reqUserID req) (reqChain req) (reqCurrency req)
                        (WithdrawalService.balances st) = Ok (Some balance) ->
  amount <= WalletModel.Available balance ->
  WithdrawalService.checkLimits (reqUserID req) (reqChain req) (reqCurrency req)
                                amount now st = None ->
  existsb (fun x => String.eqb (UUID x) uuid) (WithdrawalService.withdrawals st)
  = false ->
  exists w st',
    WithdrawalService.CreateWithdrawal s req uuid now st = (Ok w, st')
    /\ Amount w = amount
    /\ In w (WithdrawalService.withdrawals st')
    /\ WithdrawalService.balances st'
       = snd (WalletRepo.FreezeBalance (reqUserID req) (reqChain req)
                                       (reqCurrency req) amount
                                       (WithdrawalService.balances st)).
Proof.
  intros Hamount Hbal Havail Hnone Hfresh.
  unfold WithdrawalService.CreateWithdrawal.
  rewrite Hamount. cbn [NewFromString]. rewrite Hbal.
  destruct (Z.ltb_spec (WalletModel.Available balance) amount); [lia|].
  rewrite Hnone.
  destruct (CheckWithdrawalRisk_answers
              (RiskModel.mkWithdrawalRiskRequest
                 (reqUserID req) (reqChain req) (reqToAddress req)
                 (reqCurrency req) (SNum amount))
              now (WithdrawalService.risk st)) as (rr & t' & Hrisk).
  rewrite Hrisk.
  unfold WalletRepo.FreezeBalance, WithdrawalRepo.Create.
  cbn [WithdrawalService.set_risk WithdrawalService.set_balances
       WithdrawalService.withdrawals WithdrawalService.balances].
  destruct (RiskModel.NeedManualReview rr);
    [|destruct (0 <? RiskModel.RiskLevel rr)];
    cbn [UUID set_review set_Status]; rewrite Hfresh;
    do 2 eexists; (split; [reflexivity|]); split;
    try reflexivity;
    cbn [WithdrawalService.set_withdrawals WithdrawalService.withdrawals];
    (split; [apply in_or_app; right; left; reflexivity | reflexivity]).
Qed.

(** C7. CreateWithdrawal enforces the applicable limit (the user's own row
    if there is one, else the global row of the chain and currency) with
    inclusive bounds.  For a request that passed the balance check, with the
    limit's min, max and daily limit set, the checks run in this order and
    the first that fails decides, the state being left as it was: an amount
    below min fails with BelowMinAmount; an amount above max fails with
    ExceedSingleLimit; a daily total (today's withdrawals of the user for the
    chain and currency, leaving out Rejected, Cancelled and Failed) that
    would exceed the daily limit fails with ExceedDailyLimit.  An amount
    within [min, max] whose daily total stays within the daily limit passes
    the limits, equality included on both bounds, and the withdrawal is
    created. *)
Theorem CreateWithdrawal_enforces_limits :
  forall s req uuid now st amount balance l mn mx dl,
    reqAmount req = SNum amount ->
    WalletRepo.GetBalance (reqUserID req) (reqChain req) (reqCurrency req)
                          (WithdrawalService.balances st) = Ok (Some balance) ->
    amount <= WalletModel.Available balance ->
    Spec.applicable_limit (reqUserID req) (reqChain req) (reqCurrency req)
                          (WithdrawalService.limits st) = Some l ->
    MinAmount l = SNum mn -> MaxAmount l = SNum mx -> DailyLimit l = SNum dl ->
    let total := Spec.daily_total (reqUserID req) (reqChain req) (reqCurrency req)
                                  now (WithdrawalService.withdrawals st) in
    let r := WithdrawalService.CreateWithdrawal s req uuid now st in
    (amount < mn -> r = (Err ErrBelowMinAmount, st))
    /\ (mn <= amount -> mx < amount -> r = (Err ErrExceedSingleLimit, st))
    /\ (mn <= amount <= mx -> dl < total + amount ->
        r = (Err ErrExceedDailyLimit, st))
    /\ (mn <= amount <= mx -> total + amount <= dl ->
        WithdrawalService.checkLimits (reqUserID req) (reqChain req)
                                      (reqCurrency req) amount now st = None
        /\ (existsb (fun x => String.eqb (UUID x) uuid)
                    (WithdrawalService.withdrawals st) = false ->
            exists w st', r = (Ok w, st') /\ Amount w = amount
                          /\ In w (WithdrawalService.withdrawals st'))).
Proof.
  intros s req uuid now st amount balance l mn mx dl
         Hamount Hbal Havail Hl Hmn Hmx Hdl total r.
  assert (Hcheck := checkLimits_applicable _ _ _ amount now st l Hl).
  rewrite (check_against_numbers _ _ _ _ _ _ _ _ _ _ Hmn Hmx Hdl) in Hcheck.
  fold total in Hcheck.
  assert (Hr : forall e,
             WithdrawalService.checkLimits (reqUserID req) (reqChain req)
                                           (reqCurrency req) amount now st = Some e ->
             r = (Err e, st)).
  { intros e He. subst r. unfold WithdrawalService.CreateWithdrawal.
    rewrite Hamount. cbn [NewFromString]. rewrite Hbal.
    destruct (Z.ltb_spec (WalletModel.Available balance) amount); [lia|].
    now rewrite He. }
  repeat split.
  - intros H. apply Hr. rewrite Hcheck.
    destruct (Z.ltb_spec amount mn); [reflexivity|lia].
  - intros H1 H2. apply Hr. rewrite Hcheck.
    destruct (Z.ltb_spec amount mn); [lia|].
    destruct (Z.ltb_spec mx amount); [reflexivity|lia].
  - intros H1 H2. apply Hr. rewrite Hcheck.
    destruct (Z.ltb_spec amount mn); [lia|].
    destruct (Z.ltb_spec mx amount); [lia|].
    destruct (Z.ltb_spec dl (total + amount)); [reflexivity|lia].
  - rewrite Hcheck.
    destruct (Z.ltb_spec amount mn); [lia|].
    destruct (Z.ltb_spec mx amount); [lia|].
    destruct (Z.ltb_spec dl (total + amount)); [lia|reflexivity].
  - intros Hfresh.
    assert (Hnone : WithdrawalService.checkLimits (reqUserID req) (reqChain req)
                      (reqCurrency req) amount now st = None).
    { rewrite Hcheck.
      destruct (Z.ltb_spec amount mn); [lia|].
      destruct (Z.ltb_spec mx amount); [lia|].
      destruct (Z.ltb_spec dl (total + amount)); [lia|reflexivity]. }
    destruct (CreateWithdrawal_past_limits s req uuid now st amount balance
                Hamount Hbal Havail Hnone Hfresh) as (w & st' & Hw & Ha & Hin & _).
    exists w, st'. repeat split; assumption.
Qed.

Lemma CreateWithdrawal_enforces_limits_witness :
  Spec.applicable_limit 7 "ethereum" "ETH"
                        (WithdrawalService.limits Fixtures.limitState)
  = Some Fixtures.globalLimit
  /\ Spec.daily_total 7 "ethereum" "ETH" 1000
                      (WithdrawalService.withdrawals Fixtures.limitState) = 50
  /\ exists w st',
      WithdrawalService.CreateWithdrawal
        Fixtures.withdrawalService Fixtures.requestAtMax "uuid-3" 1000
        Fixtures.limitState = (Ok w, st')
      /\ Amount w = 100 /\ In w (WithdrawalService.withdrawals st').
Proof.
  split; [reflexivity|]. split; [reflexivity|].
  destruct (CreateWithdrawal_enforces_limits
              Fixtures.withdrawalService Fixtures.requestAtMax "uuid-3" 1000
              Fixtures.limitState 100 (Fixtures.ethBalance 1000 120)
              Fixtures.globalLimit 10 100 150
              eq_refl eq_refl ltac:(simpl; lia) eq_refl eq_refl eq_refl eq_refl)
    as (_ & _ & _ & H).
  destruct H as [_ H]; [lia | vm_compute; discriminate |].
  exact (H eq_refl).
Defined.

End Limits.

(** ** Withdrawal intake and finalisation *)

(** C1. Code at the failing input: user 7 holds 1000 ETH and requests 100 to
    the blacklisted address 0xC.  The risk engine answers blocked with the
    reason, yet CreateWithdrawal never reads that flag: it returns a
    withdrawal in status Approved, the row is inserted, and 100 has moved
    from available to frozen. *)
Theorem CreateWithdrawal_blocked_request_goes_through :
  (exists r t,
      RiskService.CheckWithdrawalRisk
        (RiskModel.mkWithdrawalRiskRequest 7 "ethereum" "0xC" "ETH" (SNum 100))
        1000 Fixtures.blacklistC = (Ok r, t)
      /\ RiskModel.Blocked r = true
      /\ RiskModel.Reason r = "address is blacklisted")
  /\ exists w st',
      WithdrawalService.CreateWithdrawal
        Fixtures.withdrawalService Fixtures.requestToC "uuid-1" 1000
        Fixtures.blockedState = (Ok w, st')
      /\ WithdrawalModel.Status w = WithdrawalModel.WithdrawalStatusApproved
      /\ WithdrawalService.withdrawals st' = [w]
      /\ WithdrawalService.balances st' = [Fixtures.ethBalance 900 100].
Proof.
  split.
  - do 2 eexists. split; [vm_compute; reflexivity|]. split; reflexivity.
  - do 2 eexists. split; [vm_compute; reflexivity|]. repeat split.
Qed.

(** C3. Code at the failing input: a Broadcast withdrawal of 1000 whose
    transaction has the 12 required confirmations.  Finalisation marks it
    Completed with completed_at set, but calls DecrementBalance, which works
    on available: with available 500 and frozen 1000 the guarded update
    matches nothing and the balance is untouched (frozen is still 1000);
    with available 1500 it is available that drops to 500 while frozen stays
    1000. *)
Theorem CheckConfirmations_completion_leaves_frozen :
  (exists st',
      WithdrawalService.CheckConfirmations
        Fixtures.withdrawalService "ethereum" 2000 (Fixtures.broadcastState 500 1000)
      = (None, st')
      /\ map WithdrawalModel.Status (WithdrawalService.withdrawals st')
         = [WithdrawalModel.WithdrawalStatusCompleted]
      /\ map WithdrawalModel.CompletedAt (WithdrawalService.withdrawals st')
         = [Some 2000]
      /\ WithdrawalService.balances st' = [Fixtures.ethBalance 500 1000])
  /\ (exists st',
      WithdrawalService.CheckConfirmations
        Fixtures.withdrawalService "ethereum" 2000 (Fixtures.broadcastState 1500 1000)
      = (None, st')
      /\ map WithdrawalModel.Status (WithdrawalService.withdrawals st')
         = [WithdrawalModel.WithdrawalStatusCompleted]
      /\ WithdrawalService.balances st' = [Fixtures.ethBalance 500 1000]).
Proof.
  split; eexists; (split; [vm_compute; reflexivity|]); repeat split.
Qed.

(** ** Deposits *)

(** A second application of the credit step to the same deposit changes
    nothing, whatever the first one did. *)
Lemma CreditDeposit_again_is_noop depositID now now' st :
  snd (DepositService.CreditDeposit depositID now'
         (snd (DepositService.CreditDeposit depositID now st)))
  = snd (DepositService.CreditDeposit depositID now st).
Proof.
  unfold DepositService.CreditDeposit at 2 3.
  unfold DepositRepo.GetDepositByID.
  destruct (find _ _) as [d|] eqn:Hfind.
  - destruct (DepositModel.Credited d) eqn:Hc.
    + cbn [snd]. unfold DepositService.CreditDeposit, DepositRepo.GetDepositByID.
      now rewrite Hfind, Hc.
    + cbn. unfold DepositService.CreditDeposit, DepositRepo.GetDepositByID.
      cbn.
      rewrite (find_after_update (fun x => DepositModel.ID x =? depositID)
                 (DepositModel.set_credited now) _ d); [reflexivity| |exact Hfind].
      intros x Hx. exact Hx.
  - cbn [snd]. unfold DepositService.CreditDeposit, DepositRepo.GetDepositByID.
    now rewrite Hfind.
Qed.

Lemma credit_times_is_one_credit n depositID now st :
  DepositService.credit_times (S n) depositID now st
  = snd (DepositService.CreditDeposit depositID now st).
Proof.
  revert st. induction n as [|n IH]; intros st; [reflexivity|].
  change (DepositService.credit_times (S (S n)) depositID now st)
    with (DepositService.credit_times (S n) depositID now
            (snd (DepositService.CreditDeposit depositID now st))).
  rewrite IH. apply CreditDeposit_again_is_noop.
Qed.

(** A credit for a deposit whose (user, chain, currency) has no balance row
    marks the deposit credited and leaves every balance as it was. *)
Lemma CreditDeposit_without_row depositID now st d :
  DepositRepo.GetDepositByID depositID (DepositService.db st) = Ok (Some d) ->
  DepositModel.Credited d = false ->
  WalletRepo.GetBalance (DepositModel.UserID d) (DepositModel.Chain d)
                        (DepositModel.Currency d) (DepositService.balances st)
  = Ok None ->
  exists st',
    DepositService.CreditDeposit depositID now st = (None, st')
    /\ DepositService.balances st' = DepositService.balances st
    /\ DepositRepo.GetDepositByID depositID (DepositService.db st')
       = Ok (Some (DepositModel.set_credited now d)).
Proof.
  intros Hd Hc Hb. unfold DepositService.CreditDeposit.
  rewrite Hd, Hc, (IncrementBalance_no_row _ _ _ _ _ Hb).
  eexists. split; [reflexivity|]. split; [reflexivity|].
  unfold DepositRepo.GetDepositByID in *. cbn. f_equal.
  injection Hd as Hd.
  apply (find_after_update (fun x => DepositModel.ID x =? depositID)); [|exact Hd].
  intros x Hx. exact Hx.
Qed.

(** C4. Code at the failing input: a Confirmed, uncredited deposit of 300
    for user 7 on bsc under currency ETH, while the user's only balance row
    on bsc is the BNB one.  IncrementBalance updates no row and reports
    nothing; the deposit is then marked credited with status Credited.  The
    balance table is unchanged: the deposit counts as credited although no
    increment took place, and repeating the step never makes up for it. *)
Theorem CreditDeposit_marks_credited_without_increment :
  exists st',
    DepositService.CreditDeposit 1 2000 Fixtures.bscDepositState = (None, st')
    /\ map DepositModel.Credited (DepositRepo.deposits (DepositService.db st')) = [true]
    /\ map DepositModel.Status (DepositRepo.deposits (DepositService.db st'))
       = [DepositModel.DepositStatusCredited]
    /\ DepositService.balances st' = DepositService.balances Fixtures.bscDepositState
    /\ forall n, DepositService.balances
                   (DepositService.credit_times (S n) 1 2000 Fixtures.bscDepositState)
                 = DepositService.balances Fixtures.bscDepositState.
Proof.
  eexists. split; [vm_compute; reflexivity|]. repeat split.
  intros n. rewrite credit_times_is_one_credit. reflexivity.
Qed.

Section Deposits.
Import DepositModel.

Lemma ProcessDeposit_known_hash chain txHash from to currency amount blk uuid now st :
  (exists d, In d (DepositRepo.deposits (DepositService.db st)) /\ TxHash d = txHash) ->
  DepositService.ProcessDeposit chain txHash from to currency amount blk uuid now st
  = (None, st).
Proof.
  intros (d & Hin & Hd). unfold DepositService.ProcessDeposit, DepositRepo.GetDepositByTxHash.
  destruct (find_some_of_In (fun x => String.eqb (TxHash x) txHash) _ d Hin) as [y ->];
    [now apply String.eqb_eq | reflexivity].
Qed.

(** C6 (amended). ProcessDeposit is idempotent keyed on the transaction hash
    alone: if a Deposit with this tx_hash exists, on whatever chain, the call
    returns without inserting; otherwise a call for an unknown destination
    address inserts nothing and returns no error, and a call for a registered
    deposit address (with an unused uuid) appends exactly one Deposit row, in
    Pending and not credited, for the owner of the address.  After that every
    further call with the same tx_hash, on the same chain or on another one,
    changes nothing. *)
Theorem ProcessDeposit_keyed_on_tx_hash_alone :
  forall chain txHash from to currency amount blk uuid now st,
    let r := DepositService.ProcessDeposit chain txHash from to currency amount
                                           blk uuid now st in
    ((exists d, In d (DepositRepo.deposits (DepositService.db st))
                /\ TxHash d = txHash) ->
     r = (None, st))
    /\ ((forall d, In d (DepositRepo.deposits (DepositService.db st)) ->
                   TxHash d <> txHash) ->
        DepositRepo.GetDepositAddress chain to (DepositService.db st) = Ok None ->
        r = (None, st))
    /\ ((forall d, In d (DepositRepo.deposits (DepositService.db st)) ->
                   TxHash d <> txHash /\ UUID d <> uuid) ->
        forall a,
          DepositRepo.GetDepositAddress chain to (DepositService.db st) = Ok (Some a) ->
          exists d,
            r = (None,
                 DepositService.set_db
                   (DepositRepo.set_deposits
                      (DepositRepo.deposits (DepositService.db st) ++ [d])%list
                      (DepositService.db st)) st)
            /\ Status d = DepositStatusPending /\ Credited d = false
            /\ Chain d = chain /\ TxHash d = txHash /\ UserID d = aUserID a
            /\ ToAddress d = to /\ Currency d = currency /\ Amount d = amount
            /\ forall chain' from' to' currency' amount' blk' uuid' now',
                 DepositService.ProcessDeposit chain' txHash from' to' currency'
                                               amount' blk' uuid' now' (snd r)
                 = (None, snd r)).
Proof.
  intros chain txHash from to currency amount blk uuid now st r.
  split; [|split].
  - apply ProcessDeposit_known_hash.
  - intros Hnew Haddr. subst r.
    unfold DepositService.ProcessDeposit, DepositRepo.GetDepositByTxHash.
    rewrite find_none_of_all, Haddr; [reflexivity|].
    intros x Hx. apply String.eqb_neq. now apply Hnew.
  - intros Hnew a Haddr.
    assert (E : exists d,
               r = (None,
                    DepositService.set_db
                      (DepositRepo.set_deposits
                         (DepositRepo.deposits (DepositService.db st) ++ [d])%list
                         (DepositService.db st)) st)
               /\ Status d = DepositStatusPending /\ Credited d = false
               /\ Chain d = chain /\ TxHash d = txHash /\ UserID d = aUserID a
               /\ ToAddress d = to /\ Currency d = currency /\ Amount d = amount).
    { subst r.
      unfold DepositService.ProcessDeposit, DepositRepo.GetDepositByTxHash.
      rewrite find_none_of_all, Haddr.
      2:{ intros x Hx. apply String.eqb_neq. now apply Hnew. }
      unfold WalletRepo.ListWalletsByUserID, DepositRepo.CreateDeposit.
      rewrite existsb_false_of_all.
      2:{ intros x Hx. cbn [UUID TxHash]. apply orb_false_intro;
          apply String.eqb_neq; now apply Hnew. }
      eexists. split; [reflexivity|]. repeat split. }
    destruct E as (d & Hr & Hd). exists d. rewrite Hr.
    repeat (split; [tauto|]).
    intros. apply ProcessDeposit_known_hash. exists d. cbn.
    split; [apply in_or_app; right; now left | tauto].
Qed.

Lemma ProcessDeposit_keyed_on_tx_hash_alone_witness :
  DepositService.ProcessDeposit "bsc" "0xabc" "0xF" "0xA8" "ETH" (SNum 5) 77
                                "d-2" 2000 Fixtures.twoChainState
  = (None, Fixtures.twoChainState)
  /\ DepositService.ProcessDeposit "bsc" "0xabd" "0xF" "0xZZ" "ETH" (SNum 5) 77
                                   "d-2" 2000 Fixtures.twoChainState
     = (None, Fixtures.twoChainState)
  /\ exists d st',
      DepositService.ProcessDeposit "bsc" "0xabd" "0xF" "0xA8" "ETH" (SNum 5) 77
                                    "d-2" 2000 Fixtures.twoChainState
      = (None, st')
      /\ Status d = DepositStatusPending /\ Chain d = "bsc" /\ UserID d = 8
      /\ DepositRepo.deposits (DepositService.db st')
         = (DepositRepo.deposits (DepositService.db Fixtures.twoChainState) ++ [d])%list.
Proof.
  split; [|split].
  - destruct (ProcessDeposit_keyed_on_tx_hash_alone
                "bsc" "0xabc" "0xF" "0xA8" "ETH" (SNum 5) 77 "d-2" 2000
                Fixtures.twoChainState) as (H & _).
    apply H. eexists. split; [left; reflexivity | reflexivity].
  - destruct (ProcessDeposit_keyed_on_tx_hash_alone
                "bsc" "0xabd" "0xF" "0xZZ" "ETH" (SNum 5) 77 "d-2" 2000
                Fixtures.twoChainState) as (_ & H & _).
    apply H; [|reflexivity].
    intros d [<-|[]]; discriminate.
  - destruct (ProcessDeposit_keyed_on_tx_hash_alone
                "bsc" "0xabd" "0xF" "0xA8" "ETH" (SNum 5) 77 "d-2" 2000
                Fixtures.twoChainState) as (_ & _ & H).
    destruct (H ltac:(intros d [<-|[]]; split; discriminate) _ eq_refl)
      as (d & Hr & Hs & _ & Hc & _ & Hu & _).
    exists d. eexists. split; [exact Hr|]. repeat split; assumption.
Defined.

(** C6, the claim as stated fails: hash [0xabc] is on record for ethereum
    only, and the address [0xA8] is a registered deposit address on bsc, yet
    ProcessDeposit for (bsc, 0xabc) inserts no bsc deposit. *)
Lemma ProcessDeposit_same_hash_on_other_chain_is_dropped :
  DepositRepo.GetDepositAddress "bsc" "0xA8" (DepositService.db Fixtures.twoChainState)
  = Ok (Some (mkDepositAddress 8 "bsc" "0xA8"))
  /\ ~ exists d,
        In d (DepositRepo.deposits
                (DepositService.db
                   (snd (DepositService.ProcessDeposit
                           "bsc" "0xabc" "0xF" "0xA8" "ETH" (SNum 5) 77 "d-2" 2000
                           Fixtures.twoChainState))))
        /\ Chain d = "bsc" /\ TxHash d = "0xabc".
Proof.
  split; [reflexivity|].
  intros (d & [<-|[]] & Hc & _). discriminate.
Qed.

End Deposits.

(** ** Signing *)

Section Signing.
Import KeyModel.

Lemma Sign_effect s userID chain address txData t :
  KeyRepo.keys (snd (KeyManager.Sign s userID chain address txData t)) = KeyRepo.keys t
  /\ KeyRepo.requests (snd (KeyManager.Sign s userID chain address txData t))
     = KeyRepo.requests t
  /\ (KeyRepo.signed (snd (KeyManager.Sign s userID chain address txData t))
      = KeyRepo.signed t
      /\ (exists e, fst (KeyManager.Sign s userID chain address txData t) = Err e)
      \/ KeyRepo.signed (snd (KeyManager.Sign s userID chain address txData t))
         = (KeyRepo.signed t
              ++ [mkSignEvent chain address txData (KeyRepo.requests t)])%list).
Proof.
  unfold KeyManager.Sign, KeyRepo.GetKeyByAddress.
  assert (Hfail : forall e,
             KeyRepo.keys (snd (@Err bytes e, t)) = KeyRepo.keys t
             /\ KeyRepo.requests (snd (@Err bytes e, t)) = KeyRepo.requests t
             /\ (KeyRepo.signed (snd (@Err bytes e, t)) = KeyRepo.signed t
                 /\ (exists e', fst (@Err bytes e, t) = Err e')
                 \/ KeyRepo.signed (snd (@Err bytes e, t))
                    = (KeyRepo.signed t
                         ++ [mkSignEvent chain address txData (KeyRepo.requests t)])%list)).
  { intros e. repeat split. left. split; [reflexivity|]. now exists e. }
  destruct (find _ _) as [key|]; [|apply Hfail].
  destruct (negb _); [apply Hfail|].
  destruct (DecryptFromBase64 (KeyManager.lib s) _ _); [|apply Hfail].
  destruct (ToECDSA (KeyManager.lib s) _); [|apply Hfail].
  destruct (ecdsaSign (KeyManager.lib s) _ _); cbn; auto.
Qed.

Lemma UpdateSignatureRequest_last (R r0 : SignatureRequest) (l : list SignatureRequest)
      (t : KeyRepo.tables) :
  KeyRepo.requests t = (l ++ [r0])%list ->
  sID r0 = next_id (map sID l) ->
  sID R = sID r0 ->
  KeyRepo.requests (snd (KeyRepo.UpdateSignatureRequest R t)) = (l ++ [R])%list.
Proof.
  intros Ht H0 H1. unfold KeyRepo.UpdateSignatureRequest.
  cbn [snd KeyRepo.requests]. rewrite Ht, map_app. cbn [map].
  rewrite H1, Z.eqb_refl. f_equal.
  rewrite <- (map_id l) at 2. apply map_ext_in. intros r Hr.
  assert (sID r < sID r0) by (rewrite H0; apply next_id_above; now apply in_map).
  destruct (Z.eqb_spec (sID r) (sID r0)); [lia|reflexivity].
Qed.

Lemma SignWithRequestID_effect :
  forall s requestID userID chain address txData t,
    let out := KeyManager.SignWithRequestID s requestID userID chain address txData t in
    let t' := snd out in
    (fst (fst out) = None /\ t' = t)
    \/ (exists req req',
           sRequestID req = requestID /\ sStatus req = SignStatusPending
           /\ sRawTx req = hexEncode txData /\ sUserID req = userID
           /\ sChain req = chain
           /\ fst (fst out) = Some req'
           /\ KeyRepo.requests t' = (KeyRepo.requests t ++ [req'])%list
           /\ sID req' = sID req /\ sRequestID req' = requestID
           /\ (sStatus req' = SignStatusSigned /\ snd (fst out) = None
               \/ sStatus req' = SignStatusFailed /\ snd (fst out) <> None)
           /\ (KeyRepo.signed t' = KeyRepo.signed t
               /\ sStatus req' = SignStatusFailed
               \/ KeyRepo.signed t'
                  = (KeyRepo.signed t
                       ++ [mkSignEvent chain address txData
                                       (KeyRepo.requests t ++ [req])])%list)).
Proof.
  intros s requestID userID chain address txData t.
  unfold KeyManager.SignWithRequestID, KeyRepo.GetKeyByAddress.
  destruct (find _ _) as [key|]; [|left; split; reflexivity].
  unfold KeyRepo.CreateSignatureRequest.
  destruct (existsb _ _); [left; split; reflexivity|].
  right.
  set (req := set_sID (next_id (map sID (KeyRepo.requests t)))
                      (mkSignatureRequest 0 requestID userID (kID key) chain
                                          (hexEncode txData) "" SignStatusPending "")).
  set (t1 := KeyRepo.mkTables (KeyRepo.keys t) (KeyRepo.requests t ++ [req]) (KeyRepo.signed t)).
  destruct (Sign_effect s userID chain address txData t1) as (_ & Hreq & Hsig).
  destruct (KeyManager.Sign s userID chain address txData t1) as [[signature|e] t2] eqn:HS;
    cbv beta iota; cbn [fst snd] in *.
  - exists req. eexists. do 6 (split; [reflexivity|]).
    split; [apply (UpdateSignatureRequest_last _ req); [exact Hreq|reflexivity..]|].
    do 2 (split; [reflexivity|]).
    split; [left; split; reflexivity|].
    right. destruct Hsig as [(_ & e & He)|Hsig]; [discriminate|]. exact Hsig.
  - exists req. eexists. do 6 (split; [reflexivity|]).
    split; [apply (UpdateSignatureRequest_last _ req); [exact Hreq|reflexivity..]|].
    do 2 (split; [reflexivity|]).
    split; [right; split; [reflexivity|discriminate]|].
    destruct Hsig as [(Hsig & _)|Hsig];
      [left; split; [exact Hsig|reflexivity]|right; exact Hsig].
Qed.

Lemma processWithdrawal_effect s w st :
  let st' := snd (WithdrawalService.processWithdrawal s w st) in
  KeyRepo.requests (WithdrawalService.keystore st')
  = KeyRepo.requests (WithdrawalService.keystore st)
  /\ (KeyRepo.signed (WithdrawalService.keystore st')
      = KeyRepo.signed (WithdrawalService.keystore st)
      \/ exists rawTx,
          KeyRepo.signed (WithdrawalService.keystore st')
          = (KeyRepo.signed (WithdrawalService.keystore st)
               ++ [mkSignEvent (WithdrawalModel.Chain w) "" rawTx
                               (KeyRepo.requests (WithdrawalService.keystore st))])%list).
Proof.
  unfold WithdrawalService.processWithdrawal. cbv zeta.
  destruct (WithdrawalService.blockchains s _) as [chain|]; [|cbn; auto].
  unfold WithdrawalService.fail_with, WithdrawalService.save, WithdrawalRepo.Update.
  cbv beta iota.
  destruct (Blockchain.BuildTransaction chain _ _ _ _) as [rawTx|e]; [|cbn; auto].
  match goal with
  | |- context [KeyManager.Sign ?a ?b ?c ?d ?e ?f] =>
      destruct (Sign_effect a b c d e f) as (_ & Hreq & Hsig);
      destruct (KeyManager.Sign a b c d e f) as [[signature|e'] k1]
  end; cbn [fst snd] in *.
  - destruct (Blockchain.BroadcastTransaction chain signature); cbn;
      (split; [exact Hreq|]);
      (destruct Hsig as [(_ & e' & He)|Hsig]; [discriminate|]);
      right; exists rawTx; exact Hsig.
  - cbn. split; [exact Hreq|].
    destruct Hsig as [(Hsig & _)|Hsig]; [left; exact Hsig|right; exists rawTx; exact Hsig].
Qed.

(** C9 (amended). SignWithRequestID either stops before anything is written
    (no key for the address, or the request id is taken), or it first creates
    the SignatureRequest row in Pending for the payload and only then signs:
    the call of the signing primitive, if it is reached, sees that Pending
    row in the table, and the row ends as Signed when the call returns no
    error and as Failed otherwise.  Sign itself writes no SignatureRequest
    row, and the withdrawal processor signs through Sign: it leaves the
    signature_requests table as it was, and its signature is made with the
    table in that state. *)
Theorem signature_request_precedes_signing_by_request_id :
  (forall s requestID userID chain address txData t,
      let out := KeyManager.SignWithRequestID s requestID userID chain address txData t in
      let t' := snd out in
      (fst (fst out) = None /\ t' = t)
      \/ (exists req req',
             sRequestID req = requestID /\ sStatus req = SignStatusPending
             /\ sRawTx req = hexEncode txData /\ sUserID req = userID
             /\ sChain req = chain
             /\ fst (fst out) = Some req'
             /\ KeyRepo.requests t' = (KeyRepo.requests t ++ [req'])%list
             /\ sID req' = sID req /\ sRequestID req' = requestID
             /\ (sStatus req' = SignStatusSigned /\ snd (fst out) = None
                 \/ sStatus req' = SignStatusFailed /\ snd (fst out) <> None)
             /\ (KeyRepo.signed t' = KeyRepo.signed t
                 /\ sStatus req' = SignStatusFailed
                 \/ KeyRepo.signed t'
                    = (KeyRepo.signed t
                         ++ [mkSignEvent chain address txData
                                         (KeyRepo.requests t ++ [req])])%list)))
  /\ (forall s userID chain address txData t,
        KeyRepo.requests (snd (KeyManager.Sign s userID chain address txData t))
        = KeyRepo.requests t)
  /\ (forall s w st,
        let st' := snd (WithdrawalService.processWithdrawal s w st) in
        KeyRepo.requests (WithdrawalService.keystore st')
        = KeyRepo.requests (WithdrawalService.keystore st)
        /\ (KeyRepo.signed (WithdrawalService.keystore st')
            = KeyRepo.signed (WithdrawalService.keystore st)
            \/ exists rawTx,
                KeyRepo.signed (WithdrawalService.keystore st')
                = (KeyRepo.signed (WithdrawalService.keystore st)
                     ++ [mkSignEvent (WithdrawalModel.Chain w) "" rawTx
                                     (KeyRepo.requests
                                        (WithdrawalService.keystore st))])%list)).
Proof.
  split; [exact SignWithRequestID_effect|]. split.
  - intros. apply Sign_effect.
  - exact processWithdrawal_effect.
Qed.

(** C9, the claim as stated fails: the processor signs the raw transaction of
    an Approved withdrawal with the platform key while the
    signature_requests table is, and stays, empty. *)
Lemma processWithdrawal_signs_without_request :
  exists ev st',
    WithdrawalService.processWithdrawal
      Fixtures.withdrawalService
      (Fixtures.withdrawal1000 WithdrawalModel.WithdrawalStatusApproved "")
      Fixtures.approvedState = (None, st')
    /\ KeyRepo.signed (WithdrawalService.keystore st') = [ev]
    /\ eData ev = "raw"
    /\ ~ (exists r, In r (eRequests ev) /\ sStatus r = SignStatusPending)
    /\ KeyRepo.requests (WithdrawalService.keystore st') = [].
Proof.
  do 2 eexists. split; [vm_compute; reflexivity|].
  split; [reflexivity|]. split; [reflexivity|]. split; [|reflexivity].
  intros (r & [] & _).
Qed.

End Signing.

(** ** Key generation *)

Section Keys.
Import KeyModel.

Lemma derived_count_index userID chain t :
  KeyRepo.GetNextDerivationIndex userID chain t
  = Ok (Spec.derived_count userID chain (KeyRepo.keys t)).
Proof.
  unfold KeyRepo.GetNextDerivationIndex. f_equal.
  induction (KeyRepo.keys t) as [|k l IH]; [reflexivity|].
  cbn [filter Spec.derived_count].
  destruct (_ && _); [|exact IH].
  cbn [List.length]. rewrite Nat2Z.inj_succ, IH. lia.
Qed.

Lemma derived_count_master userID chain l k :
  kKeyType k = "master" ->
  Spec.derived_count userID chain (l ++ [k]) = Spec.derived_count userID chain l.
Proof.
  intros Hk. induction l as [|x l IH]; cbn [app Spec.derived_count].
  - rewrite Hk. cbn. now rewrite andb_false_r.
  - now rewrite IH.
Qed.

Lemma uint32_coin chain :
  KeyManager.uint32 (KeyManager.getCoinType chain) = KeyManager.getCoinType chain.
Proof.
  unfold KeyManager.getCoinType.
  repeat match goal with |- context [if ?b then _ else _] => destruct b end;
    reflexivity.
Qed.

Lemma derive_and_store_next s userID chain masterKey t priv m addr enc :
  let L := KeyManager.lib s in
  let K := KeyManager.encryptionKey s in
  let coin := KeyManager.getCoinType chain in
  let index := Spec.derived_count userID chain (KeyRepo.keys t) in
  let leaf := Spec.bip44_leaf L m coin (KeyManager.uint32 index) in
  DecryptFromBase64 L (kEncryptedPriv masterKey) K = Ok priv ->
  NewMasterKey L priv = Ok m ->
  KeyManager.deriveAddress s chain (Key leaf) = Ok addr ->
  EncryptToBase64 L (Key leaf) K = Ok enc ->
  exists dk,
    KeyManager.derive_and_store s userID chain masterKey t
    = (Ok (addr, Spec.bip44_path coin index),
       KeyRepo.mkTables (KeyRepo.keys t ++ [dk]) (KeyRepo.requests t) (KeyRepo.signed t))
    /\ kKeyType dk = "derived" /\ kUserID dk = userID /\ kChain dk = chain
    /\ kDerivationPath dk = Spec.bip44_path coin index
    /\ kAddress dk = addr /\ kEncryptedPriv dk = enc
    /\ kPublicKey dk = hexEncode (Key (PublicKey L leaf)).
Proof.
  intros L K coin index leaf Hdec Hm Haddr Henc.
  subst L K coin index leaf.
  unfold KeyManager.derive_and_store.
  rewrite Hdec, derived_count_index, Hm. cbv zeta. rewrite uint32_coin.
  change (NewChildKey (KeyManager.lib s)
            (NewChildKey (KeyManager.lib s)
               (NewChildKey (KeyManager.lib s)
                  (NewChildKey (KeyManager.lib s)
                     (NewChildKey (KeyManager.lib s) m
                                  (KeyManager.FirstHardenedChild + 44))
                     (KeyManager.FirstHardenedChild + KeyManager.getCoinType chain))
                  (KeyManager.FirstHardenedChild + 0)) 0)
            (KeyManager.uint32
               (Spec.derived_count userID chain (KeyRepo.keys t))))
    with (Spec.bip44_leaf (KeyManager.lib s) m (KeyManager.getCoinType chain)
            (KeyManager.uint32
               (Spec.derived_count userID chain (KeyRepo.keys t)))).
  rewrite Haddr, Henc.
  eexists. split; [reflexivity|]. repeat split.
Qed.

(** C8 (amended). GenerateAddress(user, chain) returns (address,
    derivation_path) and nothing else.  If a Master key exists for (user,
    chain) it is used; if none exists one is created and stored, and the
    mnemonic it was made from, which GenerateMasterKey hands to its own
    caller, is dropped.  In both cases the Master is decrypted, the index is
    the number of derived keys on record for (user, chain), and the key at
    m/44'/coin'/0'/0/index is encrypted and stored as a derived key together
    with its path and its chain-specific address. *)
Theorem GenerateAddress_persists_next_derived_key :
  forall s userID chain entropy t,
    let L := KeyManager.lib s in
    let K := KeyManager.encryptionKey s in
    let coin := KeyManager.getCoinType chain in
    let index := Spec.derived_count userID chain (KeyRepo.keys t) in
    let path := Spec.bip44_path coin index in
    let leaf m := Spec.bip44_leaf L m coin (KeyManager.uint32 index) in
    let derived dk addr enc m :=
      kKeyType dk = "derived" /\ kUserID dk = userID /\ kChain dk = chain
      /\ kDerivationPath dk = path /\ kAddress dk = addr
      /\ kEncryptedPriv dk = enc
      /\ kPublicKey dk = hexEncode (Key (PublicKey L (leaf m))) in
    (forall master priv m addr enc,
        KeyRepo.GetMasterKey userID chain t = Ok (Some master) ->
        DecryptFromBase64 L (kEncryptedPriv master) K = Ok priv ->
        NewMasterKey L priv = Ok m ->
        KeyManager.deriveAddress s chain (Key (leaf m)) = Ok addr ->
        EncryptToBase64 L (Key (leaf m)) K = Ok enc ->
        exists dk,
          KeyManager.GenerateAddress s userID chain entropy t
          = (Ok (addr, path),
             KeyRepo.mkTables (KeyRepo.keys t ++ [dk])
                              (KeyRepo.requests t) (KeyRepo.signed t))
          /\ derived dk addr enc m)
    /\ (forall mnemonic mk encM priv m addr enc,
          KeyRepo.GetMasterKey userID chain t = Ok None ->
          entropy = Ok mnemonic ->
          NewMasterKey L (NewSeed L mnemonic) = Ok mk ->
          EncryptToBase64 L (Key mk) K = Ok encM ->
          DecryptFromBase64 L encM K = Ok priv ->
          NewMasterKey L priv = Ok m ->
          KeyManager.deriveAddress s chain (Key (leaf m)) = Ok addr ->
          EncryptToBase64 L (Key (leaf m)) K = Ok enc ->
          exists master dk,
            KeyManager.GenerateMasterKey s userID chain entropy t
            = (Ok (master, mnemonic),
               KeyRepo.mkTables (KeyRepo.keys t ++ [master])
                                (KeyRepo.requests t) (KeyRepo.signed t))
            /\ KeyManager.GenerateAddress s userID chain entropy t
               = (Ok (addr, path),
                  KeyRepo.mkTables (KeyRepo.keys t ++ [master; dk])
                                   (KeyRepo.requests t) (KeyRepo.signed t))
            /\ kKeyType master = "master" /\ kUserID master = userID
            /\ kChain master = chain /\ kEncryptedPriv master = encM
            /\ derived dk addr enc m).
Proof.
  intros s userID chain entropy t L K coin index path leaf derived.
  split.
  - intros master priv m addr enc Hmaster Hdec Hm Haddr Henc.
    unfold KeyManager.GenerateAddress. rewrite Hmaster.
    exact (derive_and_store_next s userID chain master t priv m addr enc
                                 Hdec Hm Haddr Henc).
  - intros mnemonic mk encM priv m addr enc Hnone -> Hmk HencM Hdec Hm Haddr Henc.
    assert (HG : exists master,
               KeyManager.GenerateMasterKey s userID chain (Ok mnemonic) t
               = (Ok (master, mnemonic),
                  KeyRepo.mkTables (KeyRepo.keys t ++ [master])
                                   (KeyRepo.requests t) (KeyRepo.signed t))
               /\ kKeyType master = "master" /\ kUserID master = userID
               /\ kChain master = chain /\ kEncryptedPriv master = encM).
    { unfold KeyManager.GenerateMasterKey. rewrite Hnone.
      fold L K. rewrite Hmk, HencM.
      eexists. split; [reflexivity|]. repeat split. }
    destruct HG as (master & HG & Ht & Hu & Hc & He).
    set (t1 := KeyRepo.mkTables (KeyRepo.keys t ++ [master])
                                (KeyRepo.requests t) (KeyRepo.signed t)).
    assert (Hidx : Spec.derived_count userID chain (KeyRepo.keys t1) = index).
    { apply derived_count_master. exact Ht. }
    destruct (derive_and_store_next s userID chain master t1 priv m addr enc)
      as (dk & Hds & Hdk).
    + fold L K. rewrite He. exact Hdec.
    + exact Hm.
    + rewrite Hidx. exact Haddr.
    + rewrite Hidx. exact Henc.
    + exists master, dk. split; [exact HG|]. split.
      * unfold KeyManager.GenerateAddress. rewrite Hnone, HG. cbv beta iota.
        fold t1. rewrite Hds, Hidx. subst t1.
        cbn [KeyRepo.keys KeyRepo.requests KeyRepo.signed].
        now rewrite <- app_assoc.
      * rewrite Hidx in Hdk. repeat (split; [assumption|]). exact Hdk.
Qed.

Lemma GenerateAddress_persists_next_derived_key_witness :
  (exists dk,
      KeyManager.GenerateAddress Fixtures.toyKeyManager 7 "ethereum"
                                 (Err (ErrExternal "no entropy"))
                                 (KeyRepo.mkTables [Fixtures.userMaster] [] [])
      = (Ok ("0xseed/2147483692/2147483708/2147483648/0/0", "m/44'/60'/0'/0/0"),
         KeyRepo.mkTables [Fixtures.userMaster; dk] [] [])
      /\ kKeyType dk = "derived")
  /\ exists master dk,
    KeyManager.GenerateAddress Fixtures.toyKeyManager 7 "ethereum"
                               (Ok "abandon ability") Fixtures.noKeys
    = (Ok ("0xabandon ability/2147483692/2147483708/2147483648/0/0",
           "m/44'/60'/0'/0/0"),
       KeyRepo.mkTables [master; dk] [] [])
    /\ kKeyType master = "master" /\ kKeyType dk = "derived"
    /\ kDerivationPath dk = "m/44'/60'/0'/0/0"
    /\ kAddress dk = "0xabandon ability/2147483692/2147483708/2147483648/0/0".
Proof.
  split.
  { destruct (GenerateAddress_persists_next_derived_key
                Fixtures.toyKeyManager 7 "ethereum" (Err (ErrExternal "no entropy"))
                (KeyRepo.mkTables [Fixtures.userMaster] [] [])) as (H & _).
    destruct (H Fixtures.userMaster _ _ _ _ eq_refl eq_refl eq_refl eq_refl eq_refl)
      as (dk & HG & Hd & _).
    exists dk. split; assumption. }
  destruct (GenerateAddress_persists_next_derived_key
              Fixtures.toyKeyManager 7 "ethereum" (Ok "abandon ability")
              Fixtures.noKeys) as (_ & H).
  destruct (H "abandon ability" _ _ _ _ _ _
              eq_refl eq_refl eq_refl eq_refl eq_refl eq_refl eq_refl eq_refl)
    as (master & dk & _ & HG & Hm & _ & _ & _ & Hd & _ & _ & Hp & Ha & _).
  exists master, dk. repeat split; assumption.
Defined.

(** C8, the claim as stated fails: with no Master key on record the call
    creates one from the mnemonic, and what it returns to its caller is the
    address and the path; the mnemonic is not among the values returned. *)
Lemma GenerateAddress_drops_the_mnemonic :
  KeyRepo.GetMasterKey 7 "ethereum" Fixtures.noKeys = Ok None
  /\ exists master t1 addr path t2,
      KeyManager.GenerateMasterKey Fixtures.toyKeyManager 7 "ethereum"
                                   (Ok "abandon ability") Fixtures.noKeys
      = (Ok (master, "abandon ability"), t1)
      /\ KeyManager.GenerateAddress Fixtures.toyKeyManager 7 "ethereum"
                                    (Ok "abandon ability") Fixtures.noKeys
         = (Ok (addr, path), t2)
      /\ In master (KeyRepo.keys t2)
      /\ addr <> "abandon ability" /\ path <> "abandon ability".
Proof.
  split; [reflexivity|].
  do 5 eexists. split; [vm_compute; reflexivity|].
  split; [vm_compute; reflexivity|].
  split; [left; reflexivity|]. split; discriminate.
Qed.

End Keys.

(** ** The deposit scanner *)

Section Scanner.
Import DepositModel.

Lemma set_first_read chain block l :
  match find (fun p => String.eqb (pChain p) chain)
             (DepositRepo.set_first chain block l) with
  | Some p => LastScanned p = block
  | None => False
  end.
Proof.
  induction l as [|p l IH]; cbn [DepositRepo.set_first find].
  - cbn [pChain]. now rewrite String.eqb_refl.
  - destruct (String.eqb (pChain p) chain) eqn:E; cbn [find pChain].
    + now rewrite E.
    + now rewrite E.
Qed.

Lemma SetLastScannedBlock_read chain block t :
  DepositRepo.GetLastScannedBlock chain
    (snd (DepositRepo.SetLastScannedBlock chain block t)) = Ok block.
Proof.
  unfold DepositRepo.GetLastScannedBlock, DepositRepo.SetLastScannedBlock.
  cbn [snd DepositRepo.progress DepositRepo.set_progress].
  pose proof (set_first_read chain block (DepositRepo.progress t)) as H.
  destruct (find _ _) as [p|]; [now rewrite H|contradiction].
Qed.

Lemma scan_block_unfetched s chain chainName addrMap uuids now a blk :
  Spec.fetched chain blk = false ->
  DepositService.scan_block s chain chainName addrMap uuids now a blk = a.
Proof.
  unfold Spec.fetched, DepositService.scan_block.
  destruct (Blockchain.GetBlock chain) as [getBlock|]; [|discriminate].
  destruct (getBlock blk); [discriminate|reflexivity].
Qed.

Lemma scan_block_fetched s chain chainName addrMap uuids now a blk :
  Spec.fetched chain blk = true ->
  DepositRepo.GetLastScannedBlock
    chainName
    (DepositService.db
       (fst (DepositService.scan_block s chain chainName addrMap uuids now a blk)))
  = Ok blk.
Proof.
  unfold Spec.fetched, DepositService.scan_block.
  assert (Hset : forall a2 : DepositService.acc,
             DepositRepo.GetLastScannedBlock chainName
               (DepositService.db
                  (fst (let '(st, k) := a2 in
                        (DepositService.set_db
                           (snd (DepositRepo.SetLastScannedBlock
                                   chainName blk (DepositService.db st))) st, k))))
             = Ok blk).
  { intros [st k]. cbn [fst DepositService.db DepositService.set_db].
    apply SetLastScannedBlock_read. }
  destruct (Blockchain.GetBlock chain) as [getBlock|]; [|intros _; apply Hset].
  destruct (getBlock blk) as [block|e]; [intros _; apply Hset|discriminate].
Qed.

(** C5 (amended). In a scanner tick, for every height h of the scan window:
    the tick runs the iterations of the heights before h, then that of h,
    then those of the heights after it.  When the adapter provides GetBlock
    and fetching block h fails, the iteration for h writes nothing
    (ScanProgress is not set to h); otherwise it ends by setting
    ScanProgress[chain] to h, once the transactions and logs of block h have
    been gone through, whatever the adapter answered for a single
    transaction or for the logs and whatever ProcessDeposit returned: those
    failures are skipped and do not hold ScanProgress back. *)
Theorem ScanDeposits_sets_progress_when_block_is_fetched :
  forall s chainName uuids now st chain lastScanned latest addrs pre h post,
    DepositService.blockchains s chainName = Some chain ->
    DepositRepo.GetLastScannedBlock chainName (DepositService.db st)
    = Ok lastScanned ->
    Blockchain.GetBlockNumber chain = Ok latest ->
    DepositRepo.ListAllDepositAddresses chainName (DepositService.db st)
    = Ok addrs ->
    DepositService.window lastScanned (DepositService.clamp lastScanned latest)
    = (pre ++ h :: post)%list ->
    let step := DepositService.scan_block s chain chainName
                                          (DepositService.lower_set addrs) uuids now in
    let before := fold_left step pre (st, O) in
    let after := step before h in
    DepositService.ScanDeposits s chainName uuids now st
    = (None, fst (fold_left step post after))
    /\ match Blockchain.GetBlock chain with
       | Some getBlock =>
         match getBlock h with
         | Err _ => after = before
         | Ok _ =>
             DepositRepo.GetLastScannedBlock chainName (DepositService.db (fst after))
             = Ok h
         end
       | None =>
           DepositRepo.GetLastScannedBlock chainName (DepositService.db (fst after))
           = Ok h
       end.
Proof.
  intros s chainName uuids now st chain lastScanned latest addrs pre h post
         Hchain Hlast Hlatest Haddrs Hwin step before after.
  split.
  - unfold DepositService.ScanDeposits.
    rewrite Hchain, Hlast, Hlatest, Haddrs. cbv zeta. rewrite Hwin.
    rewrite fold_left_app. reflexivity.
  - pose proof (scan_block_unfetched s chain chainName (DepositService.lower_set addrs)
                                     uuids now before h) as Hu.
    pose proof (scan_block_fetched s chain chainName (DepositService.lower_set addrs)
                                   uuids now before h) as Hf.
    unfold Spec.fetched in Hu, Hf. fold step in Hu, Hf. fold after in Hu, Hf.
    destruct (Blockchain.GetBlock chain) as [getBlock|]; [|now apply Hf].
    destruct (getBlock h); [now apply Hf|now apply Hu].
Qed.

Lemma ScanDeposits_sets_progress_when_block_is_fetched_witness :
  exists st',
    DepositService.ScanDeposits (Fixtures.scanner Fixtures.txFailAdapter)
                                "ethereum" Fixtures.uuids 5000 Fixtures.scanState
    = (None, st')
    /\ DepositRepo.GetLastScannedBlock "ethereum" (DepositService.db st') = Ok 101.
Proof.
  destruct (ScanDeposits_sets_progress_when_block_is_fetched
              (Fixtures.scanner Fixtures.txFailAdapter) "ethereum" Fixtures.uuids
              5000 Fixtures.scanState Fixtures.txFailAdapter 100 101
              [mkDepositAddress 7 "ethereum" "0xb"] [] 101 []
              eq_refl eq_refl eq_refl eq_refl eq_refl) as (Hrun & Hprog).
  eexists. split; [exact Hrun|]. exact Hprog.
Defined.



(** C5, the claim as stated fails: block 101 is fetched but the details of
    its one transaction are not, so nothing of the block is processed; the
    tick still moves ScanProgress from 100 to 101 and records no deposit. *)
Lemma ScanDeposits_advances_past_failed_transaction :
  DepositRepo.GetLastScannedBlock "ethereum" (DepositService.db Fixtures.scanState)
  = Ok 100
  /\ Blockchain.GetTransaction Fixtures.txFailAdapter "0xT"
     = Err (ErrExternal "timeout")
  /\ exists st',
      DepositService.ScanDeposits (Fixtures.scanner Fixtures.txFailAdapter)
                                  "ethereum" Fixtures.uuids 5000 Fixtures.scanState
      = (None, st')
      /\ DepositRepo.deposits (DepositService.db st') = []
      /\ DepositRepo.GetLastScannedBlock "ethereum" (DepositService.db st') = Ok 101
      /\ DepositRepo.GetLastScannedBlock "ethereum" (DepositService.db st')
         <> DepositRepo.GetLastScannedBlock "ethereum"
                                           (DepositService.db Fixtures.scanState).
Proof.
  split; [reflexivity|]. split; [reflexivity|].
  eexists. split; [vm_compute; reflexivity|].
  split; [reflexivity|]. split; [reflexivity|]. discriminate.
Qed.

(** The same loop when the fetch of block 101 fails and that of block 102
    succeeds: progress ends at 102, past the block that was not read. *)
Lemma ScanDeposits_passes_over_unfetched_block :
  exists st',
    DepositService.ScanDeposits (Fixtures.scanner Fixtures.gapAdapter)
                                "ethereum" Fixtures.uuids 5000 Fixtures.scanState
    = (None, st')
    /\ DepositRepo.GetLastScannedBlock "ethereum" (DepositService.db st') = Ok 102.
Proof.
  eexists. split; [vm_compute; reflexivity|]. reflexivity.
Qed.

End Scanner.

(** * Further properties *)

(** ** The balance ledger *)

Lemma is_row_set_Available u c cur v b :
  WalletRepo.is_row u c cur (WalletModel.set_Available v b) = WalletRepo.is_row u c cur b.
Proof. reflexivity. Qed.

Lemma is_row_set_Frozen u c cur v b :
  WalletRepo.is_row u c cur (WalletModel.set_Frozen v b) = WalletRepo.is_row u c cur b.
Proof. reflexivity. Qed.

Lemma map_fixes {A} (f : A -> A) (l : list A) :
  (forall x, In x l -> f x = x) -> map f l = l.
Proof.
  intros H. rewrite <- (map_id l) at 2. now apply map_ext_in.
Qed.

(** Unfreeze undoes Freeze on rows that cover the amount. *)
Lemma UnfreezeBalance_undoes_FreezeBalance userID chain currency amount t :
  (forall b, In b t -> WalletRepo.is_row userID chain currency b = true ->
             amount <= WalletModel.Available b /\ 0 <= WalletModel.Frozen b) ->
  snd (WalletRepo.UnfreezeBalance userID chain currency amount
         (snd (WalletRepo.FreezeBalance userID chain currency amount t)))
  = t.
Proof.
  intros H.
  unfold WalletRepo.UnfreezeBalance, WalletRepo.FreezeBalance, WalletRepo.update_where.
  cbn [snd]. rewrite !map_map. apply map_fixes. intros b Hb.
  destruct (WalletRepo.is_row userID chain currency b) eqn:E.
  - destruct (H b Hb E) as [Ha Hf].
    cbn [andb]. rewrite (proj2 (Z.leb_le _ _) Ha).
    rewrite is_row_set_Available, E. rewrite is_row_set_Frozen, is_row_set_Available, E.
    cbn [andb].
    assert (Hg : (amount <=? WalletModel.Frozen
                                (WalletModel.set_Frozen
                                   (WalletModel.Frozen
                                      (WalletModel.set_Available
                                         (WalletModel.Available b - amount) b) + amount)
                                   (WalletModel.set_Available
                                      (WalletModel.Available b - amount) b))) = true).
    { apply Z.leb_le. cbn. lia. }
    rewrite Hg. rewrite is_row_set_Frozen, is_row_set_Frozen, is_row_set_Available, E.
    destruct b. unfold WalletModel.set_Frozen, WalletModel.set_Available. cbn.
    unfold Decimal in *. f_equal; lia.
  - repeat first [rewrite E | progress cbn [andb]]. reflexivity.
Qed.

(** X1. Freeze(a) followed by Unfreeze(a) gives the table back, provided
    every row of the triple can cover the amount (available >= a) and has a
    non-negative frozen part. *)
Theorem Freeze_then_Unfreeze_restores :
  forall userID chain currency amount t,
    (forall b, In b t -> WalletRepo.is_row userID chain currency b = true ->
               amount <= WalletModel.Available b /\ 0 <= WalletModel.Frozen b) ->
    snd (WalletRepo.UnfreezeBalance userID chain currency amount
           (snd (WalletRepo.FreezeBalance userID chain currency amount t)))
    = t.
Proof.
  intros userID chain currency amount t H.
  now apply UnfreezeBalance_undoes_FreezeBalance.
Qed.

Lemma Freeze_then_Unfreeze_restores_witness :
  snd (WalletRepo.UnfreezeBalance 7 "ethereum" "ETH" 100
         (snd (WalletRepo.FreezeBalance 7 "ethereum" "ETH" 100
                 [Fixtures.ethBalance 1000 20;
                  WalletModel.mkBalance 2 1 8 "ethereum" "ETH" 5 0 0])))
  = [Fixtures.ethBalance 1000 20; WalletModel.mkBalance 2 1 8 "ethereum" "ETH" 5 0 0].
Proof.
  apply Freeze_then_Unfreeze_restores.
  intros b [<-|[<-|[]]]; cbn; intros H; [lia|discriminate].
Defined.


Lemma Forall_update_where (P : WalletModel.Balance -> Prop) p f t :
  (forall b, P b -> p b = true -> P (f b)) ->
  Forall P t -> Forall P (WalletRepo.update_where p f t).
Proof.
  intros Hf Ht. unfold WalletRepo.update_where. apply Forall_map.
  apply (Forall_impl _ (P := P)); [|exact Ht].
  intros b Hb. destruct (p b) eqn:E; [now apply Hf|exact Hb].
Qed.

(** X2. The four mutations keep the ledger non-negative: if every row has
    available >= 0 and frozen >= 0 and the amount is not negative, the same
    holds after Increment, Decrement, Freeze and Unfreeze, whether or not
    their guards were satisfied. *)
Theorem ledger_mutations_keep_non_negative :
  forall userID chain currency amount t,
    0 <= amount ->
    Forall (fun b => 0 <= WalletModel.Available b /\ 0 <= WalletModel.Frozen b) t ->
    let keeps (out : option error * WalletRepo.table) :=
      Forall (fun b => 0 <= WalletModel.Available b /\ 0 <= WalletModel.Frozen b)
             (snd out) in
    keeps (WalletRepo.IncrementBalance userID chain currency amount t)
    /\ keeps (WalletRepo.DecrementBalance userID chain currency amount t)
    /\ keeps (WalletRepo.FreezeBalance userID chain currency amount t)
    /\ keeps (WalletRepo.UnfreezeBalance userID chain currency amount t).
Proof.
  intros userID chain currency amount t Ha Ht keeps. subst keeps. cbv beta.
  unfold WalletRepo.IncrementBalance, WalletRepo.DecrementBalance,
    WalletRepo.FreezeBalance, WalletRepo.UnfreezeBalance. cbn [snd].
  repeat split; repeat apply Forall_update_where; try exact Ht;
    intros b [H1 H2] Hp; cbn; unfold Decimal in *;
    try (apply andb_prop in Hp; destruct Hp as [_ Hp]; apply Z.leb_le in Hp);
    lia.
Qed.

Lemma ledger_mutations_keep_non_negative_witness :
  Forall (fun b => 0 <= WalletModel.Available b /\ 0 <= WalletModel.Frozen b)
         (snd (WalletRepo.FreezeBalance 7 "ethereum" "ETH" 10 [Fixtures.ethBalance 5 0]))
  /\ Forall (fun b => 0 <= WalletModel.Available b /\ 0 <= WalletModel.Frozen b)
            (snd (WalletRepo.UnfreezeBalance 7 "ethereum" "ETH" 10
                                            [Fixtures.ethBalance 5 0])).
Proof.
  destruct (ledger_mutations_keep_non_negative
              7 "ethereum" "ETH" 10 [Fixtures.ethBalance 5 0]) as (_ & _ & HF & HU).
  - lia.
  - constructor; [cbn; lia|constructor].
  - split; [exact HF|exact HU].
Defined.

Lemma Forall2_map_self {A} (R : A -> A -> Prop) (f : A -> A) (l : list A) :
  (forall x, R x (f x)) -> Forall2 R l (map f l).
Proof. intros H. induction l; cbn; constructor; auto. Qed.

Lemma Forall2_compose {A} (R : A -> A -> Prop) (l1 l2 l3 : list A) :
  (forall x y z, R x y -> R y z -> R x z) ->
  Forall2 R l1 l2 -> Forall2 R l2 l3 -> Forall2 R l1 l3.
Proof.
  intros Ht H12. revert l3. induction H12; intros l3 H23; inversion H23; subst;
    constructor; eauto.
Qed.

(** X3. A ledger mutation for one (user, chain, currency) neither adds nor
    removes a row, leaves the rows of every other triple exactly as they
    were, and never changes the key, the identifier or the pending part of
    any row. *)
Theorem ledger_mutations_touch_only_their_triple :
  forall userID chain currency amount t,
    let same (b b' : WalletModel.Balance) :=
      WalletModel.ID b' = WalletModel.ID b
      /\ WalletModel.UserID b' = WalletModel.UserID b
      /\ WalletModel.Chain b' = WalletModel.Chain b
      /\ WalletModel.Currency b' = WalletModel.Currency b
      /\ WalletModel.Pending b' = WalletModel.Pending b
      /\ (WalletRepo.is_row userID chain currency b = false -> b' = b) in
    Forall2 same t (snd (WalletRepo.IncrementBalance userID chain currency amount t))
    /\ Forall2 same t (snd (WalletRepo.DecrementBalance userID chain currency amount t))
    /\ Forall2 same t (snd (WalletRepo.FreezeBalance userID chain currency amount t))
    /\ Forall2 same t (snd (WalletRepo.UnfreezeBalance userID chain currency amount t)).
Proof.
  intros userID chain currency amount t same.
  assert (Hstep : forall p f l,
             (forall b, p b = true -> WalletRepo.is_row userID chain currency b = true) ->
             (forall b, WalletRepo.is_row userID chain currency b = true ->
                        same b (f b)) ->
             Forall2 same l (WalletRepo.update_where p f l)).
  { intros p f l Hp Hf. apply Forall2_map_self. intros b.
    destruct (p b) eqn:E; [apply Hf; now apply Hp|].
    subst same. cbv beta. repeat split; reflexivity. }
  assert (Htrans : forall x y z, same x y -> same y z -> same x z).
  { subst same. cbv beta. unfold WalletRepo.is_row.
    intros x y z (H1 & H2 & H3 & H4 & H5 & H6) (K1 & K2 & K3 & K4 & K5 & K6).
    repeat split; try congruence.
    intros Hx. rewrite K6, H6; auto. now rewrite H2, H3, H4. }
  assert (Hguard : forall (g : WalletModel.Balance -> bool) b,
             WalletRepo.is_row userID chain currency b && g b = true ->
             WalletRepo.is_row userID chain currency b = true).
  { intros g b Hb. now apply andb_prop in Hb. }
  assert (HsetA : forall v b, WalletRepo.is_row userID chain currency b = true ->
                              same b (WalletModel.set_Available (v b) b)).
  { intros v b Hb. subst same. cbv beta. repeat split. congruence. }
  assert (HsetF : forall v b, WalletRepo.is_row userID chain currency b = true ->
                              same b (WalletModel.set_Frozen (v b) b)).
  { intros v b Hb. subst same. cbv beta. repeat split. congruence. }
  unfold WalletRepo.IncrementBalance, WalletRepo.DecrementBalance,
    WalletRepo.FreezeBalance, WalletRepo.UnfreezeBalance. cbn [snd].
  split; [|split; [|split]].
  - apply Hstep; [auto|]. exact (HsetA (fun b => WalletModel.Available b + amount)).
  - apply Hstep; [apply Hguard|].
    exact (HsetA (fun b => WalletModel.Available b - amount)).
  - eapply Forall2_compose; [exact Htrans| |].
    + apply Hstep; [apply Hguard|].
      exact (HsetA (fun b => WalletModel.Available b - amount)).
    + apply Hstep; [auto|]. exact (HsetF (fun b => WalletModel.Frozen b + amount)).
  - eapply Forall2_compose; [exact Htrans| |].
    + apply Hstep; [apply Hguard|].
      exact (HsetF (fun b => WalletModel.Frozen b - amount)).
    + apply Hstep; [auto|]. exact (HsetA (fun b => WalletModel.Available b + amount)).
Qed.

(** ** Withdrawal intake *)

Lemma find_map_preserving {A} (p : A -> bool) (g : A -> A) (l : list A) :
  (forall x, p (g x) = p x) ->
  find p (map g l) = option_map g (find p l).
Proof.
  intros H. induction l as [|x l IH]; [reflexivity|].
  cbn [map find]. rewrite H. destruct (p x); [reflexivity|exact IH].
Qed.

(** The row a read returns, after a freeze that it covers. *)
Lemma GetBalance_after_FreezeBalance userID chain currency amount t b :
  WalletRepo.GetBalance userID chain currency t = Ok (Some b) ->
  amount <= WalletModel.Available b ->
  WalletRepo.GetBalance userID chain currency
    (snd (WalletRepo.FreezeBalance userID chain currency amount t))
  = Ok (Some (WalletModel.set_Frozen
                (WalletModel.Frozen b + amount)
                (WalletModel.set_Available (WalletModel.Available b - amount) b))).
Proof.
  unfold WalletRepo.GetBalance, WalletRepo.FreezeBalance, WalletRepo.update_where.
  intros [= Hb] Ha. cbn [snd]. f_equal.
  rewrite find_map_preserving.
  2:{ intros x. destruct (WalletRepo.is_row userID chain currency x) eqn:E;
        [rewrite is_row_set_Frozen|]; exact E. }
  rewrite find_map_preserving.
  2:{ intros x. destruct (_ && _); [apply is_row_set_Available|reflexivity]. }
  rewrite Hb. cbn [option_map].
  assert (Hrow := find_some _ _ Hb). destruct Hrow as [_ Hrow].
  rewrite Hrow. cbn [andb]. rewrite (proj2 (Z.leb_le _ _) Ha).
  rewrite is_row_set_Available, Hrow. reflexivity.
Qed.

Section Intake.
Import WithdrawalModel.

(** What a successful CreateWithdrawal has done. *)
Lemma CreateWithdrawal_success s req uuid now st w st' :
  WithdrawalService.CreateWithdrawal s req uuid now st = (Ok w, st') ->
  exists amount balance rr r1,
    reqAmount req = SNum amount
    /\ WalletRepo.GetBalance (reqUserID req) (reqChain req) (reqCurrency req)
                             (WithdrawalService.balances st) = Ok (Some balance)
    /\ amount <= WalletModel.Available balance
    /\ RiskService.CheckWithdrawalRisk
         (RiskModel.mkWithdrawalRiskRequest (reqUserID req) (reqChain req)
            (reqToAddress req) (reqCurrency req) (reqAmount req))
         now (WithdrawalService.risk st) = (Ok rr, r1)
    /\ Status w = (if RiskModel.NeedManualReview rr then WithdrawalStatusManualReview
                   else if 0 <? RiskModel.RiskLevel rr then WithdrawalStatusRiskReview
                   else WithdrawalStatusApproved)
    /\ ManualReview w = RiskModel.NeedManualReview rr
    /\ RiskReview w = (negb (RiskModel.NeedManualReview rr)
                       && (0 <? RiskModel.RiskLevel rr))
    /\ WithdrawalModel.RiskLevel w = RiskModel.RiskLevel rr
    /\ WithdrawalService.risk st' = r1
    /\ Amount w = amount /\ UserID w = reqUserID req /\ Chain w = reqChain req
    /\ Currency w = reqCurrency req /\ ToAddress w = reqToAddress req
    /\ UUID w = uuid /\ TxHash w = "" /\ CreatedAt w = now
    /\ ID w = next_id (map ID (WithdrawalService.withdrawals st))
    /\ WithdrawalService.withdrawals st'
       = (WithdrawalService.withdrawals st ++ [w])%list
    /\ WithdrawalService.balances st'
       = snd (WalletRepo.FreezeBalance (reqUserID req) (reqChain req)
                                       (reqCurrency req) amount
                                       (WithdrawalService.balances st))
    /\ WithdrawalService.limits st' = WithdrawalService.limits st
    /\ WithdrawalService.keystore st' = WithdrawalService.keystore st.
Proof.
  unfold WithdrawalService.CreateWithdrawal.
  destruct (reqAmount req) as [| |amount] eqn:Hamount; cbn [NewFromString];
    try discriminate.
  destruct (WalletRepo.GetBalance _ _ _ _) as [[balance|]|] eqn:Hbal;
    try discriminate.
  destruct (Z.ltb_spec (WalletModel.Available balance) amount); [discriminate|].
  destruct (WithdrawalService.checkLimits _ _ _ _ _ _); [discriminate|].
  destruct (RiskService.CheckWithdrawalRisk _ _ _) as [[rr|e] r1] eqn:Hrisk;
    [|discriminate].
  unfold WalletRepo.FreezeBalance, WithdrawalRepo.Create.
  cbn [WithdrawalService.set_risk WithdrawalService.set_balances
       WithdrawalService.withdrawals WithdrawalService.balances].
  intros Hc. exists amount, balance, rr, r1.
  split; [reflexivity|]. split; [reflexivity|]. split; [assumption|].
  split; [reflexivity|].
  destruct (RiskModel.NeedManualReview rr);
    [|destruct (0 <? RiskModel.RiskLevel rr)];
    cbn [UUID set_review set_Status] in Hc;
    (destruct (existsb _ _); [discriminate|]);
    injection Hc as <- <-; repeat split.
Qed.

(** X4. A CreateWithdrawal that returns an error leaves the withdrawals,
    the limits and the key store as they were, whatever the ledger holds.
    The ledger is then either untouched, or what the rollback gives:
    UnfreezeBalance applied after FreezeBalance for the amount of the
    request.  It is as before whenever the triple has a single balance row
    whose frozen part is not negative. *)
Theorem CreateWithdrawal_failure_changes_nothing :
  forall s req uuid now st e st',
    WithdrawalService.CreateWithdrawal s req uuid now st = (Err e, st') ->
    WithdrawalService.withdrawals st' = WithdrawalService.withdrawals st
    /\ WithdrawalService.limits st' = WithdrawalService.limits st
    /\ WithdrawalService.keystore st' = WithdrawalService.keystore st
    /\ (WithdrawalService.balances st' = WithdrawalService.balances st
        \/ exists amount,
            reqAmount req = SNum amount
            /\ WithdrawalService.balances st'
               = snd (WalletRepo.UnfreezeBalance
                        (reqUserID req) (reqChain req) (reqCurrency req) amount
                        (snd (WalletRepo.FreezeBalance
                                (reqUserID req) (reqChain req) (reqCurrency req)
                                amount (WithdrawalService.balances st)))))
    /\ ((forall b b',
            In b (WithdrawalService.balances st) ->
            In b' (WithdrawalService.balances st) ->
            WalletRepo.is_row (reqUserID req) (reqChain req) (reqCurrency req) b
            = true ->
            WalletRepo.is_row (reqUserID req) (reqChain req) (reqCurrency req) b'
            = true ->
            b = b') ->
        (forall b,
            In b (WithdrawalService.balances st) ->
            WalletRepo.is_row (reqUserID req) (reqChain req) (reqCurrency req) b
            = true ->
            0 <= WalletModel.Frozen b) ->
        WithdrawalService.balances st' = WithdrawalService.balances st).
Proof.
  intros s req uuid now st e st'.
  unfold WithdrawalService.CreateWithdrawal.
  destruct (reqAmount req) as [| |amount] eqn:Hamount; cbn [NewFromString];
    try (intros [= <- <-]; repeat split; auto).
  unfold WalletRepo.GetBalance.
  destruct (find _ _) as [balance|] eqn:Hbal;
    [|intros [= <- <-]; repeat split; auto].
  destruct (Z.ltb_spec (WalletModel.Available balance) amount) as [|Hcover];
    [intros [= <- <-]; repeat split; auto|].
  destruct (WithdrawalService.checkLimits _ _ _ _ _ _) as [e'|];
    [intros [= <- <-]; repeat split; auto|].
  destruct (CheckWithdrawalRisk_answers
              (RiskModel.mkWithdrawalRiskRequest (reqUserID req) (reqChain req)
                 (reqToAddress req) (reqCurrency req) (SNum amount))
              now (WithdrawalService.risk st)) as (rr & r1 & Hrisk).
  rewrite Hrisk.
  unfold WithdrawalRepo.Create.
  destruct (WalletRepo.FreezeBalance _ _ _ _ _) as [fe b1] eqn:Hfreeze.
  assert (Hb1 : b1 = snd (WalletRepo.FreezeBalance
                            (reqUserID req) (reqChain req) (reqCurrency req) amount
                            (WithdrawalService.balances st))).
  { cbn [WithdrawalService.set_risk WithdrawalService.balances] in Hfreeze.
    now rewrite Hfreeze. }
  assert (Hfe : fe = None).
  { unfold WalletRepo.FreezeBalance in Hfreeze. now injection Hfreeze as <- _. }
  subst fe.
  cbn [WithdrawalService.set_risk WithdrawalService.set_balances
       WithdrawalService.withdrawals WithdrawalService.balances].
  destruct (existsb _ _); [|discriminate].
  intros [= <- <-].
  cbn [WithdrawalService.set_balances WithdrawalService.balances
       WithdrawalService.withdrawals WithdrawalService.limits
       WithdrawalService.keystore].
  do 3 (split; [reflexivity|]). rewrite Hb1. split.
  - right. exists amount. split; reflexivity.
  - intros Hone Hfrozen. apply UnfreezeBalance_undoes_FreezeBalance.
    intros b Hb Hrow. destruct (find_some _ _ Hbal) as [Hin Hrow'].
    rewrite (Hone b balance Hb Hin Hrow Hrow').
    split; [exact Hcover|]. apply Hfrozen; assumption.
Qed.

Lemma CreateWithdrawal_failure_changes_nothing_witness :
  exists e st',
    WithdrawalService.CreateWithdrawal
      Fixtures.withdrawalService Fixtures.requestAtMax "uuid-2" 1000
      Fixtures.limitState = (Err e, st')
    /\ WithdrawalService.withdrawals st'
       = WithdrawalService.withdrawals Fixtures.limitState
    /\ WithdrawalService.balances st' = [Fixtures.ethBalance 1000 120].
Proof.
  assert (H : exists e st',
             WithdrawalService.CreateWithdrawal
               Fixtures.withdrawalService Fixtures.requestAtMax "uuid-2" 1000
               Fixtures.limitState = (Err e, st')).
  { do 2 eexists. vm_compute. reflexivity. }
  destruct H as (e & st' & H). exists e, st'. split; [exact H|].
  destruct (CreateWithdrawal_failure_changes_nothing _ _ _ _ _ _ _ H)
    as (Hw & _ & _ & _ & Hb).
  split; [exact Hw|]. apply Hb.
  - intros b b' [<-|[]] [<-|[]] _ _. reflexivity.
  - intros b [<-|[]] _. cbn. lia.
Defined.

(** X5. A successful CreateWithdrawal has asked the risk engine about the
    user, chain, target, currency and amount of the request, kept the risk
    tables the check left, and set the status from the result: ManualReview
    when the result asks for manual review, else RiskReview when its risk
    level is positive, else Approved; never Pending.  The two review flags
    and the stored risk level agree with the result.  The new row is
    appended under an identifier above every earlier one, with the amount,
    owner, chain, currency and target of the request and no transaction
    hash; the balance row the check read covered the amount and afterwards
    has lost it from available and gained it in frozen. *)
Theorem CreateWithdrawal_success_shape :
  forall s req uuid now st w st',
    WithdrawalService.CreateWithdrawal s req uuid now st = (Ok w, st') ->
    (exists rr,
        RiskService.CheckWithdrawalRisk
          (RiskModel.mkWithdrawalRiskRequest
             (reqUserID req) (reqChain req) (reqToAddress req)
             (reqCurrency req) (reqAmount req))
          now (WithdrawalService.risk st)
        = (Ok rr, WithdrawalService.risk st')
        /\ Status w
           = (if RiskModel.NeedManualReview rr then WithdrawalStatusManualReview
              else if 0 <? RiskModel.RiskLevel rr then WithdrawalStatusRiskReview
              else WithdrawalStatusApproved)
        /\ ManualReview w = RiskModel.NeedManualReview rr
        /\ RiskReview w = (negb (RiskModel.NeedManualReview rr)
                           && (0 <? RiskModel.RiskLevel rr))
        /\ WithdrawalModel.RiskLevel w = RiskModel.RiskLevel rr)
    /\ Status w <> WithdrawalStatusPending
    /\ WithdrawalService.withdrawals st'
       = (WithdrawalService.withdrawals st ++ [w])%list
    /\ (forall x, In x (WithdrawalService.withdrawals st) -> ID x < ID w)
    /\ reqAmount req = SNum (Amount w)
    /\ UserID w = reqUserID req /\ Chain w = reqChain req
    /\ Currency w = reqCurrency req /\ ToAddress w = reqToAddress req
    /\ TxHash w = ""
    /\ exists balance,
        WalletRepo.GetBalance (UserID w) (Chain w) (Currency w)
                              (WithdrawalService.balances st) = Ok (Some balance)
        /\ Amount w <= WalletModel.Available balance
        /\ WalletRepo.GetBalance (UserID w) (Chain w) (Currency w)
                                 (WithdrawalService.balances st')
           = Ok (Some (WalletModel.set_Frozen
                         (WalletModel.Frozen balance + Amount w)
                         (WalletModel.set_Available
                            (WalletModel.Available balance - Amount w) balance))).
Proof.
  intros s req uuid now st w st' H.
  destruct (CreateWithdrawal_success _ _ _ _ _ _ _ H)
    as (amount & balance & rr & r1 & Hamount & Hbal & Hcover & Hrisk & Hst & Hm
        & Hr & Hlevel & Hr1 & Ha & Hu & Hc & Hcur & Hto & _ & Htx & _ & Hid
        & Hws & Hbs & _ & _).
  split.
  { exists rr. rewrite Hr1. repeat split; assumption. }
  split.
  { rewrite Hst. destruct (RiskModel.NeedManualReview rr); [discriminate|].
    destruct (0 <? RiskModel.RiskLevel rr); discriminate. }
  split; [exact Hws|].
  split.
  { intros x Hx. rewrite Hid. apply next_id_above. now apply in_map. }
  rewrite Ha, Hu, Hc, Hcur. repeat (split; [first [assumption|reflexivity]|]).
  exists balance. split; [exact Hbal|]. split; [exact Hcover|].
  rewrite Hbs. now apply GetBalance_after_FreezeBalance.
Qed.

Lemma CreateWithdrawal_success_shape_witness :
  exists w st',
    WithdrawalService.CreateWithdrawal
      Fixtures.withdrawalService Fixtures.requestAtMax "uuid-1" 1000
      Examples.reviewState = (Ok w, st')
    /\ Status w = WithdrawalStatusManualReview
    /\ WithdrawalModel.RiskLevel w = 2
    /\ WithdrawalService.withdrawals st' = [w]
    /\ WalletRepo.GetBalance 7 "ethereum" "ETH" (WithdrawalService.balances st')
       = Ok (Some (Fixtures.ethBalance 900 100)).
Proof.
  assert (H : exists w st',
             WithdrawalService.CreateWithdrawal
               Fixtures.withdrawalService Fixtures.requestAtMax "uuid-1" 1000
               Examples.reviewState = (Ok w, st')
             /\ UserID w = 7 /\ Chain w = "ethereum" /\ Currency w = "ETH"
             /\ Amount w = 100).
  { do 2 eexists. split; [vm_compute; reflexivity|]. repeat split. }
  destruct H as (w & st' & H & Hu & Hc & Hcur & Ha).
  exists w, st'. split; [exact H|].
  destruct (CreateWithdrawal_success_shape _ _ _ _ _ _ _ H)
    as ((rr & Hrisk & Hst & _ & _ & Hlevel) & _ & Hws & _ & _ & _ & _ & _ & _ & _
        & b & Hb & _ & Hb').
  assert (Hrr : RiskModel.NeedManualReview rr = true /\ RiskModel.RiskLevel rr = 2).
  { vm_compute in Hrisk. injection Hrisk as <- _. split; reflexivity. }
  destruct Hrr as [Hmanual Hl2].
  rewrite Hmanual in Hst. rewrite Hl2 in Hlevel.
  split; [exact Hst|]. split; [exact Hlevel|]. split; [exact Hws|].
  rewrite Hu, Hc, Hcur in Hb. rewrite Hu, Hc, Hcur, Ha in Hb'.
  injection Hb as <-. exact Hb'.
Defined.

(** X6. CreateWithdrawal has no check that the amount is positive: with no
    limit row for the user or the chain and a fresh uuid, a request for a
    negative amount on a non-negative balance is accepted, and the freeze
    raises available by the absolute amount while frozen drops by it. *)
Theorem CreateWithdrawal_accepts_negative_amount :
  forall s req uuid now st amount balance,
    reqAmount req = SNum amount ->
    amount < 0 ->
    WalletRepo.GetBalance (reqUserID req) (reqChain req) (reqCurrency req)
                          (WithdrawalService.balances st) = Ok (Some balance) ->
    0 <= WalletModel.Available balance ->
    Spec.applicable_limit (reqUserID req) (reqChain req) (reqCurrency req)
                          (WithdrawalService.limits st) = None ->
    existsb (fun x => String.eqb (UUID x) uuid) (WithdrawalService.withdrawals st)
    = false ->
    exists w st' balance',
      WithdrawalService.CreateWithdrawal s req uuid now st = (Ok w, st')
      /\ Amount w = amount
      /\ WalletRepo.GetBalance (reqUserID req) (reqChain req) (reqCurrency req)
                               (WithdrawalService.balances st') = Ok (Some balance')
      /\ WalletModel.Available balance' = WalletModel.Available balance - amount
      /\ WalletModel.Available balance < WalletModel.Available balance'
      /\ WalletModel.Frozen balance' = WalletModel.Frozen balance + amount.
Proof.
  intros s req uuid now st amount balance Hamount Hneg Hbal Hnn Hlim Hfresh.
  assert (Hnone : WithdrawalService.checkLimits
                    (reqUserID req) (reqChain req) (reqCurrency req) amount now st
                  = None).
  { revert Hlim. unfold Spec.applicable_limit, WithdrawalService.checkLimits,
      WithdrawalRepo.GetLimit, WithdrawalRepo.GetGlobalLimit, Spec.limit_of.
    destruct (find _ _); [discriminate|]. now intros ->. }
  assert (Hcover : amount <= WalletModel.Available balance) by lia.
  destruct (CreateWithdrawal_past_limits s req uuid now st amount balance
              Hamount Hbal Hcover Hnone Hfresh) as (w & st' & Hw & Ha & _ & Hbs).
  exists w, st'. eexists. split; [exact Hw|]. split; [exact Ha|].
  split.
  { rewrite Hbs.
    exact (GetBalance_after_FreezeBalance _ _ _ _ _ balance Hbal Hcover). }
  cbn. unfold Decimal in *. repeat split; lia.
Qed.

Lemma CreateWithdrawal_accepts_negative_amount_witness :
  exists w st' balance',
    WithdrawalService.CreateWithdrawal
      Fixtures.withdrawalService
      (mkCreateWithdrawalRequest 7 1 "ethereum" "0xB" "ETH" (SNum (-100)) "" "")
      "uuid-1" 1000
      (WithdrawalService.mkState [Fixtures.ethBalance 1000 0] [] []
                                 Fixtures.noRisk Fixtures.noKeys)
    = (Ok w, st')
    /\ Amount w = -100
    /\ WalletRepo.GetBalance 7 "ethereum" "ETH" (WithdrawalService.balances st')
       = Ok (Some balance')
    /\ WalletModel.Available balance' = 1000 - -100.
Proof.
  destruct (CreateWithdrawal_accepts_negative_amount
              Fixtures.withdrawalService
              (mkCreateWithdrawalRequest 7 1 "ethereum" "0xB" "ETH" (SNum (-100)) "" "")
              "uuid-1" 1000
              (WithdrawalService.mkState [Fixtures.ethBalance 1000 0] [] []
                                         Fixtures.noRisk Fixtures.noKeys)
              (-100) (Fixtures.ethBalance 1000 0)
              eq_refl ltac:(lia) eq_refl ltac:(cbn; lia) eq_refl eq_refl)
    as (w & st' & b' & H1 & H2 & H3 & H4 & _).
  exists w, st', b'. repeat split; assumption.
Defined.

End Intake.

(** ** Review, rejection and cancellation of withdrawals *)

(** The row a read returns, after an unfreeze. *)
Lemma GetBalance_after_UnfreezeBalance userID chain currency amount t b :
  WalletRepo.GetBalance userID chain currency t = Ok (Some b) ->
  WalletRepo.GetBalance userID chain currency
    (snd (WalletRepo.UnfreezeBalance userID chain currency amount t))
  = Ok (Some (if amount <=? WalletModel.Frozen b
              then WalletModel.set_Available
                     (WalletModel.Available b + amount)
                     (WalletModel.set_Frozen (WalletModel.Frozen b - amount) b)
              else WalletModel.set_Available (WalletModel.Available b + amount) b)).
Proof.
  unfold WalletRepo.GetBalance, WalletRepo.UnfreezeBalance, WalletRepo.update_where.
  intros [= Hb]. cbn [snd]. f_equal.
  rewrite find_map_preserving.
  2:{ intros x. destruct (WalletRepo.is_row userID chain currency x) eqn:E;
        [rewrite is_row_set_Available|]; exact E. }
  rewrite find_map_preserving.
  2:{ intros x. destruct (_ && _); [apply is_row_set_Frozen|reflexivity]. }
  rewrite Hb. cbn [option_map].
  destruct (find_some _ _ Hb) as [_ Hrow].
  rewrite Hrow. cbn [andb].
  destruct (amount <=? WalletModel.Frozen b).
  - rewrite is_row_set_Frozen, Hrow. reflexivity.
  - rewrite Hrow. reflexivity.
Qed.

Section Review.
Import WithdrawalModel Views.

Lemma save_effect w' st :
  let st' := snd (WithdrawalService.save w' st) in
  fst (WithdrawalService.save w' st) = None
  /\ WithdrawalService.balances st' = WithdrawalService.balances st
  /\ WithdrawalService.limits st' = WithdrawalService.limits st
  /\ WithdrawalService.risk st' = WithdrawalService.risk st
  /\ WithdrawalService.keystore st' = WithdrawalService.keystore st
  /\ saved_as (ID w') (WithdrawalService.withdrawals st)
              (WithdrawalService.withdrawals st')
  /\ forall w, WithdrawalReview.GetByID (ID w') (WithdrawalService.withdrawals st)
               = Ok (Some w) ->
               WithdrawalReview.GetByID (ID w') (WithdrawalService.withdrawals st')
               = Ok (Some w').
Proof.
  unfold WithdrawalService.save, WithdrawalRepo.Update. cbn.
  repeat split.
  - apply Forall2_map_self. intros x. destruct (Z.eqb_spec (ID x) (ID w')) as [E|E].
    + split; [now symmetry|]. intros H. now elim H.
    + split; reflexivity.
  - intros w. unfold WithdrawalReview.GetByID. intros [= H]. f_equal.
    exact (find_after_update (fun x => ID x =? ID w') (fun _ => w') _ w
             (fun _ _ => Z.eqb_refl _) H).
Qed.

Lemma saved_as_refl id t : saved_as id t t.
Proof. induction t; constructor; auto. Qed.

Lemma GetByID_ID id t w :
  WithdrawalReview.GetByID id t = Ok (Some w) -> ID w = id /\ In w t.
Proof.
  unfold WithdrawalReview.GetByID. intros [= H].
  destruct (find_some _ _ H) as [Hin E]. split; [now apply Z.eqb_eq|exact Hin].
Qed.

(** X7. ApproveWithdrawal moves a withdrawal to Approved exactly when it is on
    record in RiskReview or ManualReview (database failures, which the tables
    here do not have, aside). It fails with withdrawal not found for an
    unknown identifier and with not pending review for every other status, and
    a failed call leaves the state as it was. On success the row of the
    identifier reads back with status Approved and the other columns of the
    record here as before (the reviewer, the note and the review time are left
    out of the record). In every case the other rows, the ledger, the limits
    and the key store are untouched, and no row is added, removed or
    renumbered. *)
Theorem ApproveWithdrawal_only_from_review :
  forall withdrawalID reviewerID note st,
    let e := fst (WithdrawalReview.ApproveWithdrawal withdrawalID reviewerID note st) in
    let st' := snd (WithdrawalReview.ApproveWithdrawal withdrawalID reviewerID note st) in
    WithdrawalService.balances st' = WithdrawalService.balances st
    /\ WithdrawalService.limits st' = WithdrawalService.limits st
    /\ WithdrawalService.keystore st' = WithdrawalService.keystore st
    /\ saved_as withdrawalID (WithdrawalService.withdrawals st)
                (WithdrawalService.withdrawals st')
    /\ (e <> None -> st' = st)
    /\ (WithdrawalReview.GetByID withdrawalID (WithdrawalService.withdrawals st)
        = Ok None -> e = Some ErrWithdrawalNotFound)
    /\ forall w,
        WithdrawalReview.GetByID withdrawalID (WithdrawalService.withdrawals st)
        = Ok (Some w) ->
        if in_review (Status w)
        then e = None
             /\ WithdrawalReview.GetByID withdrawalID (WithdrawalService.withdrawals st')
                = Ok (Some (set_Status WithdrawalStatusApproved w))
        else e = Some WithdrawalReview.ErrNotPendingReview.
Proof.
  intros withdrawalID reviewerID note st.
  unfold WithdrawalReview.ApproveWithdrawal.
  destruct (WithdrawalReview.GetByID withdrawalID (WithdrawalService.withdrawals st))
    as [[w|]|err] eqn:Hget.
  - rewrite <- negb_orb. fold (in_review (Status w)).
    destruct (GetByID_ID _ _ _ Hget) as [Hid _].
    destruct (in_review (Status w)) eqn:Hrev; cbn [negb].
    + destruct (save_effect (set_Status WithdrawalStatusApproved w) st)
        as (He & Hb & Hl & _ & Hk & Hs & Hr).
      cbn [ID set_Status set_review] in Hs, Hr. rewrite Hid in Hs, Hr.
      cbv zeta. rewrite He. repeat split; try assumption.
      * intros H. now elim H.
      * discriminate.
      * intros w0 [= <-]. rewrite Hrev. split; [reflexivity|]. exact (Hr w Hget).
    + cbn [fst snd]. repeat split; try apply saved_as_refl; try discriminate.
      intros w0 [= <-]. now rewrite Hrev.
  - cbn [fst snd]. repeat split; try apply saved_as_refl; discriminate.
  - cbn [fst snd]. repeat split; try apply saved_as_refl; discriminate.
Qed.

(** The outcome of CancelWithdrawal for a withdrawal on record. *)
Lemma CancelWithdrawal_cases withdrawalID userID st w :
  WithdrawalReview.GetByID withdrawalID (WithdrawalService.withdrawals st)
  = Ok (Some w) ->
  let e := fst (WithdrawalReview.CancelWithdrawal withdrawalID userID st) in
  let st' := snd (WithdrawalReview.CancelWithdrawal withdrawalID userID st) in
  (if negb (UserID w =? userID) then e = Some WithdrawalReview.ErrNotOwner
   else if cancellable (Status w)
   then e = None
        /\ WithdrawalReview.GetByID withdrawalID (WithdrawalService.withdrawals st')
           = Ok (Some (set_Status WithdrawalStatusCancelled w))
        /\ WithdrawalService.balances st'
           = snd (WalletRepo.UnfreezeBalance (UserID w) (Chain w) (Currency w)
                    (Amount w) (WithdrawalService.balances st))
   else e = Some WithdrawalReview.ErrCannotCancel)
  /\ (e <> None -> st' = st).
Proof.
  intros Hget. unfold WithdrawalReview.CancelWithdrawal. rewrite Hget.
  destruct (GetByID_ID _ _ _ Hget) as [Hid _].
  destruct (negb (UserID w =? userID)) eqn:Hown.
  { cbn [fst snd]. split; [reflexivity|]. reflexivity. }
  rewrite <- !negb_orb. fold (in_review (Status w)).
  rewrite <- orb_assoc. fold (in_review (Status w)). fold (cancellable (Status w)).
  destruct (cancellable (Status w)) eqn:Hcan; cbn [negb].
  - destruct (save_effect (set_Status WithdrawalStatusCancelled w) st)
      as (He & Hb & _ & _ & _ & _ & Hr).
    cbn [ID set_Status set_review] in Hr. rewrite Hid in Hr.
    cbv zeta.
    destruct (WithdrawalService.save (set_Status WithdrawalStatusCancelled w) st)
      as [e1 st1] eqn:Hsave.
    cbn [fst snd] in He, Hb, Hr. subst e1.
    cbn [fst snd WithdrawalService.set_balances WithdrawalService.withdrawals
         WithdrawalService.balances UserID Chain Currency Amount
         set_Status set_review].
    split; [|intros H; now elim H].
    split; [reflexivity|]. split; [exact (Hr w Hget)|]. now rewrite Hb.
  - cbn [fst snd]. split; reflexivity.
Qed.

(** X8. CancelWithdrawal is open to the owner and only before approval: it
    fails with withdrawal not found for an unknown identifier, with does not
    belong to user when the withdrawal is another user's (checked first), and
    with cannot be cancelled for every status but Pending, RiskReview and
    ManualReview; a failed call leaves the state as it was. Otherwise
    (database failures aside) it returns no error, the row reads back
    Cancelled, and the ledger is the one UnfreezeBalance gives for the
    withdrawal's user, chain, currency and amount. In every case the other
    rows, the limits and the key store are untouched, and no row is added,
    removed or renumbered. *)
Theorem CancelWithdrawal_owner_before_approval :
  forall withdrawalID userID st,
    let e := fst (WithdrawalReview.CancelWithdrawal withdrawalID userID st) in
    let st' := snd (WithdrawalReview.CancelWithdrawal withdrawalID userID st) in
    WithdrawalService.limits st' = WithdrawalService.limits st
    /\ WithdrawalService.keystore st' = WithdrawalService.keystore st
    /\ saved_as withdrawalID (WithdrawalService.withdrawals st)
                (WithdrawalService.withdrawals st')
    /\ (e <> None -> st' = st)
    /\ (WithdrawalReview.GetByID withdrawalID (WithdrawalService.withdrawals st)
        = Ok None -> e = Some ErrWithdrawalNotFound)
    /\ forall w,
        WithdrawalReview.GetByID withdrawalID (WithdrawalService.withdrawals st)
        = Ok (Some w) ->
        if negb (UserID w =? userID) then e = Some WithdrawalReview.ErrNotOwner
        else if cancellable (Status w)
        then e = None
             /\ WithdrawalReview.GetByID withdrawalID (WithdrawalService.withdrawals st')
                = Ok (Some (set_Status WithdrawalStatusCancelled w))
             /\ WithdrawalService.balances st'
                = snd (WalletRepo.UnfreezeBalance (UserID w) (Chain w) (Currency w)
                         (Amount w) (WithdrawalService.balances st))
        else e = Some WithdrawalReview.ErrCannotCancel.
Proof.
  intros withdrawalID userID st.
  unfold WithdrawalReview.CancelWithdrawal.
  destruct (WithdrawalReview.GetByID withdrawalID (WithdrawalService.withdrawals st))
    as [[w|]|err] eqn:Hget.
  - destruct (GetByID_ID _ _ _ Hget) as [Hid _].
    destruct (negb (UserID w =? userID)) eqn:Hown.
    { cbn [fst snd]. repeat split; try apply saved_as_refl; try discriminate.
      intros w0 [= <-]. now rewrite Hown. }
    rewrite <- !negb_orb. fold (in_review (Status w)).
    rewrite <- orb_assoc. fold (in_review (Status w)). fold (cancellable (Status w)).
    destruct (cancellable (Status w)) eqn:Hcan; cbn [negb].
    + destruct (save_effect (set_Status WithdrawalStatusCancelled w) st)
        as (He & Hb & Hl & _ & Hk & Hs & Hr).
      cbn [ID set_Status set_review] in Hs, Hr. rewrite Hid in Hs, Hr.
      cbv zeta.
      destruct (WithdrawalService.save (set_Status WithdrawalStatusCancelled w) st)
        as [e1 st1] eqn:Hsave.
      cbn [fst snd] in He, Hb, Hl, Hk, Hs, Hr. subst e1.
      cbn [fst snd WithdrawalService.set_balances WithdrawalService.limits
           WithdrawalService.keystore WithdrawalService.withdrawals
           WithdrawalService.balances UserID Chain Currency Amount
           set_Status set_review].
      repeat split; try assumption.
      * intros H. now elim H.
      * discriminate.
      * intros w0 [= <-]. rewrite Hown, Hcan. split; [reflexivity|].
        split; [exact (Hr w Hget)|]. now rewrite Hb.
    + cbn [fst snd]. repeat split; try apply saved_as_refl; try discriminate.
      intros w0 [= <-]. now rewrite Hown, Hcan.
  - cbn [fst snd]. repeat split; try apply saved_as_refl; discriminate.
  - cbn [fst snd]. repeat split; try apply saved_as_refl; discriminate.
Qed.

(** One rejection: no status is asked for, the row becomes Rejected, and
    the ledger goes through UnfreezeBalance. *)
Lemma RejectWithdrawal_step withdrawalID reviewerID note st w :
  WithdrawalReview.GetByID withdrawalID (WithdrawalService.withdrawals st)
  = Ok (Some w) ->
  exists st',
    WithdrawalReview.RejectWithdrawal withdrawalID reviewerID note st = (None, st')
    /\ WithdrawalReview.GetByID withdrawalID (WithdrawalService.withdrawals st')
       = Ok (Some (set_Status WithdrawalStatusRejected w))
    /\ WithdrawalService.balances st'
       = snd (WalletRepo.UnfreezeBalance (UserID w) (Chain w) (Currency w)
                (Amount w) (WithdrawalService.balances st)).
Proof.
  intros Hget. unfold WithdrawalReview.RejectWithdrawal. rewrite Hget.
  destruct (GetByID_ID _ _ _ Hget) as [Hid _].
  destruct (save_effect (set_Status WithdrawalStatusRejected w) st)
    as (He & Hb & _ & _ & _ & _ & Hr).
  cbn [ID set_Status set_review] in Hr. rewrite Hid in Hr.
  cbv zeta.
  destruct (WithdrawalService.save (set_Status WithdrawalStatusRejected w) st)
    as [e1 st1] eqn:Hsave.
  cbn [fst snd] in He, Hb, Hr. subst e1.
  cbn [UserID Chain Currency Amount set_Status set_review].
  eexists. split; [reflexivity|].
  cbn [WithdrawalService.set_balances WithdrawalService.withdrawals
       WithdrawalService.balances].
  split; [exact (Hr w Hget)|]. now rewrite Hb.
Qed.

(** X9. RejectWithdrawal asks for no status: for a withdrawal on record,
    whatever its status (Completed, Rejected or Cancelled included), the call
    returns no error (database failures aside), the row reads back Rejected,
    and the ledger is the one UnfreezeBalance gives for the withdrawal's user,
    chain, currency and amount. A second rejection of the same withdrawal goes
    through as well and applies UnfreezeBalance once more. So if the triple
    has a balance row, the row the read returns gains the amount in available
    with each rejection (frozen drops by the amount only if it covers it):
    after two rejections available is up by twice the amount. *)
Theorem RejectWithdrawal_has_no_status_guard :
  forall withdrawalID reviewerID note st w,
    WithdrawalReview.GetByID withdrawalID (WithdrawalService.withdrawals st)
    = Ok (Some w) ->
    exists st' st'',
      WithdrawalReview.RejectWithdrawal withdrawalID reviewerID note st = (None, st')
      /\ WithdrawalReview.GetByID withdrawalID (WithdrawalService.withdrawals st')
         = Ok (Some (set_Status WithdrawalStatusRejected w))
      /\ WithdrawalService.balances st'
         = snd (WalletRepo.UnfreezeBalance (UserID w) (Chain w) (Currency w)
                  (Amount w) (WithdrawalService.balances st))
      /\ WithdrawalReview.RejectWithdrawal withdrawalID reviewerID note st'
         = (None, st'')
      /\ WithdrawalService.balances st''
         = snd (WalletRepo.UnfreezeBalance (UserID w) (Chain w) (Currency w)
                  (Amount w) (WithdrawalService.balances st'))
      /\ forall b,
          WalletRepo.GetBalance (UserID w) (Chain w) (Currency w)
                                (WithdrawalService.balances st) = Ok (Some b) ->
          exists b' b'',
            WalletRepo.GetBalance (UserID w) (Chain w) (Currency w)
                                  (WithdrawalService.balances st') = Ok (Some b')
            /\ WalletModel.Available b' = WalletModel.Available b + Amount w
            /\ WalletModel.Frozen b'
               = (if Amount w <=? WalletModel.Frozen b
                  then WalletModel.Frozen b - Amount w else WalletModel.Frozen b)
            /\ WalletRepo.GetBalance (UserID w) (Chain w) (Currency w)
                                     (WithdrawalService.balances st'')
               = Ok (Some b'')
            /\ WalletModel.Available b''
               = WalletModel.Available b + 2 * Amount w.
Proof.
  intros withdrawalID reviewerID note st w Hget.
  destruct (RejectWithdrawal_step withdrawalID reviewerID note st w Hget)
    as (st' & H1 & H2 & H3).
  destruct (RejectWithdrawal_step withdrawalID reviewerID note st'
              (set_Status WithdrawalStatusRejected w) H2)
    as (st'' & K1 & _ & K3).
  cbn [UserID Chain Currency Amount set_Status set_review] in K3.
  exists st', st''. do 5 (split; [assumption|]).
  intros b Hb.
  assert (Hb' := GetBalance_after_UnfreezeBalance _ _ _ (Amount w) _ _ Hb).
  rewrite <- H3 in Hb'.
  assert (Hb'' := GetBalance_after_UnfreezeBalance _ _ _ (Amount w) _ _ Hb').
  rewrite <- K3 in Hb''.
  do 2 eexists. split; [exact Hb'|].
  split; [destruct (Amount w <=? WalletModel.Frozen b); reflexivity|].
  split; [destruct (Amount w <=? WalletModel.Frozen b); reflexivity|].
  split; [exact Hb''|].
  assert (HA : forall (c : bool) v f x,
             WalletModel.Available
               (if c then WalletModel.set_Available v (WalletModel.set_Frozen f x)
                else WalletModel.set_Available v x) = v).
  { intros [] v f x; reflexivity. }
  rewrite !HA. unfold Decimal in *. lia.
Qed.

Lemma RejectWithdrawal_has_no_status_guard_witness :
  exists st' st'',
    WithdrawalReview.RejectWithdrawal
      1 9 "late" (WithdrawalService.mkState
                    [Fixtures.ethBalance 500 0]
                    [Fixtures.withdrawal1000 WithdrawalStatusCompleted "0xT"]
                    [] Fixtures.noRisk Fixtures.noKeys)
    = (None, st')
    /\ WithdrawalService.balances st' = [Fixtures.ethBalance 1500 0]
    /\ WithdrawalReview.RejectWithdrawal 1 9 "late" st' = (None, st'')
    /\ WithdrawalService.balances st'' = [Fixtures.ethBalance 2500 0].
Proof.
  destruct (RejectWithdrawal_has_no_status_guard
              1 9 "late"
              (WithdrawalService.mkState
                 [Fixtures.ethBalance 500 0]
                 [Fixtures.withdrawal1000 WithdrawalStatusCompleted "0xT"]
                 [] Fixtures.noRisk Fixtures.noKeys)
              (Fixtures.withdrawal1000 WithdrawalStatusCompleted "0xT")
              eq_refl)
    as (st' & st'' & H1 & _ & H3 & H4 & H5 & _).
  exists st', st''.
  split; [exact H1|]. split; [rewrite H3; reflexivity|].
  split; [exact H4|]. rewrite H5, H3. reflexivity.
Defined.

(** X10. Intake followed by cancellation. After a successful CreateWithdrawal,
    CancelWithdrawal by the requesting user finds the new row under its
    identifier. If the withdrawal was created Approved (the risk check raised
    nothing), the cancellation is refused with cannot be cancelled and changes
    nothing: such a withdrawal can no longer be cancelled by its owner.
    Otherwise (database failures aside) it returns no error, the row reads
    back Cancelled, and the ledger is the one UnfreezeBalance gives after the
    FreezeBalance of the intake: exactly the ledger before the intake when the
    triple has a single balance row with a non-negative frozen part. *)
Theorem CreateWithdrawal_then_CancelWithdrawal :
  forall s req uuid now st w st1,
    WithdrawalService.CreateWithdrawal s req uuid now st = (Ok w, st1) ->
    let r := WithdrawalReview.CancelWithdrawal (ID w) (reqUserID req) st1 in
    WithdrawalReview.GetByID (ID w) (WithdrawalService.withdrawals st1) = Ok (Some w)
    /\ if status_eqb (Status w) WithdrawalStatusApproved
       then r = (Some WithdrawalReview.ErrCannotCancel, st1)
       else fst r = None
            /\ WithdrawalReview.GetByID (ID w) (WithdrawalService.withdrawals (snd r))
               = Ok (Some (set_Status WithdrawalStatusCancelled w))
            /\ WithdrawalService.balances (snd r)
               = snd (WalletRepo.UnfreezeBalance
                        (reqUserID req) (reqChain req) (reqCurrency req) (Amount w)
                        (snd (WalletRepo.FreezeBalance
                                (reqUserID req) (reqChain req) (reqCurrency req)
                                (Amount w) (WithdrawalService.balances st))))
            /\ ((forall b b',
                    In b (WithdrawalService.balances st) ->
                    In b' (WithdrawalService.balances st) ->
                    WalletRepo.is_row (reqUserID req) (reqChain req)
                                      (reqCurrency req) b = true ->
                    WalletRepo.is_row (reqUserID req) (reqChain req)
                                      (reqCurrency req) b' = true ->
                    b = b') ->
                (forall b,
                    In b (WithdrawalService.balances st) ->
                    WalletRepo.is_row (reqUserID req) (reqChain req)
                                      (reqCurrency req) b = true ->
                    0 <= WalletModel.Frozen b) ->
                WithdrawalService.balances (snd r) = WithdrawalService.balances st).
Proof.
  intros s req uuid now st w st1 Hc r.
  destruct (CreateWithdrawal_success _ _ _ _ _ _ _ Hc)
    as (amount & balance & rr & r1 & Hamount & Hbal & Hcover & _ & Hst & _ & _
        & _ & _ & Ha & Hu & Hch & Hcur & _ & _ & _ & _ & Hid & Hws & Hbs & _ & _).
  assert (Hget : WithdrawalReview.GetByID (ID w) (WithdrawalService.withdrawals st1)
                 = Ok (Some w)).
  { unfold WithdrawalReview.GetByID. rewrite Hws. f_equal.
    apply find_app_fresh; [|apply Z.eqb_refl].
    intros x Hx. apply Z.eqb_neq.
    assert (ID x < ID w); [|lia].
    rewrite Hid. apply next_id_above. now apply in_map. }
  split; [exact Hget|].
  destruct (CancelWithdrawal_cases (ID w) (reqUserID req) st1 w Hget) as [Hcase Hno].
  fold r in Hcase, Hno.
  rewrite Hu, Z.eqb_refl in Hcase. cbn [negb] in Hcase.
  assert (Hcan : cancellable (Status w)
                 = negb (status_eqb (Status w) WithdrawalStatusApproved)).
  { rewrite Hst. destruct (RiskModel.NeedManualReview rr); [reflexivity|].
    destruct (0 <? RiskModel.RiskLevel rr); reflexivity. }
  rewrite Hcan in Hcase.
  destruct (status_eqb (Status w) WithdrawalStatusApproved); cbn [negb] in Hcase.
  - destruct r as [e st2]. cbn [fst snd] in *. subst e.
    f_equal. apply Hno. discriminate.
  - destruct Hcase as (He & Hrow & Hb). do 2 (split; [assumption|]).
    assert (Hledger : WithdrawalService.balances (snd r)
                      = snd (WalletRepo.UnfreezeBalance
                               (reqUserID req) (reqChain req) (reqCurrency req)
                               (Amount w)
                               (snd (WalletRepo.FreezeBalance
                                       (reqUserID req) (reqChain req)
                                       (reqCurrency req) (Amount w)
                                       (WithdrawalService.balances st))))).
    { rewrite Hb, Hbs, ?Hu, ?Hch, ?Hcur, ?Ha. reflexivity. }
    split; [exact Hledger|].
    intros Hone Hfrozen. rewrite Hledger, Ha.
    apply UnfreezeBalance_undoes_FreezeBalance.
    intros b Hb' Hrow'. unfold WalletRepo.GetBalance in Hbal.
    injection Hbal as Hbal. destruct (find_some _ _ Hbal) as [Hin Hrow''].
    rewrite (Hone b balance Hb' Hin Hrow' Hrow'').
    split; [exact Hcover|]. apply Hfrozen; assumption.
Qed.

Lemma CreateWithdrawal_then_CancelWithdrawal_witness :
  exists w st1,
    WithdrawalService.CreateWithdrawal
      Fixtures.withdrawalService Fixtures.requestAtMax "uuid-1" 1000
      Examples.reviewState = (Ok w, st1)
    /\ Status w = WithdrawalStatusManualReview
    /\ WithdrawalService.balances st1 = [Fixtures.ethBalance 900 100]
    /\ WithdrawalService.balances
         (snd (WithdrawalReview.CancelWithdrawal (ID w) 7 st1))
       = [Fixtures.ethBalance 1000 0].
Proof.
  assert (H : exists w st1,
             WithdrawalService.CreateWithdrawal
               Fixtures.withdrawalService Fixtures.requestAtMax "uuid-1" 1000
               Examples.reviewState = (Ok w, st1)
             /\ Status w = WithdrawalStatusManualReview
             /\ WithdrawalService.balances st1 = [Fixtures.ethBalance 900 100]).
  { do 2 eexists. split; [vm_compute; reflexivity|]. split; reflexivity. }
  destruct H as (w & st1 & H & Hs & Hb). exists w, st1.
  split; [exact H|]. split; [exact Hs|]. split; [exact Hb|].
  destruct (CreateWithdrawal_then_CancelWithdrawal _ _ _ _ _ _ _ H) as [_ Hc].
  rewrite Hs in Hc. cbn [status_eqb status_code Z.eqb Pos.eqb] in Hc.
  destruct Hc as (_ & _ & _ & Hc). apply Hc.
  - intros b b' [<-|[]] [<-|[]] _ _. reflexivity.
  - intros b [<-|[]] _. cbn. lia.
Defined.

End Review.

(** ** The withdrawal processor and the confirmation pass *)

Section Processor.
Import WithdrawalModel Views.

Lemma saved_as_trans id a b c : saved_as id a b -> saved_as id b c -> saved_as id a c.
Proof.
  apply Forall2_compose. intros x y z [H1 H2] [K1 K2]. split; [congruence|].
  intros H. rewrite K2, H2; congruence.
Qed.

Lemma Forall2_weaken {A} (R S : A -> A -> Prop) (l l' : list A) :
  (forall x y, In x l -> R x y -> S x y) -> Forall2 R l l' -> Forall2 S l l'.
Proof.
  intros H HR. induction HR as [|x y l l' Hxy HR IH]; constructor.
  - apply H; [now left|exact Hxy].
  - apply IH. intros a b Ha. apply H. now right.
Qed.

Lemma Forall2_map_self_id {A} (R : A -> A -> Prop) (l : list A) :
  (forall x, R x x) -> Forall2 R l l.
Proof. intros H. induction l; constructor; auto. Qed.

Lemma touched_only_nil t : touched_only [] t t.
Proof. induction t; constructor; auto. Qed.

Lemma touched_only_step id ids a b c :
  saved_as id a b -> touched_only ids b c -> touched_only (id :: ids) a c.
Proof.
  intros Hab. revert c. induction Hab as [|x y a b [H1 H2] Hab IH]; intros c Hbc;
    inversion Hbc as [|y' z b' c' [K1 K2] Hbc']; subst; constructor.
  - split; [congruence|]. intros H.
    assert (E : y = x). { apply H2. intros E. apply H. left. now symmetry. }
    subst y. apply K2. intros Hin. apply H. now right.
  - now apply IH.
Qed.

Lemma In_firstn {A} (x : A) n l : In x (firstn n l) -> In x l.
Proof.
  revert l. induction n as [|n IH]; intros [|a l]; cbn; try tauto.
  intros [->|H]; [now left|right; now apply IH].
Qed.

Lemma In_insert_by_created x w l :
  In x (WithdrawalRepo.insert_by_created w l) -> x = w \/ In x l.
Proof.
  induction l as [|a l IH]; cbn.
  - intros [<-|[]]. now left.
  - destruct (_ <=? _); cbn.
    + intros [<-|H]; auto.
    + intros [<-|H]; [right; now left|]. destruct (IH H); auto.
Qed.

Lemma In_oldest_first x n l : In x (WithdrawalRepo.oldest_first n l) -> In x l.
Proof.
  unfold WithdrawalRepo.oldest_first. intros H. apply In_firstn in H.
  induction l as [|a l IH]; cbn in H; [exact H|].
  destruct (In_insert_by_created _ _ _ H) as [->|H']; [now left|right; auto].
Qed.

(** Two rows of a table with the same identifier are one row when the
    identifiers are distinct. *)
Lemma NoDup_ID_eq (t : WithdrawalRepo.table) x y :
  NoDup (map ID t) -> In x t -> In y t -> ID x = ID y -> x = y.
Proof.
  induction t as [|a t IH]; cbn; [tauto|].
  intros Hnd. inversion Hnd as [|? ? Hnotin Hnd']; subst.
  intros [->|Hx] [->|Hy] E; try reflexivity.
  - elim Hnotin. rewrite E. now apply in_map.
  - elim Hnotin. rewrite <- E. now apply in_map.
  - now apply IH.
Qed.

(** What processWithdrawal leaves alone. *)
Lemma processWithdrawal_frame s w st :
  let st' := snd (WithdrawalService.processWithdrawal s w st) in
  WithdrawalService.balances st' = WithdrawalService.balances st
  /\ WithdrawalService.limits st' = WithdrawalService.limits st
  /\ WithdrawalService.risk st' = WithdrawalService.risk st
  /\ saved_as (ID w) (WithdrawalService.withdrawals st)
              (WithdrawalService.withdrawals st').
Proof.
  unfold WithdrawalService.processWithdrawal. cbv zeta.
  destruct (WithdrawalService.blockchains s _) as [chain|];
    [|cbn; repeat split; apply saved_as_refl].
  destruct (save_effect (set_Status WithdrawalStatusProcessing w) st)
    as (He & Hb & Hl & Hr & _ & Hs & _).
  destruct (WithdrawalService.save (set_Status WithdrawalStatusProcessing w) st)
    as [e1 st1]. cbn [fst snd] in He, Hb, Hl, Hr, Hs. subst e1.
  cbn [ID set_Status set_review] in Hs.
  assert (Hfail : forall err st2,
             WithdrawalService.balances st2 = WithdrawalService.balances st1 ->
             WithdrawalService.limits st2 = WithdrawalService.limits st1 ->
             WithdrawalService.risk st2 = WithdrawalService.risk st1 ->
             WithdrawalService.withdrawals st2 = WithdrawalService.withdrawals st1 ->
             let st' := snd (WithdrawalService.fail_with
                               err (set_Status WithdrawalStatusProcessing w) st2) in
             WithdrawalService.balances st' = WithdrawalService.balances st
             /\ WithdrawalService.limits st' = WithdrawalService.limits st
             /\ WithdrawalService.risk st' = WithdrawalService.risk st
             /\ saved_as (ID w) (WithdrawalService.withdrawals st)
                         (WithdrawalService.withdrawals st')).
  { intros err st2 E1 E2 E3 E4. unfold WithdrawalService.fail_with. cbn [snd].
    match goal with
    | |- context [WithdrawalService.save ?x st2] =>
        destruct (save_effect x st2) as (_ & Kb & Kl & Kr & _ & Ks & _)
    end.
    cbn [ID set_Status set_review set_ErrorMsg] in Ks.
    cbv zeta. rewrite Kb, Kl, Kr, E1, E2, E3. repeat split; try assumption.
    eapply saved_as_trans; [exact Hs|]. now rewrite <- E4. }
  destruct (Blockchain.BuildTransaction chain _ _ _ _) as [rawTx|err];
    [|now apply Hfail].
  destruct (KeyManager.Sign _ _ _ _ _ _) as [[signature|err] k1];
    [|now apply Hfail].
  destruct (Blockchain.BroadcastTransaction chain signature) as [txHash|err];
    [|now apply Hfail].
  match goal with
  | |- context [WithdrawalService.save ?x ?y] =>
      destruct (save_effect x y) as (_ & Kb & Kl & Kr & _ & Ks & _)
  end.
  cbn [ID set_Status set_review set_broadcast] in Ks.
  cbv zeta. rewrite Kb, Kl, Kr. repeat split; try assumption.
  eapply saved_as_trans; [exact Hs|exact Ks].
Qed.


(** X12. ProcessApprovedWithdrawals never touches the ledger, the limits or
    the risk tables, whatever happens to the withdrawals it picks up, and
    reports none of their failures: with the database answering it returns no
    error. No row is added, removed or renumbered, and, when the identifiers
    are distinct, every row that was not Approved is exactly as before. *)
Theorem ProcessApprovedWithdrawals_frame :
  forall s st,
    let r := WithdrawalService.ProcessApprovedWithdrawals s st in
    fst r = None
    /\ WithdrawalService.balances (snd r) = WithdrawalService.balances st
    /\ WithdrawalService.limits (snd r) = WithdrawalService.limits st
    /\ WithdrawalService.risk (snd r) = WithdrawalService.risk st
    /\ map ID (WithdrawalService.withdrawals (snd r))
       = map ID (WithdrawalService.withdrawals st)
    /\ (NoDup (map ID (WithdrawalService.withdrawals st)) ->
        Forall2 (fun x y => Status x <> WithdrawalStatusApproved -> y = x)
                (WithdrawalService.withdrawals st)
                (WithdrawalService.withdrawals (snd r))).
Proof.
  intros s st r. subst r.
  unfold WithdrawalService.ProcessApprovedWithdrawals, WithdrawalRepo.ListByStatus.
  cbn [fst snd]. split; [reflexivity|].
  set (l := WithdrawalRepo.oldest_first _ _).
  assert (Hl : forall w, In w l ->
                         In w (WithdrawalService.withdrawals st)
                         /\ Status w = WithdrawalStatusApproved).
  { intros w Hw. apply In_oldest_first in Hw. apply filter_In in Hw.
    destruct Hw as [Hin Hs]. split; [exact Hin|].
    destruct (Status w); try discriminate. reflexivity. }
  assert (Hfold : forall l st0,
             let st' := fold_left
                          (fun st w => snd (WithdrawalService.processWithdrawal s w st))
                          l st0 in
             WithdrawalService.balances st' = WithdrawalService.balances st0
             /\ WithdrawalService.limits st' = WithdrawalService.limits st0
             /\ WithdrawalService.risk st' = WithdrawalService.risk st0
             /\ touched_only (map ID l) (WithdrawalService.withdrawals st0)
                             (WithdrawalService.withdrawals st')).
  { clear. induction l as [|w l IH]; intros st0.
    - cbn. repeat split. apply touched_only_nil.
    - cbn [fold_left map].
      destruct (processWithdrawal_frame s w st0) as (Hb & Hl & Hr & Hs).
      destruct (IH (snd (WithdrawalService.processWithdrawal s w st0)))
        as (Kb & Kl & Kr & Ks).
      cbv zeta in *. rewrite Kb, Kl, Kr. repeat split; try assumption.
      eapply touched_only_step; eassumption. }
  destruct (Hfold l st) as (Hb & Hlim & Hr & Ht).
  repeat (split; [assumption|]).
  split.
  - clear - Ht. induction Ht as [|x y a b [H _] Ht IH]; [reflexivity|].
    cbn [map]. now rewrite H, IH.
  - intros Hnd. eapply Forall2_weaken; [|exact Ht]. cbv beta.
    intros x y Hx [H1 H2] Hs. apply H2. intros Hin. apply in_map_iff in Hin.
    destruct Hin as (w & E & Hw). destruct (Hl w Hw) as [Hwin Hws].
    apply Hs. now rewrite <- (NoDup_ID_eq _ w x Hnd Hwin Hx E).
Qed.

(** What one step of the confirmation pass leaves alone. *)
Lemma check_one_frame chain requiredConfirmations now st w :
  let st' := WithdrawalService.check_one chain requiredConfirmations now st w in
  WithdrawalService.limits st' = WithdrawalService.limits st
  /\ WithdrawalService.risk st' = WithdrawalService.risk st
  /\ WithdrawalService.keystore st' = WithdrawalService.keystore st
  /\ saved_as (ID w) (WithdrawalService.withdrawals st)
              (WithdrawalService.withdrawals st')
  /\ (TxHash w = "" -> st' = st).
Proof.
  unfold WithdrawalService.check_one.
  destruct (String.eqb_spec (TxHash w) "") as [E|E].
  { cbn. repeat split. apply saved_as_refl. }
  assert (Hsame : WithdrawalService.limits st = WithdrawalService.limits st
                  /\ WithdrawalService.risk st = WithdrawalService.risk st
                  /\ WithdrawalService.keystore st = WithdrawalService.keystore st
                  /\ saved_as (ID w) (WithdrawalService.withdrawals st)
                              (WithdrawalService.withdrawals st)
                  /\ (TxHash w = "" -> st = st)).
  { repeat split. apply saved_as_refl. }
  destruct (Blockchain.GetTransaction chain (TxHash w)) as [[txInfo|]|err];
    try exact Hsame.
  cbv zeta.
  destruct (Blockchain.Status txInfo =? 2);
    [|destruct (requiredConfirmations <=? Blockchain.Confirmations txInfo)];
    match goal with
    | |- context [WithdrawalService.save ?x ?y] =>
        destruct (save_effect x y) as (_ & _ & Kl & Kr & Kk & Ks & _)
    end;
    cbn [ID set_Status set_review set_ErrorMsg set_chain_info set_CompletedAt] in Ks;
    cbn [WithdrawalService.set_balances WithdrawalService.withdrawals
         WithdrawalService.limits WithdrawalService.risk
         WithdrawalService.keystore] in *;
    rewrite Kl, Kr, Kk; repeat split; try exact Ks; intros H; now elim E.
Qed.

(** X13. The confirmation pass of the withdrawals fails with unsupported
    chain, changing nothing, when the chain has no adapter. Otherwise, with
    the database answering, it returns no error. It never touches the limits,
    the risk tables or the key store, and adds, removes or renumbers no row.
    When the identifiers are distinct it leaves exactly as they were all rows
    that are not in Broadcast or Confirming, all rows of other chains, and all
    rows without a transaction hash. *)
Theorem CheckConfirmations_touches_only_pending_rows :
  forall s chainName now st,
    let r := WithdrawalService.CheckConfirmations s chainName now st in
    (WithdrawalService.blockchains s chainName = None ->
     r = (Some ErrUnsupportedChain, st))
    /\ (WithdrawalService.blockchains s chainName <> None -> fst r = None)
    /\ WithdrawalService.limits (snd r) = WithdrawalService.limits st
    /\ WithdrawalService.risk (snd r) = WithdrawalService.risk st
    /\ WithdrawalService.keystore (snd r) = WithdrawalService.keystore st
    /\ map ID (WithdrawalService.withdrawals (snd r))
       = map ID (WithdrawalService.withdrawals st)
    /\ (NoDup (map ID (WithdrawalService.withdrawals st)) ->
        Forall2 (fun x y =>
                   Status x <> WithdrawalStatusBroadcast
                   /\ Status x <> WithdrawalStatusConfirming
                   \/ TxHash x = ""
                   \/ chainName <> "" /\ Chain x <> chainName -> y = x)
                (WithdrawalService.withdrawals st)
                (WithdrawalService.withdrawals (snd r))).
Proof.
  intros s chainName now st r. subst r.
  unfold WithdrawalService.CheckConfirmations, WithdrawalRepo.ListPendingConfirmation.
  destruct (WithdrawalService.blockchains s chainName) as [chain|].
  2:{ cbn [fst snd]. repeat split; try congruence.
      intros _. apply Forall2_map_self_id. intros x _. reflexivity. }
  cbn [fst snd]. split; [discriminate|]. split; [reflexivity|].
  set (l := WithdrawalRepo.oldest_first _ _).
  set (req := Blockchain.GetRequiredConfirmations chain).
  assert (Hl : forall w, In w l ->
                         In w (WithdrawalService.withdrawals st)
                         /\ (Status w = WithdrawalStatusBroadcast
                             \/ Status w = WithdrawalStatusConfirming)
                         /\ (chainName = "" \/ Chain w = chainName)).
  { intros w Hw. apply In_oldest_first in Hw. apply filter_In in Hw.
    destruct Hw as [Hin Hs]. split; [exact Hin|].
    apply andb_prop in Hs. destruct Hs as [Hs Hc]. split.
    - destruct (Status w); try discriminate; auto.
    - destruct (String.eqb_spec chainName ""); [now left|right].
      now apply String.eqb_eq. }
  clearbody l req.
  assert (Hfold : forall l st0,
             let st' := fold_left (WithdrawalService.check_one chain req now) l st0 in
             WithdrawalService.limits st' = WithdrawalService.limits st0
             /\ WithdrawalService.risk st' = WithdrawalService.risk st0
             /\ WithdrawalService.keystore st' = WithdrawalService.keystore st0
             /\ touched_only
                  (map ID (filter (fun w => negb (String.eqb (TxHash w) "")) l))
                  (WithdrawalService.withdrawals st0)
                  (WithdrawalService.withdrawals st')).
  { clear. induction l as [|w l IH]; intros st0.
    - cbn [fold_left filter map]. repeat split. apply touched_only_nil.
    - cbn [fold_left filter].
      destruct (check_one_frame chain req now st0 w) as (Hl & Hr & Hk & Hs & He).
      cbv zeta in Hl, Hr, Hk, Hs, He.
      specialize (IH (WithdrawalService.check_one chain req now st0 w)).
      cbv zeta in IH. destruct IH as (Kl & Kr & Kk & Ks).
      cbv zeta. rewrite Kl, Kr, Kk. repeat (split; [assumption|]).
      destruct (String.eqb_spec (TxHash w) "") as [E|E]; cbn [negb map].
      + specialize (He E). rewrite He in Ks. rewrite He. exact Ks.
      + eapply touched_only_step; eassumption. }
  destruct (Hfold l st) as (Hlim & Hr & Hk & Ht). clear Hfold.
  repeat (split; [assumption|]).
  split.
  - clear - Ht. induction Ht as [|x y a b [H _] Ht IH]; [reflexivity|].
    cbn [map]. now rewrite H, IH.
  - intros Hnd. eapply Forall2_weaken; [|exact Ht]. cbv beta.
    intros x y Hx [H1 H2] Hs. apply H2. intros Hin. apply in_map_iff in Hin.
    destruct Hin as (w & E & Hw). apply filter_In in Hw. destruct Hw as [Hw Htx].
    destruct (Hl w Hw) as (Hwin & Hws & Hwc).
    assert (Ewx := NoDup_ID_eq _ w x Hnd Hwin Hx E). subst x.
    destruct Hs as [[Hb Hc]|[Hs|[Hne Hs]]].
    + destruct Hws; contradiction.
    + rewrite Hs in Htx. discriminate.
    + destruct Hwc; contradiction.
Qed.

End Processor.

(** ** Crediting deposits *)

(** The row a read returns, after an increment. *)
Lemma GetBalance_after_IncrementBalance userID chain currency amount t b :
  WalletRepo.GetBalance userID chain currency t = Ok (Some b) ->
  WalletRepo.GetBalance userID chain currency
    (snd (WalletRepo.IncrementBalance userID chain currency amount t))
  = Ok (Some (WalletModel.set_Available (WalletModel.Available b + amount) b)).
Proof.
  unfold WalletRepo.GetBalance, WalletRepo.IncrementBalance, WalletRepo.update_where.
  intros [= Hb]. cbn [snd]. f_equal.
  rewrite find_map_preserving.
  2:{ intros x. destruct (WalletRepo.is_row userID chain currency x) eqn:E;
        [rewrite is_row_set_Available|]; exact E. }
  rewrite Hb. cbn [option_map].
  destruct (find_some _ _ Hb) as [_ Hrow]. now rewrite Hrow.
Qed.

Section Credits.
Import DepositModel.

(** X14. CreditDeposit credits a deposit once. For an unknown identifier it
    fails with deposit not found and changes nothing. For a deposit on record
    it returns no error (database failures aside): if the deposit is already
    credited nothing changes; otherwise, whatever its status, the ledger goes
    through IncrementBalance for the deposit's user, chain, currency and
    amount (so the balance row of the triple, if there is one, gains the
    amount in available) and the deposit reads back credited, with status
    Credited and the time of the call. A further CreditDeposit of the same
    deposit changes nothing. The wallets are never touched. *)
Theorem CreditDeposit_credits_once :
  forall depositID now st,
    let e := fst (DepositService.CreditDeposit depositID now st) in
    let st' := snd (DepositService.CreditDeposit depositID now st) in
    DepositService.wallets st' = DepositService.wallets st
    /\ (DepositRepo.GetDepositByID depositID (DepositService.db st) = Ok None ->
        e = Some ErrDepositNotFound /\ st' = st)
    /\ (forall d,
          DepositRepo.GetDepositByID depositID (DepositService.db st) = Ok (Some d) ->
          e = None
          /\ (Credited d = true -> st' = st)
          /\ (Credited d = false ->
              DepositRepo.GetDepositByID depositID (DepositService.db st')
              = Ok (Some (set_credited now d))
              /\ DepositService.balances st'
                 = snd (WalletRepo.IncrementBalance
                          (UserID d) (Chain d) (Currency d)
                          (NewFromString_ (Amount d)) (DepositService.balances st))
              /\ forall b,
                  WalletRepo.GetBalance (UserID d) (Chain d) (Currency d)
                                        (DepositService.balances st) = Ok (Some b) ->
                  WalletRepo.GetBalance (UserID d) (Chain d) (Currency d)
                                        (DepositService.balances st')
                  = Ok (Some (WalletModel.set_Available
                                (WalletModel.Available b
                                 + NewFromString_ (Amount d)) b))))
    /\ forall now',
        snd (DepositService.CreditDeposit depositID now' st') = st'.
Proof.
  intros depositID now st e st'.
  split.
  { subst st'. unfold DepositService.CreditDeposit.
    destruct (DepositRepo.GetDepositByID _ _) as [[d|]|err]; try reflexivity.
    destruct (Credited d); reflexivity. }
  split.
  { intros H. subst e st'. unfold DepositService.CreditDeposit. rewrite H.
    split; reflexivity. }
  split.
  - intros d Hd. subst e st'. unfold DepositService.CreditDeposit. rewrite Hd.
    destruct (Credited d) eqn:Hc.
    + split; [reflexivity|]. split; [reflexivity|discriminate].
    + unfold WalletRepo.IncrementBalance, DepositRepo.CreditDeposit.
      cbn [fst snd DepositService.set_balances DepositService.set_db
           DepositService.db DepositService.balances].
      split; [reflexivity|]. split; [discriminate|]. intros _.
      split.
      { unfold DepositRepo.GetDepositByID in *.
        cbn [DepositRepo.deposits DepositRepo.set_deposits]. f_equal.
        injection Hd as Hd.
        apply (find_after_update (fun x => ID x =? depositID)); [|exact Hd].
        intros x Hx. exact Hx. }
      split; [reflexivity|].
      intros b Hb.
      exact (GetBalance_after_IncrementBalance _ _ _ _ _ _ Hb).
  - intros now'. apply CreditDeposit_again_is_noop.
Qed.

Lemma NoDup_key_eq {A} (f : A -> Z) (l : list A) x y :
  NoDup (map f l) -> In x l -> In y l -> f x = f y -> x = y.
Proof.
  induction l as [|a l IH]; cbn; [tauto|].
  intros Hnd. inversion Hnd as [|? ? Hnotin Hnd']; subst.
  intros [->|Hx] [->|Hy] E; try reflexivity.
  - elim Hnotin. rewrite E. now apply in_map.
  - elim Hnotin. rewrite <- E. now apply in_map.
  - now apply IH.
Qed.

Lemma Forall2_map_In {A} (R : A -> A -> Prop) (f : A -> A) (l : list A) :
  (forall x, In x l -> R x (f x)) -> Forall2 R l (map f l).
Proof.
  induction l as [|a l IH]; intros H; cbn; constructor.
  - apply H. now left.
  - apply IH. intros x Hx. apply H. now right.
Qed.

Lemma credit_row_ID id now x : ID (Views.credit_row id now x) = ID x.
Proof. unfold Views.credit_row. now destruct (_ && _). Qed.

(** With distinct identifiers, a credit rewrites the deposits row by row. *)
Lemma CreditDeposit_table id now st :
  NoDup (map ID (DepositRepo.deposits (DepositService.db st))) ->
  DepositRepo.deposits (DepositService.db (snd (DepositService.CreditDeposit id now st)))
  = map (Views.credit_row id now) (DepositRepo.deposits (DepositService.db st)).
Proof.
  intros Hnd. unfold DepositService.CreditDeposit, DepositRepo.GetDepositByID.
  destruct (find _ _) as [d|] eqn:Hfind.
  - destruct (find_some _ _ Hfind) as [Hin Hid]. apply Z.eqb_eq in Hid.
    destruct (Credited d) eqn:Hc; cbn [snd].
    + symmetry. apply map_fixes. intros x Hx. unfold Views.credit_row.
      destruct (Z.eqb_spec (ID x) id) as [E|E]; [|reflexivity].
      rewrite (NoDup_key_eq ID _ x d Hnd Hx Hin) by congruence.
      now rewrite Hc.
    + unfold WalletRepo.IncrementBalance, DepositRepo.CreditDeposit.
      cbn [snd DepositService.set_balances DepositService.set_db
           DepositService.db DepositRepo.deposits DepositRepo.set_deposits].
      apply map_ext_in. intros x Hx. unfold Views.credit_row.
      destruct (Z.eqb_spec (ID x) id) as [E|E]; [|reflexivity].
      rewrite (NoDup_key_eq ID _ x d Hnd Hx Hin) by congruence.
      now rewrite Hc.
  - cbn [snd]. symmetry. apply map_fixes. intros x Hx. unfold Views.credit_row.
    now rewrite (find_none _ _ Hfind x Hx).
Qed.

Lemma CreditDeposit_frame id now st :
  let st' := snd (DepositService.CreditDeposit id now st) in
  DepositService.wallets st' = DepositService.wallets st
  /\ DepositRepo.addresses (DepositService.db st')
     = DepositRepo.addresses (DepositService.db st)
  /\ DepositRepo.progress (DepositService.db st')
     = DepositRepo.progress (DepositService.db st).
Proof.
  unfold DepositService.CreditDeposit.
  destruct (DepositRepo.GetDepositByID _ _) as [[d|]|err];
    [|repeat split|repeat split].
  destruct (Credited d); [repeat split|].
  unfold WalletRepo.IncrementBalance, DepositRepo.CreditDeposit.
  cbn [snd DepositService.set_balances DepositService.set_db DepositService.db
       DepositService.wallets DepositRepo.set_deposits DepositRepo.addresses
       DepositRepo.progress].
  repeat split.
Qed.

(** A row after the credits of the deposits [l], one after the other. *)
Lemma credit_rows_outcome now l x :
  let y := fold_left (fun x d => Views.credit_row (ID d) now x) l x in
  ID y = ID x
  /\ (y = x \/ Credited x = false /\ In (ID x) (map ID l) /\ y = set_credited now x)
  /\ (In (ID x) (map ID l) -> Credited y = true).
Proof.
  revert x. induction l as [|d l IH]; intros x; cbn [fold_left map In].
  - split; [reflexivity|]. split; [now left|tauto].
  - cbv zeta.
    destruct (Z.eqb_spec (ID x) (ID d)) as [E|E].
    + destruct (Credited x) eqn:Hc.
      * assert (Hx : Views.credit_row (ID d) now x = x).
        { unfold Views.credit_row. now rewrite Hc, andb_false_r. }
        rewrite Hx. destruct (IH x) as (H1 & H2 & H3).
        split; [exact H1|]. split.
        { destruct H2 as [H2|(H2 & _)]; [now left|congruence]. }
        intros _. destruct H2 as [H2|(H2 & _)]; [|congruence].
        rewrite H2. exact Hc.
      * assert (Hx : Views.credit_row (ID d) now x = set_credited now x).
        { unfold Views.credit_row. rewrite Hc, E, Z.eqb_refl. reflexivity. }
        rewrite Hx. destruct (IH (set_credited now x)) as (H1 & H2 & _).
        cbn [ID Credited set_credited] in H1, H2.
        split; [exact H1|].
        assert (Hy : fold_left (fun x d => Views.credit_row (ID d) now x) l
                               (set_credited now x) = set_credited now x).
        { destruct H2 as [H2|(H2 & _)]; [exact H2|discriminate]. }
        rewrite Hy. split.
        { right. split; [reflexivity|]. split; [left; now symmetry|reflexivity]. }
        intros _. reflexivity.
    + assert (Hx : Views.credit_row (ID d) now x = x).
      { unfold Views.credit_row.
        destruct (Z.eqb_spec (ID x) (ID d)); [contradiction|reflexivity]. }
      rewrite Hx. destruct (IH x) as (H1 & H2 & H3).
      split; [exact H1|]. split.
      * destruct H2 as [H2|(H2 & H4 & H5)]; [now left|right].
        split; [exact H2|]. split; [now right|exact H5].
      * intros [Hd|Hin]; [now elim E|now apply H3].
Qed.

Lemma In_insert_deposit x d l :
  In x (DepositRepo.insert_by_created d l) <-> x = d \/ In x l.
Proof.
  induction l as [|a l IH]; cbn.
  - split; [intros [<-|[]]; now left|intros [->|[]]; now left].
  - destruct (_ <=? _); cbn.
    + split; [intros [<-|H]; auto|intros [->|H]; auto].
    + rewrite IH. split.
      * intros [<-|[->|H]]; auto.
      * intros [->|[<-|H]]; auto.
Qed.

Lemma length_insert_deposit d l :
  List.length (DepositRepo.insert_by_created d l) = S (List.length l).
Proof.
  induction l as [|a l IH]; cbn; [reflexivity|].
  destruct (_ <=? _); cbn; [reflexivity|now rewrite IH].
Qed.

Lemma In_sorted_deposits x l :
  In x (fold_right DepositRepo.insert_by_created [] l) <-> In x l.
Proof.
  induction l as [|a l IH]; cbn; [tauto|].
  rewrite In_insert_deposit, IH. split; intros [H|H]; auto.
Qed.

Lemma length_sorted_deposits l :
  List.length (fold_right DepositRepo.insert_by_created [] l) = List.length l.
Proof.
  induction l as [|a l IH]; cbn; [reflexivity|].
  now rewrite length_insert_deposit, IH.
Qed.

(** X15. ProcessCredits never touches the wallets, the deposit addresses or
    the scan progress, and with the database answering it returns no error.
    With distinct deposit identifiers: no deposit is added, removed or
    renumbered, and each deposit is afterwards either exactly as before or, if
    it was Confirmed and not credited, marked credited (status Credited, the
    time of the pass), so that deposits in any other status are never credited
    by the pass; and if at most 100 deposits were Confirmed and not credited,
    none is left in that state. *)
Theorem ProcessCredits_credits_the_confirmed :
  forall now st,
    let r := DepositService.ProcessCredits now st in
    fst r = None
    /\ DepositService.wallets (snd r) = DepositService.wallets st
    /\ DepositRepo.addresses (DepositService.db (snd r))
       = DepositRepo.addresses (DepositService.db st)
    /\ DepositRepo.progress (DepositService.db (snd r))
       = DepositRepo.progress (DepositService.db st)
    /\ (NoDup (map ID (DepositRepo.deposits (DepositService.db st))) ->
        Forall2 (fun x y =>
                   ID y = ID x
                   /\ (y = x
                       \/ Status x = DepositStatusConfirmed /\ Credited x = false
                          /\ y = set_credited now x))
                (DepositRepo.deposits (DepositService.db st))
                (DepositRepo.deposits (DepositService.db (snd r)))
        /\ ((List.length (filter Views.awaits_credit
                                 (DepositRepo.deposits (DepositService.db st)))
             <= 100)%nat ->
            Forall (fun y => Views.awaits_credit y = false)
                   (DepositRepo.deposits (DepositService.db (snd r))))).
Proof.
  intros now st r. subst r.
  unfold DepositService.ProcessCredits, DepositRepo.ListUnconfirmedDeposits.
  cbn [fst snd]. split; [reflexivity|].
  set (ds := DepositRepo.deposits (DepositService.db st)).
  set (l := firstn 100 _).
  assert (Hp : forall d, (status_eqb (Status d) DepositStatusConfirmed
                          && negb (Credited d) && true) = Views.awaits_credit d).
  { intros d. unfold Views.awaits_credit. now rewrite andb_true_r. }
  assert (Hl : forall w, In w l -> In w ds /\ Views.awaits_credit w = true).
  { intros w Hw. subst l. apply In_firstn in Hw.
    apply (proj1 (In_sorted_deposits _ _)) in Hw.
    apply filter_In in Hw. destruct Hw as [Hin Hw]. split; [exact Hin|].
    cbn [String.eqb] in Hw. now rewrite Hp in Hw. }
  assert (Hall : (List.length (filter Views.awaits_credit ds) <= 100)%nat ->
                 forall x, In x ds -> Views.awaits_credit x = true -> In x l).
  { intros Hlen x Hx Hpx. subst l. rewrite firstn_all2.
    - apply (proj2 (In_sorted_deposits _ _)). apply filter_In. split; [exact Hx|].
      cbn [String.eqb]. now rewrite Hp.
    - rewrite length_sorted_deposits. cbn [String.eqb].
      rewrite (filter_ext _ Views.awaits_credit) by exact Hp. exact Hlen. }
  clearbody l.
  assert (Hfold : forall l st0,
             let st' := fold_left
                          (fun st d => snd (DepositService.CreditDeposit (ID d) now st))
                          l st0 in
             DepositService.wallets st' = DepositService.wallets st0
             /\ DepositRepo.addresses (DepositService.db st')
                = DepositRepo.addresses (DepositService.db st0)
             /\ DepositRepo.progress (DepositService.db st')
                = DepositRepo.progress (DepositService.db st0)
             /\ (NoDup (map ID (DepositRepo.deposits (DepositService.db st0))) ->
                 DepositRepo.deposits (DepositService.db st')
                 = map (fun x => fold_left
                                   (fun x d => Views.credit_row (ID d) now x) l x)
                       (DepositRepo.deposits (DepositService.db st0)))).
  { clear. induction l as [|d l IH]; intros st0; cbn [fold_left].
    - repeat split. intros _. now rewrite map_id.
    - destruct (CreditDeposit_frame (ID d) now st0) as (Hw & Ha & Hpr).
      destruct (IH (snd (DepositService.CreditDeposit (ID d) now st0)))
        as (Kw & Ka & Kp & Kd).
      cbv zeta in *. rewrite Kw, Ka, Kp. repeat (split; [assumption|]).
      intros Hnd. rewrite Kd.
      + rewrite (CreditDeposit_table _ _ _ Hnd), map_map. reflexivity.
      + rewrite (CreditDeposit_table _ _ _ Hnd), map_map.
        rewrite (map_ext _ ID); [exact Hnd|]. intros x. apply credit_row_ID. }
  destruct (Hfold l st) as (Hw & Ha & Hpr & Hd). clear Hfold.
  repeat (split; [assumption|]).
  intros Hnd. fold ds in Hd, Hnd. rewrite (Hd Hnd).
  split.
  - apply Forall2_map_In. intros x Hx.
    destruct (credit_rows_outcome now l x) as (H1 & H2 & _).
    split; [exact H1|].
    destruct H2 as [H2|(Hc & Hin & H2)]; [now left|right].
    apply in_map_iff in Hin. destruct Hin as (w & E & Hwl).
    destruct (Hl w Hwl) as [Hwin Hwp].
    assert (Ewx := NoDup_key_eq ID ds w x Hnd Hwin Hx E). subst w.
    split; [|split; [exact Hc|exact H2]].
    unfold Views.awaits_credit in Hwp. apply andb_prop in Hwp.
    destruct Hwp as [Hs _]. destruct (Status x); try discriminate. reflexivity.
  - intros Hlen. apply Forall_map. apply Forall_forall. intros x Hx.
    destruct (credit_rows_outcome now l x) as (_ & H2 & H3).
    destruct (Views.awaits_credit x) eqn:Hpx.
    + assert (Hc := H3 (in_map ID _ _ (Hall Hlen x Hx Hpx))).
      unfold Views.awaits_credit. rewrite Hc. apply andb_false_r.
    + destruct H2 as [->|(Hc & Hin & H2)]; [exact Hpx|].
      apply in_map_iff in Hin. destruct Hin as (w & E & Hwl).
      destruct (Hl w Hwl) as [Hwin Hwp].
      assert (Ewx := NoDup_key_eq ID ds w x Hnd Hwin Hx E). subst w.
      congruence.
Qed.

End Credits.

(** ** The deposit scanner *)

Section Scans.
Import DepositModel.

Lemma NoDup_snoc {A} (l : list A) (x : A) :
  NoDup l -> ~ In x l -> NoDup (l ++ [x]).
Proof.
  induction l as [|a l IH]; cbn; intros Hnd Hx.
  - constructor; [tauto|constructor].
  - inversion Hnd as [|? ? Ha Hnd']; subst. constructor.
    + intros Hin. apply in_app_or in Hin. destruct Hin as [Hin|[->|[]]];
        [now apply Ha|apply Hx; now left].
    + apply IH; [exact Hnd'|]. intros Hin. apply Hx. now right.
Qed.

Lemma scanned_from_refl chainName st : Views.scanned_from chainName st st.
Proof.
  unfold Views.scanned_from. repeat split; auto.
  exists []. split; [now rewrite app_nil_r|constructor].
Qed.

Lemma scanned_from_trans chainName st1 st2 st3 :
  Views.scanned_from chainName st1 st2 -> Views.scanned_from chainName st2 st3 ->
  Views.scanned_from chainName st1 st3.
Proof.
  unfold Views.scanned_from.
  intros (Hb & Hw & Ha & Hp & Hn & new1 & Hd & Hf)
         (Kb & Kw & Ka & Kp & Kn & new2 & Kd & Kf).
  split; [congruence|]. split; [congruence|]. split; [congruence|].
  split; [intros c Hc; rewrite Kp, Hp; auto|].
  split; [auto|].
  exists (new1 ++ new2)%list. split.
  - rewrite Kd, Hd. now rewrite app_assoc.
  - apply Forall_app. split; [exact Hf|]. now rewrite <- Ha.
Qed.

(** ProcessDeposit either leaves the state as it was or appends one deposit,
    Pending and not credited, under a hash not on record before. *)
Lemma ProcessDeposit_scanned chain txHash from to currency amount blk uuid now st :
  Views.scanned_from
    chain st
    (snd (DepositService.ProcessDeposit chain txHash from to currency amount blk
                                        uuid now st)).
Proof.
  unfold DepositService.ProcessDeposit, DepositRepo.GetDepositByTxHash,
    DepositRepo.GetDepositAddress, WalletRepo.ListWalletsByUserID,
    DepositRepo.CreateDeposit.
  destruct (find _ (DepositRepo.deposits _)) as [d0|] eqn:Hhash;
    [apply scanned_from_refl|].
  destruct (find _ (DepositRepo.addresses _)) as [a|] eqn:Haddr;
    [|apply scanned_from_refl].
  cbn [UUID TxHash].
  destruct (existsb _ _); [apply scanned_from_refl|].
  cbn [snd]. unfold Views.scanned_from.
  cbn [DepositService.set_db DepositService.db DepositService.balances
       DepositService.wallets DepositRepo.set_deposits DepositRepo.deposits
       DepositRepo.addresses].
  do 3 (split; [reflexivity|]). split; [reflexivity|].
  split.
  - intros Hnd. rewrite map_app. cbn [map TxHash set_created].
    apply NoDup_snoc; [exact Hnd|].
    intros Hin. apply in_map_iff in Hin. destruct Hin as (x & Hx & Hxin).
    pose proof (find_none _ _ Hhash x Hxin) as Hne. cbv beta in Hne.
    rewrite Hx, String.eqb_refl in Hne. discriminate.
  - eexists. split; [reflexivity|].
    constructor; [|constructor].
    unfold Views.recorded_by_scan. cbn [Status Credited Chain ToAddress UserID set_created].
    do 3 (split; [reflexivity|]).
    destruct (find_some _ _ Haddr) as [Hin Hm].
    apply andb_prop in Hm. destruct Hm as [Hc Ha].
    apply String.eqb_eq in Hc. apply String.eqb_eq in Ha.
    exists a. repeat split; assumption.
Qed.

Lemma scan_tx_scanned chain chainName addrMap uuids now a txHash :
  Views.scanned_from
    chainName (fst a)
    (fst (DepositService.scan_tx chain chainName addrMap uuids now a txHash)).
Proof.
  unfold DepositService.scan_tx.
  destruct (String.eqb txHash ""); [apply scanned_from_refl|].
  destruct (Blockchain.GetTransaction chain txHash) as [[txInfo|]|err];
    try apply scanned_from_refl.
  destruct (_ || _); [apply scanned_from_refl|].
  destruct (DepositService.in_set _ _); [|apply scanned_from_refl].
  destruct a as [st k]. cbn [fst]. apply ProcessDeposit_scanned.
Qed.

Lemma scan_log_scanned s chainName addrMap uuids now blk a lg :
  Views.scanned_from
    chainName (fst a)
    (fst (DepositService.scan_log s chainName addrMap uuids now blk a lg)).
Proof.
  unfold DepositService.scan_log.
  destruct (Blockchain.Topics lg) as [|t0 [|t1 [|t2 rest]]];
    try apply scanned_from_refl.
  destruct (negb (String.eqb t0 _)); [apply scanned_from_refl|].
  cbv zeta.
  destruct (negb (DepositService.in_set _ _)); [apply scanned_from_refl|].
  destruct a as [st k]. cbn [fst]. apply ProcessDeposit_scanned.
Qed.

Lemma fold_scanned {B} chainName (step : DepositService.acc -> B -> DepositService.acc)
      (l : list B) :
  (forall a x, Views.scanned_from chainName (fst a) (fst (step a x))) ->
  forall a, Views.scanned_from chainName (fst a) (fst (fold_left step l a)).
Proof.
  intros Hstep. induction l as [|x l IH]; intros a; cbn [fold_left].
  - apply scanned_from_refl.
  - eapply scanned_from_trans; [apply Hstep|apply IH].
Qed.

Lemma find_set_first_other c chainName blk l :
  c <> chainName ->
  find (fun p => String.eqb (pChain p) c) (DepositRepo.set_first chainName blk l)
  = find (fun p => String.eqb (pChain p) c) l.
Proof.
  intros Hc. induction l as [|p l IH]; cbn [DepositRepo.set_first find].
  - cbn [pChain]. destruct (String.eqb_spec chainName c); [congruence|reflexivity].
  - destruct (String.eqb_spec (pChain p) chainName) as [E|E]; cbn [find pChain].
    + destruct (String.eqb_spec (pChain p) c); [congruence|reflexivity].
    + now rewrite IH.
Qed.

Lemma SetLastScannedBlock_scanned chainName blk st :
  Views.scanned_from
    chainName st
    (DepositService.set_db
       (snd (DepositRepo.SetLastScannedBlock chainName blk (DepositService.db st))) st).
Proof.
  unfold Views.scanned_from, DepositRepo.SetLastScannedBlock.
  cbn [snd DepositService.set_db DepositService.db DepositService.balances
       DepositService.wallets DepositRepo.set_progress DepositRepo.deposits
       DepositRepo.addresses].
  do 3 (split; [reflexivity|]).
  split.
  - intros c Hc. unfold DepositRepo.GetLastScannedBlock.
    cbn [DepositRepo.progress DepositRepo.set_progress DepositService.db
         DepositService.set_db].
    now rewrite find_set_first_other.
  - split; [auto|]. exists []. split; [now rewrite app_nil_r|constructor].
Qed.

Lemma scan_block_scanned s chain chainName addrMap uuids now a blk :
  Views.scanned_from
    chainName (fst a)
    (fst (DepositService.scan_block s chain chainName addrMap uuids now a blk)).
Proof.
  unfold DepositService.scan_block.
  assert (Hnative : forall a1,
             Views.scanned_from chainName (fst a) (fst a1) ->
             Views.scanned_from
               chainName (fst a)
               (fst (let a2 :=
                       match Blockchain.GetLogs chain with
                       | Some getLogs =>
                           match getLogs blk blk with
                           | Ok logs =>
                               fold_left
                                 (DepositService.scan_log s chainName addrMap uuids
                                                          now blk) logs a1
                           | Err _ => a1
                           end
                       | None => a1
                       end in
                     let '(st, k) := a2 in
                     (DepositService.set_db
                        (snd (DepositRepo.SetLastScannedBlock
                                chainName blk (DepositService.db st))) st, k)))).
  { intros a1 H1. cbv zeta.
    assert (H2 : Views.scanned_from
                   chainName (fst a)
                   (fst match Blockchain.GetLogs chain with
                        | Some getLogs =>
                            match getLogs blk blk with
                            | Ok logs =>
                                fold_left
                                  (DepositService.scan_log s chainName addrMap
                                                           uuids now blk) logs a1
                            | Err _ => a1
                            end
                        | None => a1
                        end)).
    { destruct (Blockchain.GetLogs chain) as [getLogs|]; [|exact H1].
      destruct (getLogs blk blk) as [logs|err]; [|exact H1].
      eapply scanned_from_trans; [exact H1|].
      apply fold_scanned. intros; apply scan_log_scanned. }
    destruct (match Blockchain.GetLogs chain with
              | Some _ => _ | None => _ end) as [st2 k2].
    cbn [fst] in *. eapply scanned_from_trans; [exact H2|].
    apply SetLastScannedBlock_scanned. }
  destruct (Blockchain.GetBlock chain) as [getBlock|].
  - destruct (getBlock blk) as [block|err]; [|apply scanned_from_refl].
    apply Hnative. apply fold_scanned. intros; apply scan_tx_scanned.
  - apply Hnative. apply scanned_from_refl.
Qed.

(** X16. What a scan of a chain never does. ScanDeposits leaves the state as
    it was when it returns an error. In every case it leaves the ledger, the
    wallets, the deposit addresses and the scan progress of the other chains
    as they were, and every deposit on record stays exactly as it is, in
    place: the deposits afterwards are those before followed by the new ones.
    Each new deposit is Pending and not credited, on the scanned chain, to an
    address registered for that chain and for the user the address belongs to.
    If the transaction hashes on record were distinct, they still are. *)
Theorem ScanDeposits_only_appends_pending_deposits :
  forall s chainName uuids now st,
    let e := fst (DepositService.ScanDeposits s chainName uuids now st) in
    let st' := snd (DepositService.ScanDeposits s chainName uuids now st) in
    (e <> None -> st' = st)
    /\ DepositService.balances st' = DepositService.balances st
    /\ DepositService.wallets st' = DepositService.wallets st
    /\ DepositRepo.addresses (DepositService.db st')
       = DepositRepo.addresses (DepositService.db st)
    /\ (forall c, c <> chainName ->
                  DepositRepo.GetLastScannedBlock c (DepositService.db st')
                  = DepositRepo.GetLastScannedBlock c (DepositService.db st))
    /\ (NoDup (map TxHash (DepositRepo.deposits (DepositService.db st))) ->
        NoDup (map TxHash (DepositRepo.deposits (DepositService.db st'))))
    /\ exists new,
        DepositRepo.deposits (DepositService.db st')
        = (DepositRepo.deposits (DepositService.db st) ++ new)%list
        /\ Forall (Views.recorded_by_scan
                     chainName (DepositRepo.addresses (DepositService.db st)))
                  new.
Proof.
  intros s chainName uuids now st e st'.
  assert (H : (e <> None -> st' = st) /\ Views.scanned_from chainName st st').
  { subst e st'. unfold DepositService.ScanDeposits.
    destruct (DepositService.blockchains s chainName) as [chain|];
      [|split; [reflexivity|apply scanned_from_refl]].
    destruct (DepositRepo.GetLastScannedBlock _ _) as [lastScanned|err];
      [|split; [reflexivity|apply scanned_from_refl]].
    destruct (Blockchain.GetBlockNumber chain) as [latest|err];
      [|split; [reflexivity|apply scanned_from_refl]].
    unfold DepositRepo.ListAllDepositAddresses. cbn [fst snd].
    split; [intros Hne; now elim Hne|].
    exact (fold_scanned chainName _ _
             (fun a x => scan_block_scanned s chain chainName _ uuids now a x)
             (st, O)). }
  destruct H as [He Hs]. split; [exact He|]. exact Hs.
Qed.





End Scans.

(** ** Confirmation of deposits *)

Section Confirmations.
Import DepositModel.

(** Below 2^63 the confirmation count is the plain difference, negative
    when the deposit's block is ahead of the node's. *)
Lemma confirmations_plain currentBlock blockNumber :
  0 <= currentBlock < 2 ^ 63 -> 0 < blockNumber < 2 ^ 63 ->
  DepositConfirmations.confirmations currentBlock blockNumber
  = currentBlock - blockNumber + 1.
Proof.
  intros Hc Hb.
  unfold DepositConfirmations.confirmations, DepositConfirmations.to_int,
    DepositService.uint64.
  cbv zeta. rewrite Z.mod_mod by lia. rewrite Zplus_mod_idemp_l.
  change (2 ^ 64) with 18446744073709551616 in *.
  change (2 ^ 63) with 9223372036854775808 in *.
  destruct (Z_lt_le_dec (currentBlock - blockNumber + 1) 0) as [Hneg|Hpos].
  - rewrite <- (Z_mod_plus_full _ 1 18446744073709551616).
    rewrite Z.mod_small by lia.
    match goal with
    | |- context [?a <? ?b] => destruct (Z.ltb_spec a b)
    end; lia.
  - rewrite Z.mod_small by lia.
    match goal with
    | |- context [?a <? ?b] => destruct (Z.ltb_spec a b)
    end; lia.
Qed.

(** What the loop body saves for a deposit. *)
Lemma confirmed_row_shape chain requiredConfirmations currentBlock x y :
  DepositConfirmations.confirmed_row chain requiredConfirmations currentBlock x
  = Some y ->
  exists blk,
    0 < blk
    /\ (BlockNumber x <> 0 -> blk = BlockNumber x)
    /\ (BlockNumber x = 0 ->
        exists txInfo,
          Blockchain.GetTransaction chain (TxHash x) = Ok (Some txInfo)
          /\ Blockchain.BlockNumber txInfo = blk)
    /\ y = set_Status
             (if requiredConfirmations
                 <=? DepositConfirmations.confirmations currentBlock blk
              then DepositStatusConfirmed else DepositStatusConfirming)
             (DepositConfirmations.set_BlockNumber blk x).
Proof.
  unfold DepositConfirmations.confirmed_row. cbv zeta.
  destruct (Z.eqb_spec (BlockNumber x) 0) as [E|E].
  - destruct (Blockchain.GetTransaction chain (TxHash x)) as [[txInfo|]|err] eqn:Htx;
      try discriminate.
    + destruct (Z.ltb_spec 0 (Blockchain.BlockNumber txInfo)) as [Hpos|Hpos].
      * cbn [BlockNumber DepositConfirmations.set_BlockNumber].
        destruct (Z.ltb_spec 0 (Blockchain.BlockNumber txInfo)); [|lia].
        intros Hy. exists (Blockchain.BlockNumber txInfo).
        split; [exact Hpos|]. split; [intros Hne; now elim Hne|].
        split; [intros _; now exists txInfo|].
        destruct (_ <=? _); now injection Hy as <-.
      * rewrite E. cbn. discriminate.
    + rewrite E. cbn. discriminate.
  - destruct (Z.ltb_spec 0 (BlockNumber x)) as [Hpos|Hpos]; [|discriminate].
    intros Hy. exists (BlockNumber x).
    split; [exact Hpos|]. split; [reflexivity|]. split; [intros Hz; now elim E|].
    assert (Hx : DepositConfirmations.set_BlockNumber (BlockNumber x) x = x)
      by now destruct x.
    rewrite Hx. destruct (_ <=? _); now injection Hy as <-.
Qed.

Lemma confirmed_row_ID chain requiredConfirmations currentBlock x y :
  DepositConfirmations.confirmed_row chain requiredConfirmations currentBlock x
  = Some y -> ID y = ID x.
Proof.
  intros H. destruct (confirmed_row_shape _ _ _ _ _ H) as (blk & _ & _ & _ & ->).
  reflexivity.
Qed.

(** A row after the loop over the deposits [l]. *)
Lemma confirm_rows_outcome chain requiredConfirmations currentBlock l x :
  let step (x w : Deposit) :=
    match DepositConfirmations.confirmed_row
            chain requiredConfirmations currentBlock w with
    | Some d => if ID x =? ID d then d else x
    | None => x
    end in
  let y := fold_left step l x in
  ID y = ID x
  /\ (y = x
      \/ exists w, In w l /\ ID w = ID x
                   /\ DepositConfirmations.confirmed_row
                        chain requiredConfirmations currentBlock w = Some y).
Proof.
  cbv zeta. revert x. induction l as [|w l IH]; intros x; cbn [fold_left].
  - split; [reflexivity|now left].
  - destruct (DepositConfirmations.confirmed_row
                chain requiredConfirmations currentBlock w) as [d|] eqn:Hw.
    + pose proof (confirmed_row_ID _ _ _ _ _ Hw) as Hid.
      destruct (Z.eqb_spec (ID x) (ID d)) as [E|E].
      * destruct (IH d) as (H1 & H2). split; [congruence|].
        right. destruct H2 as [->|(w' & Hin & Hid' & Hrow)].
        { exists w. split; [now left|]. split; [congruence|exact Hw]. }
        { exists w'. split; [now right|]. split; [congruence|exact Hrow]. }
      * destruct (IH x) as (H1 & H2). split; [exact H1|].
        destruct H2 as [H2|(w' & Hin & Hid' & Hrow)]; [now left|right].
        exists w'. split; [now right|]. split; assumption.
    + destruct (IH x) as (H1 & H2). split; [exact H1|].
      destruct H2 as [H2|(w' & Hin & Hid' & Hrow)]; [now left|right].
      exists w'. split; [now right|]. split; assumption.
Qed.

Lemma confirm_one_table chain requiredConfirmations currentBlock st w :
  let st' := DepositConfirmations.confirm_one
               chain requiredConfirmations currentBlock st w in
  DepositService.balances st' = DepositService.balances st
  /\ DepositService.wallets st' = DepositService.wallets st
  /\ DepositRepo.addresses (DepositService.db st')
     = DepositRepo.addresses (DepositService.db st)
  /\ DepositRepo.progress (DepositService.db st')
     = DepositRepo.progress (DepositService.db st)
  /\ DepositRepo.deposits (DepositService.db st')
     = map (fun x =>
              match DepositConfirmations.confirmed_row
                      chain requiredConfirmations currentBlock w with
              | Some d => if ID x =? ID d then d else x
              | None => x
              end)
           (DepositRepo.deposits (DepositService.db st)).
Proof.
  unfold DepositConfirmations.confirm_one.
  destruct (DepositConfirmations.confirmed_row _ _ _ _) as [d|].
  - unfold DepositRepo.UpdateDeposit. cbn. repeat split.
  - cbv zeta. repeat split. now rewrite map_id.
Qed.

(** X18. The confirmation pass of the deposits. It fails, changing nothing,
    with unsupported chain when the chain has no adapter and with the
    adapter's error when the latest block cannot be read; otherwise, with the
    database answering, it returns no error. It never touches the ledger, the
    wallets, the deposit addresses or the scan progress, and adds, removes or
    renumbers no deposit. With distinct identifiers, each deposit is
    afterwards either exactly as before, or it was Pending or Confirming on
    the chain and has become Confirmed or Confirming with a positive block
    number (its own, or the one the adapter reports for its transaction when
    it had none), every other column of the record here as before (the
    confirmation count and the block hash are left out of the record):
    Confirmed exactly when the confirmation count for that block reaches the
    number the adapter requires. For heights below 2^63 and a positive block
    number the count is currentBlock - blockNumber + 1, negative when the
    deposit's block is ahead of the node's. *)
Theorem CheckConfirmations_confirms_at_threshold :
  forall s chainName st,
    let e := fst (DepositConfirmations.CheckConfirmations s chainName st) in
    let st' := snd (DepositConfirmations.CheckConfirmations s chainName st) in
    DepositService.balances st' = DepositService.balances st
    /\ DepositService.wallets st' = DepositService.wallets st
    /\ DepositRepo.addresses (DepositService.db st')
       = DepositRepo.addresses (DepositService.db st)
    /\ DepositRepo.progress (DepositService.db st')
       = DepositRepo.progress (DepositService.db st)
    /\ map ID (DepositRepo.deposits (DepositService.db st'))
       = map ID (DepositRepo.deposits (DepositService.db st))
    /\ (e <> None -> st' = st)
    /\ (DepositService.blockchains s chainName = None ->
        e = Some ErrUnsupportedChain)
    /\ (forall chain,
          DepositService.blockchains s chainName = Some chain ->
          match Blockchain.GetBlockNumber chain with
          | Err err => e = Some err
          | Ok currentBlock =>
            e = None
            /\ (NoDup (map ID (DepositRepo.deposits (DepositService.db st))) ->
                Forall2
                  (fun x y =>
                     y = x
                     \/ (Status x = DepositStatusPending
                         \/ Status x = DepositStatusConfirming)
                        /\ (chainName = "" \/ Chain x = chainName)
                        /\ exists blk,
                            0 < blk
                            /\ (BlockNumber x <> 0 -> blk = BlockNumber x)
                            /\ (BlockNumber x = 0 ->
                                exists txInfo,
                                  Blockchain.GetTransaction chain (TxHash x)
                                  = Ok (Some txInfo)
                                  /\ Blockchain.BlockNumber txInfo = blk)
                            /\ y = set_Status
                                     (if Blockchain.GetRequiredConfirmations chain
                                         <=? DepositConfirmations.confirmations
                                               currentBlock blk
                                      then DepositStatusConfirmed
                                      else DepositStatusConfirming)
                                     (DepositConfirmations.set_BlockNumber blk x))
                  (DepositRepo.deposits (DepositService.db st))
                  (DepositRepo.deposits (DepositService.db st')))
          end)
    /\ forall currentBlock blockNumber,
        0 <= currentBlock < 2 ^ 63 -> 0 < blockNumber < 2 ^ 63 ->
        DepositConfirmations.confirmations currentBlock blockNumber
        = currentBlock - blockNumber + 1.
Proof.
  intros s chainName st e st'.
  assert (Hfold : forall chain req cur l st0,
             let st1 := fold_left (DepositConfirmations.confirm_one chain req cur)
                                  l st0 in
             DepositService.balances st1 = DepositService.balances st0
             /\ DepositService.wallets st1 = DepositService.wallets st0
             /\ DepositRepo.addresses (DepositService.db st1)
                = DepositRepo.addresses (DepositService.db st0)
             /\ DepositRepo.progress (DepositService.db st1)
                = DepositRepo.progress (DepositService.db st0)
             /\ DepositRepo.deposits (DepositService.db st1)
                = map (fun x =>
                         fold_left
                           (fun x w =>
                              match DepositConfirmations.confirmed_row
                                      chain req cur w with
                              | Some d => if ID x =? ID d then d else x
                              | None => x
                              end) l x)
                      (DepositRepo.deposits (DepositService.db st0))).
  { intros chain req cur l. induction l as [|w l IH]; intros st0; cbn [fold_left].
    - repeat split. now rewrite map_id.
    - destruct (confirm_one_table chain req cur st0 w) as (Hb & Hw & Ha & Hp & Hd).
      destruct (IH (DepositConfirmations.confirm_one chain req cur st0 w))
        as (Kb & Kw & Ka & Kp & Kd).
      cbv zeta in *. rewrite Kb, Kw, Ka, Kp, Kd, Hd, map_map.
      repeat split; assumption. }
  assert (Hids : forall chain req cur l (t : list Deposit),
             map ID (map (fun x =>
                            fold_left
                              (fun x w =>
                                 match DepositConfirmations.confirmed_row
                                         chain req cur w with
                                 | Some d => if ID x =? ID d then d else x
                                 | None => x
                                 end) l x) t) = map ID t).
  { intros chain req cur l t. rewrite map_map. apply map_ext. intros x.
    exact (proj1 (confirm_rows_outcome chain req cur l x)). }
  subst e st'. unfold DepositConfirmations.CheckConfirmations.
  destruct (DepositService.blockchains s chainName) as [chain|].
  2:{ cbn [fst snd]. repeat split; try discriminate.
      exact confirmations_plain. }
  unfold DepositConfirmations.ListPendingDeposits.
  destruct (Blockchain.GetBlockNumber chain) as [cur|err] eqn:Hcur.
  2:{ cbn [fst snd]. repeat split; try discriminate.
      - intros chain' [= <-]. now rewrite Hcur.
      - exact confirmations_plain. }
  cbn [fst snd].
  set (l := firstn 100 _).
  destruct (Hfold chain (Blockchain.GetRequiredConfirmations chain) cur l st)
    as (Hb & Hw & Ha & Hp & Hd).
  cbv zeta in Hb, Hw, Ha, Hp, Hd.
  do 4 (split; [assumption|]).
  split; [rewrite Hd; apply Hids|].
  split; [intros H; now elim H|].
  split; [discriminate|].
  split; [|exact confirmations_plain].
  intros chain' [= <-]. rewrite Hcur. split; [reflexivity|].
  intros Hnd. rewrite Hd. apply Forall2_map_In. intros x Hx.
  destruct (confirm_rows_outcome chain (Blockchain.GetRequiredConfirmations chain)
              cur l x) as (_ & [Hy|(w & Hwl & Hid & Hrow)]); [now left|right].
  assert (Hwin : In w (DepositRepo.deposits (DepositService.db st))
                 /\ (Status w = DepositStatusPending
                     \/ Status w = DepositStatusConfirming)
                 /\ (chainName = "" \/ Chain w = chainName)).
  { subst l. apply In_firstn in Hwl.
    apply (proj1 (In_sorted_deposits _ _)) in Hwl.
    apply filter_In in Hwl. destruct Hwl as [Hin Hf]. split; [exact Hin|].
    apply andb_prop in Hf. destruct Hf as [Hs Hc]. split.
    - destruct (Status w); try discriminate; auto.
    - destruct (String.eqb_spec chainName ""); [now left|right].
      now apply String.eqb_eq. }
  destruct Hwin as (Hwin & Hws & Hwc).
  assert (Ewx := NoDup_key_eq ID _ w x Hnd Hwin Hx Hid). subst w.
  split; [exact Hws|]. split; [exact Hwc|].
  exact (confirmed_row_shape _ _ _ _ _ Hrow).
Qed.

End Confirmations.

(** ** The risk engine *)

Section Risk.
Import RiskModel.








Lemma length_filter_app {A} (p : A -> bool) (l l' : list A) :
  List.length (filter p (l ++ l')) = (List.length (filter p l) + List.length (filter p l'))%nat.
Proof. now rewrite filter_app, length_app. Qed.

(** A blacklisted target address decides the check. *)
Lemma CheckWithdrawalRisk_blacklisted_address req now t :
  RiskRepo.CheckBlacklist "address" (qToAddress req) (qChain req) now t = Ok true ->
  exists t',
    RiskService.CheckWithdrawalRisk req now t
    = (Ok (mkRiskCheckResult false 0 false true "address is blacklisted" []), t').
Proof.
  intros H. unfold RiskService.CheckWithdrawalRisk. rewrite H. eexists. reflexivity.
Qed.

(** X20. AddToBlacklist takes effect at once and never unlists anything. With
    the database answering it returns no error; it leaves the rules and the
    log as they were. Whatever was blacklisted before still is. The new entry
    is blacklisted, at any time, for its own chain and for the lookup without
    a chain: so a withdrawal to a listed address on that chain is blocked by
    CheckWithdrawalRisk with the reason address is blacklisted, while a
    deposit from it is not blocked by CheckDepositRisk: it passes, at risk
    level 2 and marked for manual review. *)
Theorem AddToBlacklist_takes_effect :
  forall typ value chain reason createdBy t,
    let t1 := snd (RiskChecks.AddToBlacklist typ value chain reason createdBy t) in
    fst (RiskChecks.AddToBlacklist typ value chain reason createdBy t) = None
    /\ RiskRepo.rules t1 = RiskRepo.rules t
    /\ RiskRepo.logs t1 = RiskRepo.logs t
    /\ (forall typ' value' chain' now,
          RiskChecks.IsBlacklisted typ' value' chain' now t = Ok true ->
          RiskChecks.IsBlacklisted typ' value' chain' now t1 = Ok true)
    /\ (forall now, RiskChecks.IsBlacklisted typ value chain now t1 = Ok true)
    /\ (forall now, RiskChecks.IsBlacklisted typ value "" now t1 = Ok true)
    /\ (typ = "address" ->
        (forall req now,
            qToAddress req = value -> qChain req = chain ->
            exists r t2,
              RiskService.CheckWithdrawalRisk req now t1 = (Ok r, t2)
              /\ Blocked r = true /\ Passed r = false
              /\ Reason r = "address is blacklisted")
        /\ (forall req now,
              RiskChecks.dFromAddress req = value -> RiskChecks.dChain req = chain ->
              RiskChecks.CheckDepositRisk req now t1
              = Ok (mkRiskCheckResult true 2 true false
                                      "source address is blacklisted" []))).
Proof.
  intros typ value chain reason createdBy t t1. subst t1.
  unfold RiskChecks.AddToBlacklist. cbn [fst snd RiskRepo.rules RiskRepo.logs].
  do 3 (split; [reflexivity|]).
  assert (Hnew : forall c now,
             c = chain \/ c = "" ->
             RiskRepo.CheckBlacklist
               typ value c now
               (RiskRepo.mkTables
                  (RiskRepo.blacklist t ++ [mkBlacklist typ value chain None 1])
                  (RiskRepo.rules t) (RiskRepo.logs t)) = Ok true).
  { intros c now Hc. unfold RiskRepo.CheckBlacklist. cbv zeta.
    cbn [RiskRepo.blacklist]. f_equal. apply Z.ltb_lt.
    rewrite length_filter_app. cbn [filter blType blValue blStatus blChain blExpiresAt].
    rewrite !String.eqb_refl. cbn [andb Z.eqb Pos.eqb].
    assert (Hchain : (if String.eqb c "" then true
                      else String.eqb chain c || String.eqb chain "") = true).
    { destruct Hc as [->| ->]; [|reflexivity].
      destruct (String.eqb chain ""); [reflexivity|].
      now rewrite String.eqb_refl. }
    rewrite Hchain. cbn [andb List.length]. lia. }
  split.
  { intros typ' value' chain' now. unfold RiskChecks.IsBlacklisted, RiskRepo.CheckBlacklist.
    cbv zeta. cbn [RiskRepo.blacklist]. intros [= H]. f_equal.
    apply Z.ltb_lt in H. apply Z.ltb_lt. rewrite length_filter_app. lia. }
  split; [intros now; apply Hnew; now left|].
  split; [intros now; apply Hnew; now right|].
  intros ->. split.
  - intros req now Hto Hch.
    destruct (CheckWithdrawalRisk_blacklisted_address
                req now
                (RiskRepo.mkTables
                   (RiskRepo.blacklist t ++ [mkBlacklist "address" value chain None 1])
                   (RiskRepo.rules t) (RiskRepo.logs t)))
      as (t2 & Hr).
    { rewrite Hto, Hch. apply Hnew. now left. }
    eexists. exists t2. split; [exact Hr|]. repeat split.
  - intros req now Hfrom Hch. unfold RiskChecks.CheckDepositRisk.
    rewrite Hfrom, Hch. now rewrite (Hnew chain now (or_introl eq_refl)).
Qed.

Lemma find_replace {A} (p q : A -> bool) (new d : A) (l : list A) :
  find p l = Some d -> q d = true -> p new = true ->
  find p (map (fun x => if q x then new else x) l) = Some new.
Proof.
  intros Hfind Hq Hp. induction l as [|x l IH]; cbn [find map] in *; [discriminate|].
  destruct (p x) eqn:Hx.
  - injection Hfind as ->. rewrite Hq. cbn [find]. now rewrite Hp.
  - destruct (q x); cbn [find]; [now rewrite Hp|]. rewrite Hx. now apply IH.
Qed.

Lemma to_int_small x :
  - 2 ^ 63 <= x < 2 ^ 63 -> DepositConfirmations.to_int x = x.
Proof.
  intros H. unfold DepositConfirmations.to_int. cbv zeta.
  change (2 ^ 64) with 18446744073709551616 in *.
  change (2 ^ 63) with 9223372036854775808 in *.
  destruct (Z_lt_le_dec x 0) as [Hneg|Hpos].
  - rewrite <- (Z_mod_plus_full _ 1 18446744073709551616).
    rewrite Z.mod_small by lia.
    match goal with
    | |- context [?a <? ?b] => destruct (Z.ltb_spec a b)
    end; lia.
  - rewrite Z.mod_small by lia.
    match goal with
    | |- context [?a <? ?b] => destruct (Z.ltb_spec a b)
    end; lia.
Qed.

(** X21. UpdateUserRiskScore keeps the score within 0..100. With the database
    answering, the call returns no error, creating the profile (with score 0)
    if the user has none. Afterwards the user's score is read back without any
    write, and lies between 0 and 100; when the sum of the score before (0
    without a profile) and the delta fits a 64-bit integer, it is that sum cut
    to 0..100. *)
Theorem UpdateUserRiskScore_clamps :
  forall userID delta now t,
    let t1 := snd (RiskChecks.UpdateUserRiskScore userID delta now t) in
    fst (RiskChecks.UpdateUserRiskScore userID delta now t) = None
    /\ exists score,
        RiskChecks.GetUserRiskScore userID t1 = (Ok score, t1)
        /\ 0 <= score <= 100
        /\ forall old,
            fst (RiskChecks.GetUserRiskScore userID t) = Ok old ->
            - 2 ^ 63 <= old + delta < 2 ^ 63 ->
            score = Z.max 0 (Z.min 100 (old + delta)).
Proof.
  intros userID delta now t.
  assert (Hclamp : forall x,
             let s0 := DepositConfirmations.to_int x in
             let s1 := if s0 <? 0 then 0 else s0 in
             let s2 := if 100 <? s1 then 100 else s1 in
             0 <= s2 <= 100
             /\ (- 2 ^ 63 <= x < 2 ^ 63 -> s2 = Z.max 0 (Z.min 100 x))).
  { intros x. cbv zeta. split.
    - destruct (Z.ltb_spec (DepositConfirmations.to_int x) 0);
        match goal with
        | |- context [100 <? ?a] => destruct (Z.ltb_spec 100 a)
        end; lia.
    - intros Hx. rewrite (to_int_small x Hx).
      destruct (Z.ltb_spec x 0);
        match goal with
        | |- context [100 <? ?a] => destruct (Z.ltb_spec 100 a)
        end; lia. }
  assert (Hread : forall (profile newp : RiskChecks.UserRiskProfile) t',
             find (fun p => RiskChecks.pUserID p =? userID) t' = Some profile ->
             RiskChecks.pID newp = RiskChecks.pID profile ->
             RiskChecks.pUserID newp = RiskChecks.pUserID profile ->
             let t1 := snd (RiskChecks.UpdateUserRiskProfile newp t') in
             RiskChecks.GetUserRiskScore userID t1
             = (Ok (RiskChecks.RiskScore newp), t1)).
  { intros profile newp t' Hfind Hid Hu. cbv zeta.
    unfold RiskChecks.GetUserRiskScore, RiskChecks.GetUserRiskProfile,
      RiskChecks.repoGetUserRiskProfile, RiskChecks.UpdateUserRiskProfile.
    cbn [snd].
    rewrite (find_replace (fun p => RiskChecks.pUserID p =? userID)
                          (fun x => RiskChecks.pID x =? RiskChecks.pID newp)
                          newp profile t' Hfind).
    - reflexivity.
    - rewrite Hid. apply Z.eqb_refl.
    - rewrite Hu. exact (proj2 (find_some _ _ Hfind)). }
  unfold RiskChecks.UpdateUserRiskScore, RiskChecks.GetUserRiskScore,
    RiskChecks.GetUserRiskProfile, RiskChecks.repoGetUserRiskProfile.
  destruct (find _ t) as [profile|] eqn:Hfind.
  - cbv zeta. split; [reflexivity|].
    destruct (Hclamp (RiskChecks.RiskScore profile + delta)) as [Hb Hs].
    cbv zeta in Hb, Hs.
    eexists. split.
    + apply (Hread profile); [exact Hfind|reflexivity|reflexivity].
    + cbn [RiskChecks.RiskScore]. split; [exact Hb|].
      cbn [fst]. intros old [= <-]. exact Hs.
  - unfold RiskChecks.CreateUserRiskProfile. cbn [RiskChecks.pUserID].
    rewrite (existsb_false_of_all _ _ (find_none _ _ Hfind)).
    cbv zeta. cbn [RiskChecks.RiskScore RiskChecks.LastRiskCheckAt
                   RiskChecks.pID RiskChecks.pUserID].
    split; [reflexivity|].
    destruct (Hclamp (0 + delta)) as [Hb Hs]. cbv zeta in Hb, Hs.
    eexists. split.
    + apply (Hread (RiskChecks.mkUserRiskProfile
                      (next_id (map RiskChecks.pID t)) userID 0 None));
        [|reflexivity|reflexivity].
      apply find_app_fresh; [exact (find_none _ _ Hfind)|].
      cbn [RiskChecks.pUserID]. apply Z.eqb_refl.
    + cbn [RiskChecks.RiskScore]. split; [exact Hb|].
      cbn [fst]. intros old [= <-]. exact Hs.
Qed.

End Risk.

(** ** The key manager *)

Section KeyStore.
Import KeyModel.

(** X22. Sign signs only with a key of the caller. The key is the first on
    record for the chain and address. Without one the call fails with key not
    found; if that key belongs to another user it fails with key does not
    belong to user; in both cases nothing is written and the signing primitive
    is not reached. Whenever the primitive is reached (the trace of signing
    calls has grown) and whenever a signature is returned, the key on record
    belongs to the caller and the stored private key decrypted under the
    service's encryption key: a returned signature is the one the primitive
    made of the payload with that private key. The keys and the signature
    requests are never changed. *)
Theorem Sign_only_with_the_callers_key :
  forall s userID chain address txData t,
    let r := KeyManager.Sign s userID chain address txData t in
    KeyRepo.keys (snd r) = KeyRepo.keys t
    /\ KeyRepo.requests (snd r) = KeyRepo.requests t
    /\ (KeyRepo.GetKeyByAddress chain address t = Ok None ->
        r = (Err ErrKeyNotFound, t))
    /\ (forall key,
          KeyRepo.GetKeyByAddress chain address t = Ok (Some key) ->
          kUserID key <> userID -> r = (Err ErrKeyNotOwned, t))
    /\ (KeyRepo.signed (snd r) <> KeyRepo.signed t \/ (exists sig, fst r = Ok sig) ->
        exists key priv privKey,
          KeyRepo.GetKeyByAddress chain address t = Ok (Some key)
          /\ kUserID key = userID
          /\ DecryptFromBase64 (KeyManager.lib s) (kEncryptedPriv key)
                               (KeyManager.encryptionKey s) = Ok priv
          /\ ToECDSA (KeyManager.lib s) priv = Ok privKey
          /\ KeyRepo.signed (snd r)
             = (KeyRepo.signed t
                  ++ [mkSignEvent chain address txData (KeyRepo.requests t)])%list
          /\ forall sig, fst r = Ok sig ->
                         ecdsaSign (KeyManager.lib s) txData privKey = Ok sig).
Proof.
  intros s userID chain address txData t r. subst r.
  destruct (Sign_effect s userID chain address txData t) as (Hk & Hr & _).
  split; [exact Hk|]. split; [exact Hr|].
  unfold KeyManager.Sign.
  destruct (KeyRepo.GetKeyByAddress chain address t) as [[key|]|err] eqn:Hget.
  - split; [discriminate|].
    destruct (Z.eqb_spec (kUserID key) userID) as [Hown|Hown]; cbn [negb].
    + split; [intros key' [= <-] Hne; contradiction|].
      destruct (DecryptFromBase64 (KeyManager.lib s) _ _) as [priv|e1] eqn:Hdec.
      * destruct (ToECDSA (KeyManager.lib s) priv) as [privKey|e2] eqn:Hec.
        { cbv zeta. intros _. exists key, priv, privKey.
          do 4 (split; [reflexivity || assumption|]).
          destruct (ecdsaSign (KeyManager.lib s) txData privKey) as [sig|e3];
            cbn [fst snd KeyRepo.record_sign KeyRepo.signed].
          - split; [reflexivity|]. now intros sig' [= <-].
          - split; [reflexivity|]. discriminate. }
        { cbn [fst snd]. intros [H|(sig & H)]; [now elim H|discriminate]. }
      * cbn [fst snd]. intros [H|(sig & H)]; [now elim H|discriminate].
    + split; [now intros key' [= <-] _|].
      cbn [fst snd]. intros [H|(sig & H)]; [now elim H|discriminate].
  - split; [reflexivity|]. split; [discriminate|].
    cbn [fst snd]. intros [H|(sig & H)]; [now elim H|discriminate].
  - split; [discriminate|]. split; [discriminate|].
    cbn [fst snd]. intros [H|(sig & H)]; [now elim H|discriminate].
Qed.

(** X23. One master key per user and chain. GenerateMasterKey fails with
    master key already exists, writing nothing, when the user has a master key
    on the chain; every failure leaves the key store as it was. On success
    exactly one key is appended, of type master, for the user and the chain,
    holding the encryption of the key derived from the mnemonic that is
    returned; it is the master key read back afterwards, so that a further
    GenerateMasterKey for the user and chain fails with master key already
    exists. *)
Theorem GenerateMasterKey_once :
  forall s userID chain entropy t,
    let r := KeyManager.GenerateMasterKey s userID chain entropy t in
    (forall e, fst r = Err e -> snd r = t)
    /\ (forall existing,
          KeyRepo.GetMasterKey userID chain t = Ok (Some existing) ->
          r = (Err ErrMasterKeyExists, t))
    /\ (forall key mnemonic,
          fst r = Ok (key, mnemonic) ->
          entropy = Ok mnemonic
          /\ KeyRepo.GetMasterKey userID chain t = Ok None
          /\ snd r = KeyRepo.mkTables (KeyRepo.keys t ++ [key])
                                      (KeyRepo.requests t) (KeyRepo.signed t)
          /\ kKeyType key = "master" /\ kUserID key = userID /\ kChain key = chain
          /\ (exists masterKey,
                NewMasterKey (KeyManager.lib s) (NewSeed (KeyManager.lib s) mnemonic)
                = Ok masterKey
                /\ EncryptToBase64 (KeyManager.lib s) (Key masterKey)
                                   (KeyManager.encryptionKey s)
                   = Ok (kEncryptedPriv key))
          /\ KeyRepo.GetMasterKey userID chain (snd r) = Ok (Some key)
          /\ forall entropy',
              KeyManager.GenerateMasterKey s userID chain entropy' (snd r)
              = (Err ErrMasterKeyExists, snd r)).
Proof.
  intros s userID chain entropy t r.
  assert (Hr : r = KeyManager.GenerateMasterKey s userID chain entropy t)
    by reflexivity.
  clearbody r. unfold KeyManager.GenerateMasterKey in Hr.
  destruct (KeyRepo.GetMasterKey userID chain t) as [[existing|]|err] eqn:Hget.
  - subst r. split; [reflexivity|]. split; [reflexivity|]. discriminate.
  - destruct entropy as [mnemonic|e0].
    2:{ subst r. split; [reflexivity|]. split; [discriminate|]. discriminate. }
    destruct (NewMasterKey (KeyManager.lib s) _) as [masterKey|e1] eqn:Hm.
    2:{ subst r. split; [reflexivity|]. split; [discriminate|]. discriminate. }
    destruct (EncryptToBase64 (KeyManager.lib s) _ _) as [enc|e2] eqn:Henc.
    2:{ subst r. split; [reflexivity|]. split; [discriminate|]. discriminate. }
    unfold KeyRepo.CreateKey in Hr. cbv zeta in Hr. subst r. cbn [fst snd].
    split; [discriminate|]. split; [discriminate|].
    intros key mnemonic' [= <- <-].
    cbn [kKeyType kUserID kChain kEncryptedPriv set_kID].
    split; [reflexivity|]. split; [reflexivity|]. split; [reflexivity|].
    do 3 (split; [reflexivity|]).
    split; [now exists masterKey|].
    assert (Hread : KeyRepo.GetMasterKey
                      userID chain
                      (KeyRepo.mkTables
                         (KeyRepo.keys t
                            ++ [set_kID (next_id (map kID (KeyRepo.keys t)))
                                  (mkEncryptedKey
                                     0 userID chain
                                     (hexEncode
                                        (Key (PublicKey (KeyManager.lib s) masterKey)))
                                     enc "master" "" "" 1)])
                         (KeyRepo.requests t) (KeyRepo.signed t))
                    = Ok (Some (set_kID (next_id (map kID (KeyRepo.keys t)))
                                  (mkEncryptedKey
                                     0 userID chain
                                     (hexEncode
                                        (Key (PublicKey (KeyManager.lib s) masterKey)))
                                     enc "master" "" "" 1)))).
    { unfold KeyRepo.GetMasterKey in *. cbn [KeyRepo.keys]. f_equal.
      injection Hget as Hget.
      apply find_app_fresh; [exact (find_none _ _ Hget)|].
      cbn [kUserID kChain kKeyType set_kID].
      now rewrite Z.eqb_refl, String.eqb_refl. }
    split; [exact Hread|].
    intros entropy'. unfold KeyManager.GenerateMasterKey. now rewrite Hread.
  - subst r. split; [reflexivity|]. split; [discriminate|]. discriminate.
Qed.

Lemma GenerateMasterKey_shape s userID chain entropy t :
  let r := KeyManager.GenerateMasterKey s userID chain entropy t in
  match fst r with
  | Err _ => snd r = t
  | Ok (key, _) =>
      snd r = KeyRepo.mkTables (KeyRepo.keys t ++ [key])
                               (KeyRepo.requests t) (KeyRepo.signed t)
      /\ kKeyType key = "master" /\ kUserID key = userID /\ kChain key = chain
      /\ KeyRepo.GetMasterKey userID chain t = Ok None
  end.
Proof.
  cbv zeta. unfold KeyManager.GenerateMasterKey.
  destruct (KeyRepo.GetMasterKey userID chain t) as [[existing|]|err];
    try reflexivity.
  destruct entropy as [mnemonic|e0]; [|reflexivity].
  destruct (NewMasterKey (KeyManager.lib s) _) as [masterKey|e1]; [|reflexivity].
  destruct (EncryptToBase64 (KeyManager.lib s) _ _) as [enc|e2]; [|reflexivity].
  unfold KeyRepo.CreateKey. cbn. repeat split.
Qed.

Lemma derive_and_store_shape s userID chain masterKey t :
  let r := KeyManager.derive_and_store s userID chain masterKey t in
  match fst r with
  | Err _ => snd r = t
  | Ok (addr, path) =>
      exists dk,
        snd r = KeyRepo.mkTables (KeyRepo.keys t ++ [dk])
                                 (KeyRepo.requests t) (KeyRepo.signed t)
        /\ kKeyType dk = "derived" /\ kUserID dk = userID /\ kChain dk = chain
        /\ kAddress dk = addr /\ kDerivationPath dk = path
  end.
Proof.
  cbv zeta. unfold KeyManager.derive_and_store.
  destruct (DecryptFromBase64 (KeyManager.lib s) _ _) as [priv|e0]; [|reflexivity].
  destruct (KeyRepo.GetNextDerivationIndex userID chain t) as [index|e1];
    [|reflexivity].
  cbv zeta.
  destruct (NewMasterKey (KeyManager.lib s) priv) as [master|e2]; [|reflexivity].
  destruct (KeyManager.deriveAddress s chain _) as [address|e3]; [|reflexivity].
  destruct (EncryptToBase64 (KeyManager.lib s) _ _) as [enc|e4]; [|reflexivity].
  unfold KeyRepo.CreateKey. cbn [fst snd].
  eexists. split; [reflexivity|]. repeat split.
Qed.

(** X24. What GenerateAddress of the key manager can do to the key store. It
    never touches the signature requests or the trace of signing calls, and
    never changes or removes a key: the keys afterwards are those before
    followed by at most two new ones, each for the user and the chain. On
    success the last new key is of type derived and carries the address and
    the derivation path returned; it is preceded by a new master key exactly
    when the user had none on the chain. On failure either nothing was added,
    or the user had no master key and exactly the new master key was added: it
    stays on record although the call failed, and its mnemonic was not
    returned. *)
Theorem GenerateAddress_only_appends_keys :
  forall s userID chain entropy t,
    let r := KeyManager.GenerateAddress s userID chain entropy t in
    KeyRepo.requests (snd r) = KeyRepo.requests t
    /\ KeyRepo.signed (snd r) = KeyRepo.signed t
    /\ exists new,
        KeyRepo.keys (snd r) = (KeyRepo.keys t ++ new)%list
        /\ Forall (fun k => kUserID k = userID /\ kChain k = chain) new
        /\ (List.length new <= 2)%nat
        /\ (forall addr path,
              fst r = Ok (addr, path) ->
              exists dk,
                kKeyType dk = "derived" /\ kAddress dk = addr
                /\ kDerivationPath dk = path
                /\ ((exists existing,
                        KeyRepo.GetMasterKey userID chain t = Ok (Some existing))
                    /\ new = [dk]
                    \/ KeyRepo.GetMasterKey userID chain t = Ok None
                       /\ exists mk, kKeyType mk = "master" /\ new = [mk; dk]))
        /\ (forall e,
              fst r = Err e ->
              new = []
              \/ KeyRepo.GetMasterKey userID chain t = Ok None
                 /\ exists mk, kKeyType mk = "master" /\ new = [mk]).
Proof.
  intros s userID chain entropy t r. subst r. unfold KeyManager.GenerateAddress.
  destruct (KeyRepo.GetMasterKey userID chain t) as [[existing|]|err] eqn:Hget.
  - pose proof (derive_and_store_shape s userID chain existing t) as H.
    cbv zeta in H.
    destruct (KeyManager.derive_and_store s userID chain existing t)
      as [[[addr path]|e] t'].
    + cbn [fst snd] in *. destruct H as (dk & -> & Ht & Hu & Hc & Ha & Hp).
      cbn [KeyRepo.requests KeyRepo.signed KeyRepo.keys].
      split; [reflexivity|]. split; [reflexivity|].
      exists [dk]. split; [reflexivity|].
      split; [constructor; [now split|constructor]|].
      split; [cbn; lia|]. split; [|discriminate].
      intros addr' path' [= <- <-]. exists dk.
      repeat (split; [assumption|]). left. split; [now exists existing|reflexivity].
    + cbn [fst snd] in *. subst t'.
      split; [reflexivity|]. split; [reflexivity|].
      exists []. split; [now rewrite app_nil_r|]. split; [constructor|].
      split; [cbn; lia|]. split; [discriminate|]. intros e' _. now left.
  - pose proof (GenerateMasterKey_shape s userID chain entropy t) as Hm.
    cbv zeta in Hm.
    destruct (KeyManager.GenerateMasterKey s userID chain entropy t)
      as [[[mk mnemonic]|e] t1].
    + cbn [fst snd] in Hm. destruct Hm as (-> & Hmt & Hmu & Hmc & _).
      pose proof (derive_and_store_shape
                    s userID chain mk
                    (KeyRepo.mkTables (KeyRepo.keys t ++ [mk]) (KeyRepo.requests t)
                                      (KeyRepo.signed t))) as H.
      cbv zeta in H.
      destruct (KeyManager.derive_and_store _ _ _ _ _) as [[[addr path]|e] t'].
      * cbn [fst snd] in *. destruct H as (dk & -> & Ht & Hu & Hc & Ha & Hp).
        cbn [KeyRepo.requests KeyRepo.signed KeyRepo.keys].
        split; [reflexivity|]. split; [reflexivity|].
        exists [mk; dk]. split; [now rewrite <- app_assoc|].
        split; [repeat constructor; assumption|].
        split; [cbn; lia|]. split; [|discriminate].
        intros addr' path' [= <- <-]. exists dk.
        repeat (split; [assumption|]). right. split; [reflexivity|].
        exists mk. now split.
      * cbn [fst snd] in *. subst t'.
        cbn [KeyRepo.requests KeyRepo.signed KeyRepo.keys].
        split; [reflexivity|]. split; [reflexivity|].
        exists [mk]. split; [reflexivity|].
        split; [repeat constructor; assumption|].
        split; [cbn; lia|]. split; [discriminate|].
        intros e' _. right. split; [reflexivity|]. exists mk. now split.
    + cbn [fst snd] in *. subst t1.
      split; [reflexivity|]. split; [reflexivity|].
      exists []. split; [now rewrite app_nil_r|]. split; [constructor|].
      split; [cbn; lia|]. split; [discriminate|]. intros e' _. now left.
  - cbn [fst snd].
    split; [reflexivity|]. split; [reflexivity|].
    exists []. split; [now rewrite app_nil_r|]. split; [constructor|].
    split; [cbn; lia|]. split; [discriminate|]. intros e' _. now left.
Qed.

End KeyStore.

(** ** Addresses of a wallet and deposit addresses *)

Section Addresses.

(** X25. GenerateAddress of the wallet package. It fails with wallet not found
    for an unknown wallet, changing nothing, and no failure changes the
    wallets, the addresses or the ledger. On success the address the key
    manager generated for the wallet's user is appended to the addresses, as
    an active deposit address of the wallet, the user and the chain with the
    label asked for and the derivation path the key manager returned. The
    ledger then holds a balance row for the user, the chain and the chain's
    default currency: the ledger is unchanged if it had one, otherwise an all-
    zero row of the wallet is appended, so a second address never duplicates
    the row. GetDepositAddress for the user and the chain succeeds afterwards,
    with an active deposit address of the user on the chain. *)
Theorem wallet_GenerateAddress_opens_the_balance :
  forall km walletID chain label entropy uuid st,
    let r := WalletAddresses.GenerateAddress km walletID chain label entropy uuid st in
    WalletAddresses.wallets (snd r) = WalletAddresses.wallets st
    /\ (WalletAddresses.GetWalletByID walletID (WalletAddresses.wallets st) = Ok None ->
        r = (Err WalletAddresses.ErrWalletNotFound, st))
    /\ (forall e, fst r = Err e ->
                  WalletAddresses.addresses (snd r) = WalletAddresses.addresses st
                  /\ WalletAddresses.balances (snd r) = WalletAddresses.balances st)
    /\ forall address,
        fst r = Ok address ->
        exists wallet,
          WalletAddresses.GetWalletByID walletID (WalletAddresses.wallets st)
          = Ok (Some wallet)
          /\ (exists keys',
                KeyManager.GenerateAddress km (WalletModel.wUserID wallet) chain
                                           entropy (WalletAddresses.keystore st)
                = (Ok (WalletAddresses.Addr address,
                       WalletAddresses.DerivationPath address), keys')
                /\ WalletAddresses.keystore (snd r) = keys')
          /\ WalletAddresses.addresses (snd r)
             = (WalletAddresses.addresses st ++ [address])%list
          /\ WalletAddresses.WalletID address = walletID
          /\ WalletAddresses.UserID address = WalletModel.wUserID wallet
          /\ WalletAddresses.Chain address = chain
          /\ WalletAddresses.Label address = label
          /\ WalletAddresses.Type_ address = WalletAddresses.AddressTypeDeposit
          /\ WalletAddresses.Status address = WalletAddresses.AddressStatusActive
          /\ (forall b,
                WalletRepo.GetBalance (WalletModel.wUserID wallet) chain
                                      (WalletAddresses.getDefaultCurrency chain)
                                      (WalletAddresses.balances st) = Ok (Some b) ->
                WalletAddresses.balances (snd r) = WalletAddresses.balances st)
          /\ (WalletRepo.GetBalance (WalletModel.wUserID wallet) chain
                                    (WalletAddresses.getDefaultCurrency chain)
                                    (WalletAddresses.balances st) = Ok None ->
              WalletAddresses.balances (snd r)
              = (WalletAddresses.balances st
                   ++ [WalletModel.mkBalance
                         (next_id (map WalletModel.ID (WalletAddresses.balances st)))
                         walletID (WalletModel.wUserID wallet) chain
                         (WalletAddresses.getDefaultCurrency chain) 0 0 0])%list)
          /\ (exists b,
                WalletRepo.GetBalance (WalletModel.wUserID wallet) chain
                                      (WalletAddresses.getDefaultCurrency chain)
                                      (WalletAddresses.balances (snd r))
                = Ok (Some b))
          /\ exists a,
              WalletAddresses.GetDepositAddress (WalletModel.wUserID wallet) chain
                                                (snd r) = Ok a
              /\ WalletAddresses.UserID a = WalletModel.wUserID wallet
              /\ WalletAddresses.Chain a = chain
              /\ WalletAddresses.Type_ a = WalletAddresses.AddressTypeDeposit
              /\ WalletAddresses.Status a = WalletAddresses.AddressStatusActive.
Proof.
  intros km walletID chain label entropy uuid st r.
  assert (Hr : r = WalletAddresses.GenerateAddress km walletID chain label entropy
                                                   uuid st) by reflexivity.
  clearbody r. unfold WalletAddresses.GenerateAddress in Hr.
  destruct (WalletAddresses.GetWalletByID walletID (WalletAddresses.wallets st))
    as [[wallet|]|err] eqn:Hw.
  2:{ subst r. cbn [fst snd]. repeat split; discriminate. }
  2:{ subst r. cbn [fst snd]. repeat split; discriminate. }
  cbv zeta in Hr.
  destruct (KeyManager.GenerateAddress km (WalletModel.wUserID wallet) chain entropy
                                       (WalletAddresses.keystore st))
    as [[[addr path]|e] k] eqn:Hk.
  2:{ subst r. cbn [fst snd WalletAddresses.wallets WalletAddresses.addresses
                    WalletAddresses.balances].
      repeat split; discriminate. }
  unfold WalletAddresses.CreateAddress in Hr. cbn [WalletAddresses.UUID] in Hr.
  destruct (existsb _ (WalletAddresses.addresses st)).
  { subst r. cbn [fst snd WalletAddresses.wallets WalletAddresses.addresses
                  WalletAddresses.balances].
    repeat split; discriminate. }
  set (address := WalletAddresses.set_ID _ _) in Hr.
  set (bals := match _ with Some _ => _ | None => _ end) in Hr.
  subst r. cbn [fst snd WalletAddresses.wallets WalletAddresses.addresses
                WalletAddresses.balances WalletAddresses.keystore].
  split; [reflexivity|]. split; [discriminate|]. split; [discriminate|].
  intros address' [= <-]. exists wallet. split; [reflexivity|].
  split; [exists k; split; [rewrite Hk|]; reflexivity|].
  do 7 (split; [reflexivity|]).
  assert (Hfresh : WalletRepo.GetBalance (WalletModel.wUserID wallet) chain
                     (WalletAddresses.getDefaultCurrency chain)
                     (WalletAddresses.balances st) = Ok None ->
                   bals = (WalletAddresses.balances st
                             ++ [WalletModel.mkBalance
                                   (next_id (map WalletModel.ID
                                                 (WalletAddresses.balances st)))
                                   walletID (WalletModel.wUserID wallet) chain
                                   (WalletAddresses.getDefaultCurrency chain) 0 0 0])%list).
  { intros H. subst bals. rewrite H. reflexivity. }
  split; [intros b Hb; subst bals; now rewrite Hb|].
  split; [exact Hfresh|].
  split.
  - destruct (WalletRepo.GetBalance (WalletModel.wUserID wallet) chain
                (WalletAddresses.getDefaultCurrency chain)
                (WalletAddresses.balances st)) as [[b|]|err] eqn:Hb.
    + exists b. subst bals. exact Hb.
    + rewrite (Hfresh eq_refl). eexists.
      unfold WalletRepo.GetBalance in *. injection Hb as Hb. f_equal.
      apply find_app_fresh; [exact (find_none _ _ Hb)|].
      unfold WalletRepo.is_row.
      cbn [WalletModel.UserID WalletModel.Chain WalletModel.Currency].
      now rewrite Z.eqb_refl, !String.eqb_refl.
    + unfold WalletRepo.GetBalance in Hb. discriminate.
  - unfold WalletAddresses.GetDepositAddress, WalletAddresses.GetAvailableDepositAddress.
    cbn [WalletAddresses.addresses].
    set (p := fun a : WalletAddresses.Address =>
                (WalletAddresses.UserID a =? WalletModel.wUserID wallet)
                && String.eqb (WalletAddresses.Chain a) chain
                && (WalletAddresses.Type_ a =? WalletAddresses.AddressTypeDeposit)
                && (WalletAddresses.Status a =? WalletAddresses.AddressStatusActive)).
    assert (Hp : p address = true).
    { subst p address. cbn. now rewrite Z.eqb_refl, String.eqb_refl. }
    assert (Hin : In address (WalletAddresses.addresses st ++ [address])%list).
    { apply in_or_app. right. now left. }
    destruct (find_some_of_In p _ address Hin Hp) as [a Ha].
    rewrite Ha. exists a. split; [reflexivity|].
    destruct (find_some _ _ Ha) as [_ Hpa]. subst p. cbv beta in Hpa.
    apply andb_prop in Hpa. destruct Hpa as [Hpa Hs].
    apply andb_prop in Hpa. destruct Hpa as [Hpa Ht].
    apply andb_prop in Hpa. destruct Hpa as [Hu Hc].
    apply Z.eqb_eq in Hu, Ht, Hs. apply String.eqb_eq in Hc.
    repeat split; assumption.
Qed.

(** X26. AllocateDepositAddress gives a user one deposit address per chain and
    keeps giving the same. It never touches the deposits, the scan progress,
    the ledger or the wallets, and a failure changes nothing. The address
    returned is for the user and the chain, is the one on record for them
    afterwards, and every later call returns it again without writing. If the
    user had none, the address is that of one of the user's wallet addresses
    on the chain and is appended to the deposit addresses. Database failures
    aside, the call fails only for a user without deposit address on the
    chain: with no address available when the user has no wallet address on
    the chain either, and with a duplicate key when a wallet address is
    already registered as a deposit address. *)
Theorem AllocateDepositAddress_is_stable :
  forall userID chain walletAddrs st,
    let r := DepositConfirmations.AllocateDepositAddress userID chain walletAddrs st in
    DepositRepo.deposits (DepositService.db (snd r))
    = DepositRepo.deposits (DepositService.db st)
    /\ DepositRepo.progress (DepositService.db (snd r))
       = DepositRepo.progress (DepositService.db st)
    /\ DepositService.balances (snd r) = DepositService.balances st
    /\ DepositService.wallets (snd r) = DepositService.wallets st
    /\ (forall e, fst r = Err e ->
                  snd r = st
                  /\ DepositConfirmations.GetUserDepositAddress
                       userID chain (DepositService.db st) = Ok None
                  /\ (e = DepositConfirmations.ErrNoAddress
                      /\ WalletAddresses.ListAddressesByUserID userID chain walletAddrs
                         = Ok []
                      \/ e = ErrDuplicateKey
                         /\ exists w a,
                             In w walletAddrs
                             /\ In a (DepositRepo.addresses (DepositService.db st))
                             /\ DepositModel.aAddress a = WalletAddresses.Addr w))
    /\ forall a,
        fst r = Ok a ->
        DepositModel.aUserID a = userID /\ DepositModel.aChain a = chain
        /\ DepositConfirmations.GetUserDepositAddress
             userID chain (DepositService.db (snd r)) = Ok (Some a)
        /\ (forall walletAddrs',
              DepositConfirmations.AllocateDepositAddress
                userID chain walletAddrs' (snd r) = (Ok a, snd r))
        /\ (DepositConfirmations.GetUserDepositAddress
              userID chain (DepositService.db st) = Ok (Some a)
            /\ snd r = st
            \/ DepositConfirmations.GetUserDepositAddress
                 userID chain (DepositService.db st) = Ok None
               /\ DepositRepo.addresses (DepositService.db (snd r))
                  = (DepositRepo.addresses (DepositService.db st) ++ [a])%list
               /\ exists w,
                   In w walletAddrs
                   /\ WalletAddresses.UserID w = userID
                   /\ (chain = "" \/ WalletAddresses.Chain w = chain)
                   /\ DepositModel.aAddress a = WalletAddresses.Addr w).
Proof.
  intros userID chain walletAddrs st r.
  assert (Hr : r = DepositConfirmations.AllocateDepositAddress
                     userID chain walletAddrs st) by reflexivity.
  clearbody r. unfold DepositConfirmations.AllocateDepositAddress in Hr.
  assert (Hagain : forall a st1,
             DepositConfirmations.GetUserDepositAddress
               userID chain (DepositService.db st1) = Ok (Some a) ->
             forall walletAddrs',
               DepositConfirmations.AllocateDepositAddress userID chain walletAddrs' st1
               = (Ok a, st1)).
  { intros a st1 H walletAddrs'.
    unfold DepositConfirmations.AllocateDepositAddress. now rewrite H. }
  destruct (DepositConfirmations.GetUserDepositAddress userID chain (DepositService.db st))
    as [[existing|]|err] eqn:Hget.
  - subst r. cbn [fst snd]. do 4 (split; [reflexivity|]).
    split; [discriminate|]. intros a [= <-].
    assert (Hm := Hget). unfold DepositConfirmations.GetUserDepositAddress in Hm.
    injection Hm as Hm. destruct (find_some _ _ Hm) as [_ Hp].
    apply andb_prop in Hp. destruct Hp as [Hu Hc].
    apply Z.eqb_eq in Hu. apply String.eqb_eq in Hc.
    split; [exact Hu|]. split; [exact Hc|]. split; [exact Hget|].
    split; [now apply Hagain|]. left. now split.
  - destruct (WalletAddresses.ListAddressesByUserID userID chain walletAddrs)
      as [[|first rest]|err] eqn:Hlist.
    + subst r. cbn [fst snd]. do 4 (split; [reflexivity|]).
      split; [|discriminate]. intros e [= <-].
      split; [reflexivity|]. split; [reflexivity|]. left. now split.
    + assert (Hfirst : In first walletAddrs
                       /\ WalletAddresses.UserID first = userID
                       /\ (chain = "" \/ WalletAddresses.Chain first = chain)).
      { unfold WalletAddresses.ListAddressesByUserID in Hlist.
        injection Hlist as Hlist.
        assert (Hin : In first (first :: rest)) by now left.
        rewrite <- Hlist in Hin. apply filter_In in Hin.
        destruct Hin as [Hin Hp]. split; [exact Hin|].
        apply andb_prop in Hp. destruct Hp as [Hu Hc].
        apply Z.eqb_eq in Hu. split; [exact Hu|].
        destruct (String.eqb_spec chain ""); [now left|right].
        now apply String.eqb_eq. }
      destruct Hfirst as (Hin & Hu & Hc).
      unfold DepositConfirmations.CreateDepositAddress in Hr.
      cbn [DepositModel.aAddress] in Hr.
      destruct (existsb _ (DepositRepo.addresses (DepositService.db st))) eqn:Hdup.
      * subst r. cbn [fst snd]. do 4 (split; [reflexivity|]).
        split; [|discriminate]. intros e [= <-].
        split; [reflexivity|]. split; [reflexivity|]. right.
        split; [reflexivity|].
        apply existsb_exists in Hdup. destruct Hdup as (a & Ha & Heq).
        apply String.eqb_eq in Heq. exists first, a. repeat split; assumption.
      * subst r.
        cbn [fst snd DepositService.set_db DepositService.db DepositService.balances
             DepositService.wallets DepositRepo.deposits DepositRepo.progress
             DepositRepo.addresses].
        do 4 (split; [reflexivity|]). split; [discriminate|].
        intros a [= <-]. cbn [DepositModel.aUserID DepositModel.aChain
                              DepositModel.aAddress].
        split; [reflexivity|]. split; [reflexivity|].
        assert (Hread : DepositConfirmations.GetUserDepositAddress
                          userID chain
                          (DepositRepo.mkTables
                             (DepositRepo.deposits (DepositService.db st))
                             (DepositRepo.addresses (DepositService.db st)
                                ++ [DepositModel.mkDepositAddress
                                      userID chain (WalletAddresses.Addr first)])
                             (DepositRepo.progress (DepositService.db st)))
                        = Ok (Some (DepositModel.mkDepositAddress
                                      userID chain (WalletAddresses.Addr first)))).
        { unfold DepositConfirmations.GetUserDepositAddress in *.
          cbn [DepositRepo.addresses]. injection Hget as Hget. f_equal.
          apply find_app_fresh; [exact (find_none _ _ Hget)|].
          cbn [DepositModel.aUserID DepositModel.aChain].
          now rewrite Z.eqb_refl, String.eqb_refl. }
        split; [exact Hread|].
        split; [intros walletAddrs'; now apply Hagain|].
        right. split; [reflexivity|]. split; [reflexivity|].
        exists first. repeat split; assumption.
    + unfold WalletAddresses.ListAddressesByUserID in Hlist. discriminate.
  - unfold DepositConfirmations.GetUserDepositAddress in Hget. discriminate.
Qed.

End Addresses.
